(** * coin-futures-websocket: a shallow embedding of the fan-out gateway

    The development follows the Go packages of the repository:
    [Channel] (internal/websocket/channel), [Protocol]
    (internal/websocket/protocol), [Server] (internal/websocket/server: Client,
    Hub, NewServer), [Kafka] (internal/kafka: the Broadcaster and its
    subscription index), [Handler] (internal/websocket/handler), [Service]
    (internal/service: rate provider, rate cache, currency service,
    transformer) and [App] (cmd/app/main.go).

    Go maps are [gmap]s, Go sets written as [map[K]bool] are [gset]s, Go
    strings are byte strings and so [string]; [*Client] pointers are addresses
    into an explicit heap of client records; [int] and [time.Duration] are
    64-bit integers kept as [Z] with the wrap-around written out; [float64] is
    IEEE binary64 as specified by [SpecFloat]. *)

From Stdlib Require Import ZArith String Ascii List Bool Lia.
From Stdlib Require Import SpecFloat.
From stdpp Require Import gmap strings list fin_maps.

Local Open Scope string_scope.

(** ** Results of fallible Go functions: [(v, nil)] or [(_, err)] *)

Inductive result (E A : Type) : Type :=
| Ok (a : A)
| Err (e : E).
Arguments Ok {E A} a.
Arguments Err {E A} e.

(** ** The pieces of package [strings] the code uses *)

Module Strings.

(** [strings.HasPrefix(s, prefix)] *)
Fixpoint HasPrefix (s prefix : string) {struct prefix} : bool :=
  match prefix, s with
  | EmptyString, _ => true
  | String p prefix', String c s' => Ascii.eqb c p && HasPrefix s' prefix'
  | String _ _, EmptyString => false
  end.

(** [s[n:]] for [n <= len(s)] *)
Fixpoint dropBytes (n : nat) (s : string) : string :=
  match n, s with
  | O, _ => s
  | S n', String _ s' => dropBytes n' s'
  | S _, EmptyString => EmptyString
  end.

(** [strings.TrimPrefix(s, prefix)] *)
Definition TrimPrefix (s prefix : string) : string :=
  if HasPrefix s prefix then dropBytes (String.length prefix) s else s.

(** [strings.Split(s, sep)] for a separator of one byte: the pieces of [s]
    between the occurrences of [sep]; a string without [sep] (also the empty
    one) is returned as its only piece. *)
Fixpoint Split (s : string) (sep : ascii) : list string :=
  match s with
  | EmptyString => [EmptyString]
  | String c s' =>
      if Ascii.eqb c sep then EmptyString :: Split s' sep
      else match Split s' sep with
           | piece :: pieces => String c piece :: pieces
           | [] => [String c EmptyString]
           end
  end.

Fixpoint occurs (sep : ascii) (s : string) : bool :=
  match s with
  | EmptyString => false
  | String c s' => Ascii.eqb c sep || occurs sep s'
  end.

(** [strings.HasSuffix(s, suffix)] *)
Definition HasSuffix (s suffix : string) : bool :=
  let n := String.length s in
  let k := String.length suffix in
  (k <=? n)%nat && String.eqb (dropBytes (n - k) s) suffix.

End Strings.

(** ** Package [channel]: channel names *)

Module Channel.

Definition PrefixUser : string := "user:".

Definition ValidUserChannels : gmap string bool :=
  <["margin" := true]> (<["position" := true]> ∅).

Inductive ChannelError : Type :=
| ErrInvalidChannelFormat
| ErrUnknownChannelType
| ErrInvalidCFXUserID.

(** [Error()] of the three sentinel errors *)
Definition errorText (e : ChannelError) : string :=
  match e with
  | ErrInvalidChannelFormat => "invalid channel format"
  | ErrUnknownChannelType => "unknown channel type"
  | ErrInvalidCFXUserID => "invalid cfx_user_id format"
  end.

Record ChannelInfo : Type := mkChannelInfo {
  Name : string;
  Prefix : string;
  UserID : string;
  AjaibID : string;
  ChannelSub : string
}.

Definition isDigit (c : ascii) : bool :=
  let n := nat_of_ascii c in (48 <=? n)%nat && (n <=? 57)%nat.

Fixpoint allDigits (s : string) : bool :=
  match s with
  | EmptyString => true
  | String c s' => isDigit c && allDigits s'
  end.

(** [ajaibIDPattern.MatchString(userID)] for the pattern [^[0-9]{1,10}$]:
    without the multi-line flag [^] and [$] match at the two ends of the
    text only, so the match is on the whole string. *)
Definition isValidAjaibID (userID : string) : bool :=
  let n := String.length userID in
  (1 <=? n)%nat && (n <=? 10)%nat && allDigits userID.

Definition ParseChannel (channel : string) : result ChannelError ChannelInfo :=
  if negb (Strings.HasPrefix channel PrefixUser) then Err ErrUnknownChannelType
  else
    match Strings.Split (Strings.TrimPrefix channel PrefixUser) ":" with
    | [ajaibID; channelSub] =>
        if String.eqb ajaibID "" then Err ErrInvalidChannelFormat
        else if String.eqb channelSub "" then Err ErrInvalidChannelFormat
        else if negb (isValidAjaibID ajaibID) then Err ErrInvalidCFXUserID
        else if negb (default false (ValidUserChannels !! channelSub))
             then Err ErrUnknownChannelType
        else Ok {| Name := channel; Prefix := PrefixUser; UserID := "";
                   AjaibID := ajaibID; ChannelSub := channelSub |}
    | _ => Err ErrInvalidChannelFormat
    end.

(** The channel suffixes of the specification *)
Definition validSuffix (suffix : string) : Prop :=
  suffix = "margin" \/ suffix = "position".

End Channel.

(** ** Machine integers and panics *)

(** Go's [int], [int64] and [time.Duration] on the 64-bit targets: two's
    complement with silent wrap-around. *)
Definition wrap64 (z : Z) : Z := ((z + 2 ^ 63) mod 2 ^ 64 - 2 ^ 63)%Z.

(** A Go call that either returns or panics (nil dereference, closing a closed
    channel, sending on a closed channel). *)
Inductive outcome (A : Type) : Type :=
| Done (a : A)
| Panic (reason : string).
Arguments Done {A} a.
Arguments Panic {A} reason.

Definition obind {A B : Type} (x : outcome A) (f : A -> outcome B) : outcome B :=
  match x with
  | Done a => f a
  | Panic reason => Panic reason
  end.

Notation "x <-! e1 ;; e2" := (obind e1 (fun x => e2))
  (at level 100, e1 at next level, right associativity).

(** [[]byte] *)
Abbreviation bytes := (list Byte.byte).

(** ** Package [protocol]: frames *)

Module Protocol.

Definition TypeSubscribe : string := "subscribe".
Definition TypeUnsubscribe : string := "unsubscribe".
Definition TypePing : string := "ping".
Definition TypeConnected : string := "connected".
Definition TypeSubscribed : string := "subscribed".
Definition TypeUnsubscribed : string := "unsubscribed".
Definition TypePong : string := "pong".
Definition TypePublication : string := "publication".
Definition TypeError : string := "error".
Definition TypeDisconnect : string := "disconnect".

Definition CodeBadRequest : Z := 4000.
Definition CodeChannelNotFound : Z := 4001.
Definition CodeAlreadySubscribed : Z := 4002.
Definition CodeNotSubscribed : Z := 4003.
Definition CodeSubscriptionLimit : Z := 4004.
Definition CodeUnauthorized : Z := 4100.
Definition CodeConnectionLimit : Z := 4200.
Definition CodeInternalError : Z := 4500.

Record Message : Type := mkMessage {
  ID : string;
  Type_ : string;
  Channel : string;
  Data : bytes;
  Success : bool;
  Code : Z;
  Message_ : string;
  Timestamp : Z
}.

(** The constructors read the wall clock ([time.Now().UnixMilli()]); the
    reading is the argument [now]. *)

Definition NewSubscribedMessage (now : Z) (requestID channel : string) : Message :=
  {| ID := requestID; Type_ := TypeSubscribed; Channel := channel; Data := [];
     Success := true; Code := 0; Message_ := ""; Timestamp := now |}.

Definition NewUnsubscribedMessage (now : Z) (requestID channel : string) : Message :=
  {| ID := requestID; Type_ := TypeUnsubscribed; Channel := channel; Data := [];
     Success := true; Code := 0; Message_ := ""; Timestamp := now |}.

Definition NewPublicationMessage (now : Z) (channel : string) (data : bytes) : Message :=
  {| ID := ""; Type_ := TypePublication; Channel := channel; Data := data;
     Success := false; Code := 0; Message_ := ""; Timestamp := now |}.

Definition NewPongMessage (now : Z) (requestID : string) : Message :=
  {| ID := requestID; Type_ := TypePong; Channel := ""; Data := [];
     Success := false; Code := 0; Message_ := ""; Timestamp := now |}.

Definition NewErrorMessage (now : Z) (requestID : string) (code : Z) (message : string)
  : Message :=
  {| ID := requestID; Type_ := TypeError; Channel := ""; Data := [];
     Success := false; Code := code; Message_ := message; Timestamp := now |}.

(** [NewConnectedMessage]; [dataBytes] is what [json.Marshal] makes of the map
    with the client id and the public identifier. *)
Definition NewConnectedMessage (now : Z) (dataBytes : bytes) : Message :=
  {| ID := ""; Type_ := TypeConnected; Channel := ""; Data := dataBytes;
     Success := false; Code := 0; Message_ := ""; Timestamp := now |}.

End Protocol.

(** ** Package [server]: clients and the Hub *)

Module Server.

Inductive SendError : Type :=
| ErrClientBufferFull
| ErrEncode (why : string).

(** A buffered Go channel of frames: the frames waiting in it, oldest first,
    its capacity, and whether [close] was called on it. *)
Record Chan : Type := mkChan {
  buf : list bytes;
  cap : nat;
  closed : bool
}.

(** [make(chan []byte, n)] *)
Definition makeChan (n : nat) : Chan := {| buf := []; cap := n; closed := false |}.

Record ClientConfig : Type := mkClientConfig {
  PingInterval : Z;
  PingTimeout : Z;
  WriteWait : Z;
  ReadLimit : Z;
  SendBuffer : nat
}.

Definition Millisecond : Z := 1000000.
Definition Second : Z := 1000000000.

Definition DefaultClientConfig : ClientConfig :=
  {| PingInterval := wrap64 (2 * Second); PingTimeout := wrap64 (30 * Second);
     WriteWait := wrap64 (10 * Second); ReadLimit := 512 * 1024; SendBuffer := 256 |}.

(** The fields of [Client] the Hub and the handler read or write; the socket,
    the logger and the back pointer to the Hub are left out. *)
Record Client : Type := mkClient {
  id : string;
  ajaibID : string;
  cfxUserID : string;
  send : Chan;
  subscriptions : gset string;
  pingInterval : Z;
  pingTimeout : Z;
  writeWait : Z;
  readLimit : Z
}.

(** [NewClient]; [uuid] is the value of [uuid.New().String()]. *)
Definition NewClient (config : option ClientConfig) (ajaibID cfxUserID uuid : string)
  : Client :=
  let config := default DefaultClientConfig config in
  {| id := uuid; ajaibID := ajaibID; cfxUserID := cfxUserID;
     send := makeChan (SendBuffer config); subscriptions := ∅;
     pingInterval := PingInterval config; pingTimeout := PingTimeout config;
     writeWait := WriteWait config; readLimit := ReadLimit config |}.

(** A [*Client] is an address; the client records live in a heap. An
    address outside the heap stands for a nil pointer. *)
Abbreviation ClientPtr := positive.

Record Hub : Type := mkHub {
  clients : gset ClientPtr;
  userConnections : gmap string Z;
  channels : gmap string (gset ClientPtr);
  maxConnectionsPerUser : Z
}.

Record Mem : Type := mkMem {
  hub : Hub;
  heap : gmap ClientPtr Client
}.

Record ChannelMessage : Type := mkChannelMessage {
  cmChannel : string;
  cmData : bytes
}.

Definition NewHub (maxConnectionsPerUser : Z) : Hub :=
  {| clients := ∅; userConnections := ∅; channels := ∅;
     maxConnectionsPerUser := maxConnectionsPerUser |}.

Definition deref (m : Mem) (client : ClientPtr) : outcome Client :=
  match heap m !! client with
  | Some c => Done c
  | None => Panic "invalid memory address or nil pointer dereference"
  end.

Definition setHub (m : Mem) (h : Hub) : Mem := {| hub := h; heap := heap m |}.

Definition setClients (h : Hub) (cs : gset ClientPtr) : Hub :=
  {| clients := cs; userConnections := userConnections h; channels := channels h;
     maxConnectionsPerUser := maxConnectionsPerUser h |}.

Definition setUserConnections (h : Hub) (uc : gmap string Z) : Hub :=
  {| clients := clients h; userConnections := uc; channels := channels h;
     maxConnectionsPerUser := maxConnectionsPerUser h |}.

Definition setChannels (h : Hub) (chs : gmap string (gset ClientPtr)) : Hub :=
  {| clients := clients h; userConnections := userConnections h; channels := chs;
     maxConnectionsPerUser := maxConnectionsPerUser h |}.

Definition setSend (c : Client) (ch : Chan) : Client :=
  {| id := id c; ajaibID := ajaibID c; cfxUserID := cfxUserID c; send := ch;
     subscriptions := subscriptions c; pingInterval := pingInterval c;
     pingTimeout := pingTimeout c; writeWait := writeWait c;
     readLimit := readLimit c |}.

Definition setSubscriptions (c : Client) (subs : gset string) : Client :=
  {| id := id c; ajaibID := ajaibID c; cfxUserID := cfxUserID c; send := send c;
     subscriptions := subs; pingInterval := pingInterval c;
     pingTimeout := pingTimeout c; writeWait := writeWait c;
     readLimit := readLimit c |}.

Definition store (m : Mem) (client : ClientPtr) (c : Client) : Mem :=
  {| hub := hub m; heap := <[client := c]> (heap m) |}.

(** [h.userConnections[ajaibID]] read as a value: zero when absent. *)
Definition connectionsOf (h : Hub) (ajaibID : string) : Z :=
  default 0%Z (userConnections h !! ajaibID).

(** [registerClient]: a client over the limit is not added (the early
    [return]); the count is incremented inside the limit check. *)
Definition registerClient (m : Mem) (client : ClientPtr) : outcome Mem :=
  c <-! deref m client ;;
  let h := hub m in
  let ajaibID := ajaibID c in
  if negb (String.eqb ajaibID "") && (0 <? maxConnectionsPerUser h)%Z then
    let currentCount := connectionsOf h ajaibID in
    if (maxConnectionsPerUser h <=? currentCount)%Z then Done m
    else
      let h1 := setUserConnections h
                  (<[ajaibID := wrap64 (currentCount + 1)]> (userConnections h)) in
      Done (setHub m (setClients h1 ({[client]} ∪ clients h1)))
  else Done (setHub m (setClients h ({[client]} ∪ clients h))).

(** The block of [unregisterClient] on [h.userConnections]. *)
Definition releaseConnection (ajaibID : string) (uc : gmap string Z) : gmap string Z :=
  if String.eqb ajaibID "" then uc
  else
    match uc !! ajaibID with
    | Some currentCount =>
        let uc1 := if (0 <? currentCount)%Z
                   then <[ajaibID := wrap64 (currentCount - 1)]> uc else uc in
        if (default 0 (uc1 !! ajaibID) =? 0)%Z then delete ajaibID uc1 else uc1
    | None => uc
    end.

(** One turn of the loop of [unregisterClient] over [client.subscriptions]:
    the inner map is shared with [h.channels], so deleting from it updates
    the entry; a missing entry is a nil map, on which [delete] does nothing
    and whose length is zero. *)
Definition leaveChannel (client : ClientPtr) (channel : string)
    (chs : gmap string (gset ClientPtr)) : gmap string (gset ClientPtr) :=
  match chs !! channel with
  | Some clients =>
      let clients := clients ∖ {[client]} in
      if (size clients =? 0)%nat then delete channel chs
      else <[channel := clients]> chs
  | None => chs
  end.

(** [close(ch)] *)
Definition closeChan (ch : Chan) : outcome Chan :=
  if closed ch then Panic "close of closed channel"
  else Done {| buf := buf ch; cap := cap ch; closed := true |}.

(** [unregisterClient]; the loop over [client.subscriptions] is a fold over
    the set, and the subscription set of the client is left as it is. *)
Definition unregisterClient (m : Mem) (client : ClientPtr) : outcome Mem :=
  let h := hub m in
  let h1 := setClients h (clients h ∖ {[client]}) in
  c <-! deref m client ;;
  let h2 := setUserConnections h1 (releaseConnection (ajaibID c) (userConnections h1)) in
  let h3 := setChannels h2
              (set_fold (leaveChannel client) (channels h2) (subscriptions c)) in
  ch <-! closeChan (send c) ;;
  Done (store (setHub m h3) client (setSend c ch)).

(** [select { case ch <- data: ... default: ... }]: the send goes through
    when the buffer has room, the default branch is taken when it is full,
    and a closed channel panics. The flag tells which branch ran. (The
    queues of the clients are buffered; the hand-over of an unbuffered
    channel to a waiting receiver is not part of the model.) *)
Definition trySend (ch : Chan) (data : bytes) : outcome (Chan * bool) :=
  if closed ch then Panic "send on closed channel"
  else if (length (buf ch) <? cap ch)%nat
       then Done ({| buf := buf ch ++ [data]; cap := cap ch; closed := false |}, true)
       else Done (ch, false).

(** [Client.Send] *)
Definition Send (m : Mem) (client : ClientPtr) (data : bytes)
  : outcome (Mem * result SendError unit) :=
  c <-! deref m client ;;
  r <-! trySend (send c) data ;;
  let '(ch, sent) := r in
  if sent then Done (store m client (setSend c ch), Ok tt)
  else Done (m, Err ErrClientBufferFull).

(** [SubscribeClient] *)
Definition SubscribeClient (m : Mem) (client : ClientPtr) (channel : string)
  : outcome Mem :=
  let h := hub m in
  let chs := match channels h !! channel with
             | None => <[channel := ∅]> (channels h)
             | Some _ => channels h
             end in
  let chs := <[channel := {[client]} ∪ default ∅ (chs !! channel)]> chs in
  c <-! deref m client ;;
  Done (store (setHub m (setChannels h chs)) client
          (setSubscriptions c ({[channel]} ∪ subscriptions c))).

(** [UnsubscribeClient]: the entry of the channel is kept, also when its
    set becomes empty. *)
Definition UnsubscribeClient (m : Mem) (client : ClientPtr) (channel : string)
  : outcome Mem :=
  let h := hub m in
  let chs := match channels h !! channel with
             | Some clients => <[channel := clients ∖ {[client]}]> (channels h)
             | None => channels h
             end in
  c <-! deref m client ;;
  Done (store (setHub m (setChannels h chs)) client
          (setSubscriptions c (subscriptions c ∖ {[channel]}))).

(** Modelled from the spec: [Hub.IsClientSubscribed], which the handler calls
    and whose body is in no source file at hand. The specification rejects a
    subscribe "if already in the Session's subscription set" and an
    unsubscribe "if absent". *)
Definition IsClientSubscribed (m : Mem) (client : ClientPtr) (channel : string)
  : outcome bool :=
  c <-! deref m client ;;
  Done (bool_decide (channel ∈ subscriptions c)).

Definition GetClientCount (h : Hub) : nat := size (clients h).

Definition GetUserConnectionCount (h : Hub) (ajaibID : string) : Z :=
  connectionsOf h ajaibID.

Definition CanUserConnect (h : Hub) (ajaibID : string) : bool :=
  if String.eqb ajaibID "" || (maxConnectionsPerUser h <=? 0)%Z then true
  else (connectionsOf h ajaibID <? maxConnectionsPerUser h)%Z.

Definition GetChannelSubscriberCount (h : Hub) (channel : string) : nat :=
  match channels h !! channel with
  | Some clients => size clients
  | None => 0%nat
  end.

(** Everything below encodes frames with [json.Marshal]; the encoder is a
    parameter, and so is the order in which [range] walks a set of clients
    (Go leaves it unspecified). *)
Section Encoding.
Variable Encode : Protocol.Message -> result string bytes.
Variable rangeOrder : gset ClientPtr -> list ClientPtr.

(** [Client.SendMessage] *)
Definition SendMessage (m : Mem) (client : ClientPtr) (msg : Protocol.Message)
  : outcome (Mem * result SendError unit) :=
  match Encode msg with
  | Err why => Done (m, Err (ErrEncode why))
  | Ok data => Send m client data
  end.

(** The loop of [broadcastToChannel] over the copied list of clients. *)
Fixpoint sendAll (m : Mem) (clientList : list ClientPtr) (data : bytes)
  : outcome Mem :=
  match clientList with
  | [] => Done m
  | client :: rest =>
      c <-! deref m client ;;
      r <-! trySend (send c) data ;;
      let '(ch, sent) := r in
      if sent then sendAll (store m client (setSend c ch)) rest data
      else sendAll m rest data
  end.

(** [broadcastToChannel]; [now] is the clock reading taken by
    [NewPublicationMessage]. *)
Definition broadcastToChannel (m : Mem) (message : ChannelMessage) (now : Z)
  : outcome Mem :=
  match channels (hub m) !! cmChannel message with
  | None => Done m
  | Some clients =>
      let clientList := rangeOrder clients in
      match Encode (Protocol.NewPublicationMessage now (cmChannel message)
                      (cmData message)) with
      | Err _ => Done m
      | Ok data => sendAll m clientList data
      end
  end.
End Encoding.

(** What a broadcast of [data] does to one subscriber: the frame goes to the
    tail of the queue when there is room. *)
Definition deliver (data : bytes) (c : Client) : Client :=
  if (length (buf (send c)) <? cap (send c))%nat
  then setSend c {| buf := buf (send c) ++ [data]; cap := cap (send c);
                    closed := false |}
  else c.

(** The client is allocated and its outbound queue has not been closed. *)
Definition openQueue (m : Mem) (client : ClientPtr) : Prop :=
  exists c, heap m !! client = Some c /\ closed (send c) = false.

(** The number of live sessions of a user: the clients of [h.clients] whose
    public identifier is [ajaibID]. *)
Definition liveSessions (m : Mem) (p : string) : nat :=
  size (filter (fun client => ajaibID <$> heap m !! client = Some p) (clients (hub m))).

(** [config.WebSocketServerConfiguration] *)
Record WebSocketServerConfiguration : Type := mkWSConfig {
  Enabled : bool;
  Port : Z;
  TLSCertPath : string;
  TLSKeyPath : string;
  PingIntervalMs : Z;
  PingTimeoutMs : Z;
  MaxConnectionsPerUser : Z;
  ReadBufferSize : Z;
  WriteBufferSize : Z;
  ShutdownTimeoutMs : Z
}.

Record Server : Type := mkServer {
  srvHub : Hub;
  srvConfig : WebSocketServerConfiguration;
  srvReadBufferSize : Z;
  srvWriteBufferSize : Z;
  srvClientConfig : ClientConfig
}.

(** [NewServer]: the configuration is copied as it is; nothing is checked. *)
Definition NewServer (cfg : WebSocketServerConfiguration) : Server :=
  let hub := NewHub (MaxConnectionsPerUser cfg) in
  let clientConfig :=
    {| PingInterval := wrap64 (PingIntervalMs cfg * Millisecond);
       PingTimeout := wrap64 (PingTimeoutMs cfg * Millisecond);
       WriteWait := wrap64 (10 * Second);
       ReadLimit := 512 * 1024;
       SendBuffer := 256 |} in
  let readBufferSize :=
    if (ReadBufferSize cfg =? 0)%Z then 1024%Z else ReadBufferSize cfg in
  let writeBufferSize :=
    if (WriteBufferSize cfg =? 0)%Z then 1024%Z else WriteBufferSize cfg in
  {| srvHub := hub; srvConfig := cfg; srvReadBufferSize := readBufferSize;
     srvWriteBufferSize := writeBufferSize; srvClientConfig := clientConfig |}.

End Server.

(** ** Package [kafka]: the Broadcaster's index of subscribed users *)

Module Kafka.

(** [activeUsers] maps [cfx_user_id] to [ajaib_id]. The Hub pointer and the
    transformer of the Broadcaster play no part in the index. *)
Record Broadcaster : Type := mkBroadcaster {
  activeUsers : gmap string string
}.

Definition NewBroadcaster : Broadcaster := {| activeUsers := ∅ |}.

Definition RegisterSubscription (b : Broadcaster) (cfxUserID ajaibID : string)
  : Broadcaster :=
  {| activeUsers := <[cfxUserID := ajaibID]> (activeUsers b) |}.

Definition UnregisterSubscription (b : Broadcaster) (cfxUserID : string) : Broadcaster :=
  {| activeUsers := delete cfxUserID (activeUsers b) |}.

(** [getAjaibID]: the empty string when there is no entry. *)
Definition getAjaibID (b : Broadcaster) (cfxUserID : string) : string :=
  default "" (activeUsers b !! cfxUserID).

Definition GetActiveUserCount (b : Broadcaster) : nat := size (activeUsers b).

End Kafka.

(** ** Package [handler]: the client protocol *)

Module Handler.
Import Protocol.

(** What a [DefaultHandler] reaches: the Hub with the clients, and the
    Broadcaster behind [kafkaBroadcaster] ([None] while it is nil). *)
Record State : Type := mkState {
  mem : Server.Mem;
  kafkaBroadcaster : option Kafka.Broadcaster
}.

Definition setMem (st : State) (m : Server.Mem) : State :=
  {| mem := m; kafkaBroadcaster := kafkaBroadcaster st |}.

(** Every path of [handleSubscribe] ends in [return client.SendMessage(x)].
    [subscribeStep] is the function up to that point: the state it leaves
    and the frame [x]. *)
Definition subscribeStep (st : State) (client : Server.ClientPtr) (msg : Message)
    (now : Z) : outcome (State * Message) :=
  let channelName := Channel msg in
  if String.eqb channelName "" then
    Done (st, NewErrorMessage now (ID msg) CodeBadRequest "channel required")
  else
    subscribed <-! Server.IsClientSubscribed (mem st) client channelName ;;
    if (subscribed : bool) then
      Done (st, NewErrorMessage now (ID msg) CodeAlreadySubscribed
                  "already subscribed to channel")
    else
      match Channel.ParseChannel channelName with
      | Err err =>
          let code := match err with
                      | Channel.ErrInvalidChannelFormat
                      | Channel.ErrInvalidCFXUserID => CodeChannelNotFound
                      | Channel.ErrUnknownChannelType => CodeBadRequest
                      end in
          Done (st, NewErrorMessage now (ID msg) code (Channel.errorText err))
      | Ok channelInfo =>
          c <-! Server.deref (mem st) client ;;
          if negb (String.eqb (Server.ajaibID c) "")
             && negb (String.eqb (Server.ajaibID c) (Channel.AjaibID channelInfo))
          then
            Done (st, NewErrorMessage now (ID msg) CodeChannelNotFound
                        "channel not found")
          else
            let kb :=
              match kafkaBroadcaster st with
              | Some b =>
                  if negb (String.eqb (Server.cfxUserID c) "")
                  then Some (Kafka.RegisterSubscription b (Server.cfxUserID c)
                               (Server.ajaibID c))
                  else Some b
              | None => None
              end in
            m <-! Server.SubscribeClient (mem st) client channelName ;;
            Done ({| mem := m; kafkaBroadcaster := kb |},
                  NewSubscribedMessage now (ID msg) channelName)
      end.

(** [handleUnsubscribe] up to its final [client.SendMessage]. *)
Definition unsubscribeStep (st : State) (client : Server.ClientPtr) (msg : Message)
    (now : Z) : outcome (State * Message) :=
  let channelName := Channel msg in
  if String.eqb channelName "" then
    Done (st, NewErrorMessage now (ID msg) CodeBadRequest "channel required")
  else
    subscribed <-! Server.IsClientSubscribed (mem st) client channelName ;;
    if negb subscribed then
      Done (st, NewErrorMessage now (ID msg) CodeNotSubscribed
                  "not subscribed to channel")
    else
      m <-! Server.UnsubscribeClient (mem st) client channelName ;;
      c <-! Server.deref m client ;;
      let kb :=
        match kafkaBroadcaster st with
        | Some b =>
            if negb (String.eqb (Server.cfxUserID c) "")
            then Some (Kafka.UnregisterSubscription b (Server.cfxUserID c))
            else Some b
        | None => None
        end in
      Done ({| mem := m; kafkaBroadcaster := kb |},
            NewUnsubscribedMessage now (ID msg) channelName).

(** [OnClientDisconnect] *)
Definition OnClientDisconnect (st : State) (clientID cfxUserID : string) : State :=
  match kafkaBroadcaster st with
  | Some b =>
      if negb (String.eqb cfxUserID "")
      then {| mem := mem st;
              kafkaBroadcaster := Some (Kafka.UnregisterSubscription b cfxUserID) |}
      else st
  | None => st
  end.

(** A subscribe command the handler turns down for its channel name: the
    name does not parse, or it parses to the public identifier of somebody
    else. *)
Definition rejected (c : Server.Client) (channel : string) : Prop :=
  match Channel.ParseChannel channel with
  | Err _ => True
  | Ok info => Channel.AjaibID info <> Server.ajaibID c
  end.

(** The code of the error reply for such a command: bad request for a name
    of unknown type (no [user:] prefix, or a suffix that is not a user
    channel), channel not found for the rest. *)
Definition rejectionCode (channel : string) : Z :=
  match Channel.ParseChannel channel with
  | Err Channel.ErrUnknownChannelType => CodeBadRequest
  | _ => CodeChannelNotFound
  end.

Section Encoding.
Variable Encode : Message -> result string bytes.

(** [return client.SendMessage(x)] *)
Definition reply (client : Server.ClientPtr) (r : State * Message)
  : outcome (State * result Server.SendError unit) :=
  sent <-! Server.SendMessage Encode (mem (fst r)) client (snd r) ;;
  Done (setMem (fst r) (fst sent), snd sent).

Definition handleSubscribe (st : State) (client : Server.ClientPtr) (msg : Message)
    (now : Z) : outcome (State * result Server.SendError unit) :=
  r <-! subscribeStep st client msg now ;;
  reply client r.

Definition handleUnsubscribe (st : State) (client : Server.ClientPtr) (msg : Message)
    (now : Z) : outcome (State * result Server.SendError unit) :=
  r <-! unsubscribeStep st client msg now ;;
  reply client r.

Definition handlePing (st : State) (client : Server.ClientPtr) (msg : Message)
    (now : Z) : outcome (State * result Server.SendError unit) :=
  reply client (st, NewPongMessage now (ID msg)).

(** [HandleMessage] after a successful [protocol.ParseMessage]. *)
Definition HandleMessage (st : State) (client : Server.ClientPtr) (msg : Message)
    (now : Z) : outcome (State * result Server.SendError unit) :=
  if String.eqb (Type_ msg) TypePing then handlePing st client msg now
  else if String.eqb (Type_ msg) TypeSubscribe then handleSubscribe st client msg now
  else if String.eqb (Type_ msg) TypeUnsubscribe
       then handleUnsubscribe st client msg now
  else reply client
         (st, NewErrorMessage now (ID msg) CodeBadRequest "unknown message type").
End Encoding.

End Handler.

(** ** [cmd/app/main.go]: start-up *)

Module App.

Record KafkaConfiguration : Type := mkKafkaConfiguration {
  Brokers : list string;
  Topics : list string;
  ConsumerGroup : string;
  InitialOffset : string;
  SessionTimeout : Z;
  HeartbeatInterval : Z
}.

Record Configuration : Type := mkConfiguration {
  Kafka : KafkaConfiguration;
  WebSocketServer : Server.WebSocketServerConfiguration;
  CacheTTLSeconds : Z
}.

(** [initWebSocketServer]: its error result is always nil. *)
Definition initWebSocketServer (cfg : Configuration)
  : result string (Server.Server * Handler.State) :=
  let wsServer := Server.NewServer (WebSocketServer cfg) in
  let messageHandler :=
    {| Handler.mem := {| Server.hub := Server.srvHub wsServer; Server.heap := ∅ |};
       Handler.kafkaBroadcaster := None |} in
  Ok (wsServer, messageHandler).

Section Reader.
(** [kafka.NewReader] of the kafka-go library, which [NewKafkaReaderConsumer]
    calls after its own checks: it returns a reader ([true]) or panics
    ([false]) on the reader settings, which are made of the Kafka settings of
    the configuration and of constants. *)
Variable NewReader : KafkaConfiguration -> bool.

(** [initKafkaConsumer]: the Broadcaster is wired to the handler, then
    [kafka.NewKafkaReaderConsumer] makes its checks on the configuration
    built here (its handler is never nil) and creates the reader. *)
Definition initKafkaConsumer (cfg : Configuration) (messageHandler : Handler.State)
  : outcome (result string Handler.State) :=
  match Brokers (Kafka cfg) with
  | [] => Done (Err "brokers cannot be empty")
  | _ :: _ =>
      if String.eqb (ConsumerGroup (Kafka cfg)) ""
      then Done (Err "group_id cannot be empty")
      else match Topics (Kafka cfg) with
           | [] => Done (Err "topics cannot be empty")
           | _ :: _ =>
               if NewReader (Kafka cfg)
               then Done (Ok {| Handler.mem := Handler.mem messageHandler;
                                Handler.kafkaBroadcaster := Some Kafka.NewBroadcaster |})
               else Panic "kafka.NewReader"
           end
  end.

(** How [main] gets past start-up: [os.Exit(1)], or the service running
    with the server it built. *)
Inductive Startup : Type :=
| Exit (code : Z)
| Running (wsServer : Server.Server) (messageHandler : Handler.State).

(** [main] from the loaded configuration to "service running". *)
Definition main (cfg : Configuration) : outcome Startup :=
  match initWebSocketServer cfg with
  | Err _ => Done (Exit 1)
  | Ok (wsServer, messageHandler) =>
      consumer <-! initKafkaConsumer cfg messageHandler ;;
      match consumer with
      | Err _ => Done (Exit 1)
      | Ok messageHandler => Done (Running wsServer messageHandler)
      end
  end.
End Reader.

(** The configuration with other liveness timers, everything else kept. *)
Definition withTimers (cfg : Configuration) (pingIntervalMs pingTimeoutMs : Z)
  : Configuration :=
  let ws := WebSocketServer cfg in
  {| Kafka := Kafka cfg;
     WebSocketServer :=
       {| Server.Enabled := Server.Enabled ws; Server.Port := Server.Port ws;
          Server.TLSCertPath := Server.TLSCertPath ws;
          Server.TLSKeyPath := Server.TLSKeyPath ws;
          Server.PingIntervalMs := pingIntervalMs;
          Server.PingTimeoutMs := pingTimeoutMs;
          Server.MaxConnectionsPerUser := Server.MaxConnectionsPerUser ws;
          Server.ReadBufferSize := Server.ReadBufferSize ws;
          Server.WriteBufferSize := Server.WriteBufferSize ws;
          Server.ShutdownTimeoutMs := Server.ShutdownTimeoutMs ws |};
     CacheTTLSeconds := CacheTTLSeconds cfg |}.

End App.

(** ** [float64] *)

Module Float64.

(** IEEE 754 binary64: 53 bits of precision, exponents below 1024. *)
Abbreviation float64 := spec_float.

Definition prec : Z := 53.
Definition emax : Z := 1024.

Definition zero : float64 := S754_zero false.

(** [x * y], rounded to nearest even *)
Definition mul (x y : float64) : float64 := SFmul prec emax x y.

(** [x == y], [x <= y], [x < y]: all false when an operand is NaN *)
Definition eqb (x y : float64) : bool := SFeqb x y.
Definition leb (x y : float64) : bool := SFleb x y.
Definition ltb (x y : float64) : bool := SFltb x y.

Definition is_nan (x : float64) : bool :=
  match x with
  | S754_nan => true
  | _ => false
  end.

(** The float nearest to an integer *)
Definition of_Z (z : Z) : float64 := binary_normalize prec emax z 0 false.

End Float64.

(** ** Package [types]: the records on the bus *)

Module Types.
Import Float64.

Definition TopicUserMargin : string :=
  "com.ajaib.coin.cfx.streamer.futures.message.UserMargin".
Definition TopicUserPosition : string :=
  "com.ajaib.coin.cfx.streamer.futures.message.UserPosition".
Definition ChannelMarginSuffix : string := "margin".
Definition ChannelPositionSuffix : string := "position".

Record UserMargin : Type := mkUserMargin {
  Timestamp : Z;
  CFXUserID : string;
  Asset : string;
  TotalPositionValue : float64;
  MarginBalance : float64;
  OrderMargin : float64;
  EffectiveLeverage : float64;
  MaintenanceMargin : float64;
  UnrealizedPnl : float64;
  AvailableMargin : float64;
  WalletBalance : float64;
  MarginRatio : float64;
  WithdrawableMargin : float64
}.

(** [margin.F = v] for the fields the transformer assigns *)
Definition setTotalPositionValue (margin : UserMargin) (v : float64) : UserMargin :=
  {| Timestamp := Timestamp margin; CFXUserID := CFXUserID margin;
     Asset := Asset margin; TotalPositionValue := v;
     MarginBalance := MarginBalance margin; OrderMargin := OrderMargin margin;
     EffectiveLeverage := EffectiveLeverage margin;
     MaintenanceMargin := MaintenanceMargin margin;
     UnrealizedPnl := UnrealizedPnl margin;
     AvailableMargin := AvailableMargin margin;
     WalletBalance := WalletBalance margin; MarginRatio := MarginRatio margin;
     WithdrawableMargin := WithdrawableMargin margin |}.

Definition setMarginBalance (margin : UserMargin) (v : float64) : UserMargin :=
  {| Timestamp := Timestamp margin; CFXUserID := CFXUserID margin;
     Asset := Asset margin; TotalPositionValue := TotalPositionValue margin;
     MarginBalance := v; OrderMargin := OrderMargin margin;
     EffectiveLeverage := EffectiveLeverage margin;
     MaintenanceMargin := MaintenanceMargin margin;
     UnrealizedPnl := UnrealizedPnl margin;
     AvailableMargin := AvailableMargin margin;
     WalletBalance := WalletBalance margin; MarginRatio := MarginRatio margin;
     WithdrawableMargin := WithdrawableMargin margin |}.

Definition setOrderMargin (margin : UserMargin) (v : float64) : UserMargin :=
  {| Timestamp := Timestamp margin; CFXUserID := CFXUserID margin;
     Asset := Asset margin; TotalPositionValue := TotalPositionValue margin;
     MarginBalance := MarginBalance margin; OrderMargin := v;
     EffectiveLeverage := EffectiveLeverage margin;
     MaintenanceMargin := MaintenanceMargin margin;
     UnrealizedPnl := UnrealizedPnl margin;
     AvailableMargin := AvailableMargin margin;
     WalletBalance := WalletBalance margin; MarginRatio := MarginRatio margin;
     WithdrawableMargin := WithdrawableMargin margin |}.

Definition setMaintenanceMargin (margin : UserMargin) (v : float64) : UserMargin :=
  {| Timestamp := Timestamp margin; CFXUserID := CFXUserID margin;
     Asset := Asset margin; TotalPositionValue := TotalPositionValue margin;
     MarginBalance := MarginBalance margin; OrderMargin := OrderMargin margin;
     EffectiveLeverage := EffectiveLeverage margin; MaintenanceMargin := v;
     UnrealizedPnl := UnrealizedPnl margin;
     AvailableMargin := AvailableMargin margin;
     WalletBalance := WalletBalance margin; MarginRatio := MarginRatio margin;
     WithdrawableMargin := WithdrawableMargin margin |}.

Definition setUnrealizedPnl (margin : UserMargin) (v : float64) : UserMargin :=
  {| Timestamp := Timestamp margin; CFXUserID := CFXUserID margin;
     Asset := Asset margin; TotalPositionValue := TotalPositionValue margin;
     MarginBalance := MarginBalance margin; OrderMargin := OrderMargin margin;
     EffectiveLeverage := EffectiveLeverage margin;
     MaintenanceMargin := MaintenanceMargin margin; UnrealizedPnl := v;
     AvailableMargin := AvailableMargin margin;
     WalletBalance := WalletBalance margin; MarginRatio := MarginRatio margin;
     WithdrawableMargin := WithdrawableMargin margin |}.

Definition setAvailableMargin (margin : UserMargin) (v : float64) : UserMargin :=
  {| Timestamp := Timestamp margin; CFXUserID := CFXUserID margin;
     Asset := Asset margin; TotalPositionValue := TotalPositionValue margin;
     MarginBalance := MarginBalance margin; OrderMargin := OrderMargin margin;
     EffectiveLeverage := EffectiveLeverage margin;
     MaintenanceMargin := MaintenanceMargin margin;
     UnrealizedPnl := UnrealizedPnl margin; AvailableMargin := v;
     WalletBalance := WalletBalance margin; MarginRatio := MarginRatio margin;
     WithdrawableMargin := WithdrawableMargin margin |}.

Definition setWalletBalance (margin : UserMargin) (v : float64) : UserMargin :=
  {| Timestamp := Timestamp margin; CFXUserID := CFXUserID margin;
     Asset := Asset margin; TotalPositionValue := TotalPositionValue margin;
     MarginBalance := MarginBalance margin; OrderMargin := OrderMargin margin;
     EffectiveLeverage := EffectiveLeverage margin;
     MaintenanceMargin := MaintenanceMargin margin;
     UnrealizedPnl := UnrealizedPnl margin;
     AvailableMargin := AvailableMargin margin; WalletBalance := v;
     MarginRatio := MarginRatio margin;
     WithdrawableMargin := WithdrawableMargin margin |}.

Definition setWithdrawableMargin (margin : UserMargin) (v : float64) : UserMargin :=
  {| Timestamp := Timestamp margin; CFXUserID := CFXUserID margin;
     Asset := Asset margin; TotalPositionValue := TotalPositionValue margin;
     MarginBalance := MarginBalance margin; OrderMargin := OrderMargin margin;
     EffectiveLeverage := EffectiveLeverage margin;
     MaintenanceMargin := MaintenanceMargin margin;
     UnrealizedPnl := UnrealizedPnl margin;
     AvailableMargin := AvailableMargin margin;
     WalletBalance := WalletBalance margin; MarginRatio := MarginRatio margin;
     WithdrawableMargin := v |}.

(** [types.UserPosition]; the projections carry the prefix [p] where the name
    is a field of [UserMargin] too. *)
Record UserPosition : Type := mkUserPosition {
  pTimestamp : Z;
  pCFXUserID : string;
  Symbol : string;
  Size : float64;
  Value : float64;
  Leverage : Z;
  EntryPrice : float64;
  MarkPrice : float64;
  LiquidationPrice : float64;
  pMaintenanceMargin : float64;
  RealisedPnl : float64;
  UnrealisedPnl : float64;
  DeleveragePercentile : float64;
  RiskLimit : Z;
  OpenOrderBuyCost : float64;
  OpenOrderSellCost : float64;
  InitialMarginRequirement : float64;
  UpdatedTime : Z;
  OpenOrderBuyQuantity : float64;
  OpenOrderSellQuantity : float64;
  pOrderMargin : float64
}.

(** [position.F = v] for the fields the transformer assigns *)
Definition setPValue (position : UserPosition) (v : float64) : UserPosition :=
  {| pTimestamp := pTimestamp position; pCFXUserID := pCFXUserID position;
     Symbol := Symbol position; Size := Size position; Value := v;
     Leverage := Leverage position; EntryPrice := EntryPrice position;
     MarkPrice := MarkPrice position; LiquidationPrice := LiquidationPrice position;
     pMaintenanceMargin := pMaintenanceMargin position;
     RealisedPnl := RealisedPnl position; UnrealisedPnl := UnrealisedPnl position;
     DeleveragePercentile := DeleveragePercentile position;
     RiskLimit := RiskLimit position; OpenOrderBuyCost := OpenOrderBuyCost position;
     OpenOrderSellCost := OpenOrderSellCost position;
     InitialMarginRequirement := InitialMarginRequirement position;
     UpdatedTime := UpdatedTime position;
     OpenOrderBuyQuantity := OpenOrderBuyQuantity position;
     OpenOrderSellQuantity := OpenOrderSellQuantity position;
     pOrderMargin := pOrderMargin position |}.

Definition setPMaintenanceMargin (position : UserPosition) (v : float64) : UserPosition :=
  {| pTimestamp := pTimestamp position; pCFXUserID := pCFXUserID position;
     Symbol := Symbol position; Size := Size position; Value := Value position;
     Leverage := Leverage position; EntryPrice := EntryPrice position;
     MarkPrice := MarkPrice position; LiquidationPrice := LiquidationPrice position;
     pMaintenanceMargin := v; RealisedPnl := RealisedPnl position;
     UnrealisedPnl := UnrealisedPnl position;
     DeleveragePercentile := DeleveragePercentile position;
     RiskLimit := RiskLimit position; OpenOrderBuyCost := OpenOrderBuyCost position;
     OpenOrderSellCost := OpenOrderSellCost position;
     InitialMarginRequirement := InitialMarginRequirement position;
     UpdatedTime := UpdatedTime position;
     OpenOrderBuyQuantity := OpenOrderBuyQuantity position;
     OpenOrderSellQuantity := OpenOrderSellQuantity position;
     pOrderMargin := pOrderMargin position |}.

Definition setPRealisedPnl (position : UserPosition) (v : float64) : UserPosition :=
  {| pTimestamp := pTimestamp position; pCFXUserID := pCFXUserID position;
     Symbol := Symbol position; Size := Size position; Value := Value position;
     Leverage := Leverage position; EntryPrice := EntryPrice position;
     MarkPrice := MarkPrice position; LiquidationPrice := LiquidationPrice position;
     pMaintenanceMargin := pMaintenanceMargin position; RealisedPnl := v;
     UnrealisedPnl := UnrealisedPnl position;
     DeleveragePercentile := DeleveragePercentile position;
     RiskLimit := RiskLimit position; OpenOrderBuyCost := OpenOrderBuyCost position;
     OpenOrderSellCost := OpenOrderSellCost position;
     InitialMarginRequirement := InitialMarginRequirement position;
     UpdatedTime := UpdatedTime position;
     OpenOrderBuyQuantity := OpenOrderBuyQuantity position;
     OpenOrderSellQuantity := OpenOrderSellQuantity position;
     pOrderMargin := pOrderMargin position |}.

Definition setPUnrealisedPnl (position : UserPosition) (v : float64) : UserPosition :=
  {| pTimestamp := pTimestamp position; pCFXUserID := pCFXUserID position;
     Symbol := Symbol position; Size := Size position; Value := Value position;
     Leverage := Leverage position; EntryPrice := EntryPrice position;
     MarkPrice := MarkPrice position; LiquidationPrice := LiquidationPrice position;
     pMaintenanceMargin := pMaintenanceMargin position;
     RealisedPnl := RealisedPnl position; UnrealisedPnl := v;
     DeleveragePercentile := DeleveragePercentile position;
     RiskLimit := RiskLimit position; OpenOrderBuyCost := OpenOrderBuyCost position;
     OpenOrderSellCost := OpenOrderSellCost position;
     InitialMarginRequirement := InitialMarginRequirement position;
     UpdatedTime := UpdatedTime position;
     OpenOrderBuyQuantity := OpenOrderBuyQuantity position;
     OpenOrderSellQuantity := OpenOrderSellQuantity position;
     pOrderMargin := pOrderMargin position |}.

Definition setPOrderMargin (position : UserPosition) (v : float64) : UserPosition :=
  {| pTimestamp := pTimestamp position; pCFXUserID := pCFXUserID position;
     Symbol := Symbol position; Size := Size position; Value := Value position;
     Leverage := Leverage position; EntryPrice := EntryPrice position;
     MarkPrice := MarkPrice position; LiquidationPrice := LiquidationPrice position;
     pMaintenanceMargin := pMaintenanceMargin position;
     RealisedPnl := RealisedPnl position; UnrealisedPnl := UnrealisedPnl position;
     DeleveragePercentile := DeleveragePercentile position;
     RiskLimit := RiskLimit position; OpenOrderBuyCost := OpenOrderBuyCost position;
     OpenOrderSellCost := OpenOrderSellCost position;
     InitialMarginRequirement := InitialMarginRequirement position;
     UpdatedTime := UpdatedTime position;
     OpenOrderBuyQuantity := OpenOrderBuyQuantity position;
     OpenOrderSellQuantity := OpenOrderSellQuantity position; pOrderMargin := v |}.

End Types.

(** ** Package [service]: exchange rate and transformer *)

Module Service.
Import Float64 Types.

Record priceRateDto : Type := mkPriceRateDto {
  BaseCurrency : string;
  QuoteCurrency : string;
  Amount : float64;
  UpdatedAt : bytes
}.

Record baseResponse : Type := mkBaseResponse {
  Result : priceRateDto
}.

(** What the HTTP exchange of one [GetUSDTToIDRRate] call comes to: the
    request cannot be built, the round trip fails, or there is a response
    with a status and a body that decodes to a [baseResponse] or does
    not. *)
Inductive Exchange : Type :=
| RequestFailed (why : string)
| RoundTripFailed (why : string)
| Response (status : Z) (body : option baseResponse).

(** [HTTPRateProvider.GetUSDTToIDRRate] on the outcome of its exchange *)
Definition GetUSDTToIDRRate (x : Exchange) : result string float64 :=
  match x with
  | RequestFailed why => Err ("failed to create request: " ++ why)
  | RoundTripFailed why => Err ("failed to fetch rate: " ++ why)
  | Response status body =>
      if negb (status =? 200)%Z then Err "unexpected status code"
      else match body with
           | None => Err "failed to decode response"
           | Some baseResp =>
               let rate := Amount (Result baseResp) in
               if leb rate zero then Err "invalid rate received"
               else Ok rate
           end
  end.

(** Times are nanoseconds since the zero [time.Time], durations are
    nanoseconds; a difference of times saturates like [Time.Sub]. *)
Definition maxDuration : Z := 2 ^ 63 - 1.
Definition minDuration : Z := - 2 ^ 63.

Definition Sub (t u : Z) : Z := Z.max minDuration (Z.min maxDuration (t - u)).

Record rateCache : Type := mkRateCache {
  rate : float64;
  timestamp : Z;
  ttl : Z
}.

Definition newRateCache (ttl : Z) : rateCache :=
  {| rate := zero; timestamp := 0; ttl := ttl |}.

(** The currency service with what it has consumed of its environment: the
    number of clock readings and of HTTP exchanges made so far. *)
Record cachedCurrencyService : Type := mkService {
  cache : rateCache;
  clockReads : nat;
  fetches : nat
}.

Definition NewCachedCurrencyService (cacheTTL : Z) : cachedCurrencyService :=
  {| cache := newRateCache cacheTTL; clockReads := 0; fetches := 0 |}.

Section Environment.
(** [clock k] is the [k]-th reading of [time.Now()], [exchange k] the
    outcome of the [k]-th HTTP exchange of the rate provider. *)
Variable clock : nat -> Z.
Variable exchange : nat -> Exchange.

Definition now (s : cachedCurrencyService) : Z * cachedCurrencyService :=
  (clock (clockReads s),
   {| cache := cache s; clockReads := S (clockReads s); fetches := fetches s |}).

(** [time.Since(c.timestamp) > c.ttl] *)
Definition stale (s : cachedCurrencyService) : bool * cachedCurrencyService :=
  let '(t, s) := now s in
  ((ttl (cache s) <? Sub t (timestamp (cache s)))%Z, s).

(** [rateCache.get] *)
Definition get (s : cachedCurrencyService)
  : result string float64 * cachedCurrencyService :=
  if eqb (rate (cache s)) zero then (Err "no cached rate available", s)
  else
    let '(old, s) := stale s in
    if (old : bool) then (Err "cached rate has expired", s)
    else (Ok (rate (cache s)), s).

(** [rateCache.set] *)
Definition set (r : float64) (s : cachedCurrencyService) : cachedCurrencyService :=
  let '(t, s) := now s in
  {| cache := {| rate := r; timestamp := t; ttl := ttl (cache s) |};
     clockReads := clockReads s; fetches := fetches s |}.

(** [rateCache.isExpired]: the clock is read only when a rate is there. *)
Definition isExpired (s : cachedCurrencyService) : bool * cachedCurrencyService :=
  if eqb (rate (cache s)) zero then (true, s) else stale s.

(** The lookup that [GetCurrentRate] makes twice, before and after taking
    its lock. *)
Definition cached (s : cachedCurrencyService)
  : option float64 * cachedCurrencyService :=
  let '(expired, s) := isExpired s in
  if (expired : bool) then (None, s)
  else
    let '(r, s) := get s in
    match r with
    | Ok rate => (Some rate, s)
    | Err _ => (None, s)
    end.

Definition fetch (s : cachedCurrencyService)
  : result string float64 * cachedCurrencyService :=
  (GetUSDTToIDRRate (exchange (fetches s)),
   {| cache := cache s; clockReads := clockReads s; fetches := S (fetches s) |}).

(** [cachedCurrencyService.GetCurrentRate] *)
Definition GetCurrentRate (s : cachedCurrencyService)
  : result string float64 * cachedCurrencyService :=
  let '(hit, s) := cached s in
  match hit with
  | Some rate => (Ok rate, s)
  | None =>
      let '(hit, s) := cached s in
      match hit with
      | Some rate => (Ok rate, s)
      | None =>
          let '(r, s) := fetch s in
          match r with
          | Err why => (Err ("failed to fetch rate from provider: " ++ why), s)
          | Ok rate => (Ok rate, set rate s)
          end
      end
  end.

(** [n] calls of [GetCurrentRate] in a row: what each returned, first call
    first, and the service afterwards. *)
Fixpoint calls (n : nat) (s : cachedCurrencyService)
  : list (result string float64) * cachedCurrencyService :=
  match n with
  | O => ([], s)
  | S n' =>
      let '(r, s) := GetCurrentRate s in
      let '(rs, s) := calls n' s in
      (r :: rs, s)
  end.

(** [encoding/json] on [types.UserMargin] *)
Variable Unmarshal : bytes -> option UserMargin.
Variable Marshal : UserMargin -> option bytes.

(** The eight assignments of [TransformUserMargin], in its order. *)
Definition convertMargin (margin : UserMargin) (rate : float64) : UserMargin :=
  let margin := setTotalPositionValue margin (mul (TotalPositionValue margin) rate) in
  let margin := setMarginBalance margin (mul (MarginBalance margin) rate) in
  let margin := setOrderMargin margin (mul (OrderMargin margin) rate) in
  let margin := setMaintenanceMargin margin (mul (MaintenanceMargin margin) rate) in
  let margin := setUnrealizedPnl margin (mul (UnrealizedPnl margin) rate) in
  let margin := setAvailableMargin margin (mul (AvailableMargin margin) rate) in
  let margin := setWalletBalance margin (mul (WalletBalance margin) rate) in
  let margin := setWithdrawableMargin margin (mul (WithdrawableMargin margin) rate) in
  margin.

(** [Transformer.TransformUserMargin], with the cached currency service
    that [main] gives the transformer. *)
Definition TransformUserMargin (s : cachedCurrencyService) (data : bytes)
    (cfxUserID : string) : result string bytes * cachedCurrencyService :=
  match Unmarshal data with
  | None => (Err "failed to unmarshal UserMargin", s)
  | Some margin =>
      if negb (String.eqb (Asset margin) "IDR") then (Ok data, s)
      else
        let '(r, s) := GetCurrentRate s in
        match r with
        | Err why => (Err ("failed to get exchange rate: " ++ why), s)
        | Ok rate =>
            match Marshal (convertMargin margin rate) with
            | None => (Err "failed to marshal transformed UserMargin", s)
            | Some transformedData => (Ok transformedData, s)
            end
        end
  end.
End Environment.

Definition idrPerpSuffix : string := "IDR-PERP".

(** The five assignments of [TransformUserPosition], in its order. *)
Definition convertPosition (position : UserPosition) (rate : float64) : UserPosition :=
  let position := setPValue position (mul (Value position) rate) in
  let position := setPMaintenanceMargin position (mul (pMaintenanceMargin position) rate) in
  let position := setPRealisedPnl position (mul (RealisedPnl position) rate) in
  let position := setPUnrealisedPnl position (mul (UnrealisedPnl position) rate) in
  let position := setPOrderMargin position (mul (pOrderMargin position) rate) in
  position.

Section Position.
Variable clock : nat -> Z.
Variable exchange : nat -> Exchange.
(** [encoding/json] on [types.UserPosition] *)
Variable UnmarshalPosition : bytes -> option UserPosition.
Variable MarshalPosition : UserPosition -> option bytes.

(** [Transformer.TransformUserPosition] *)
Definition TransformUserPosition (s : cachedCurrencyService) (data : bytes)
    (cfxUserID : string) : result string bytes * cachedCurrencyService :=
  match UnmarshalPosition data with
  | None => (Err "failed to unmarshal UserPosition", s)
  | Some position =>
      if negb (Strings.HasSuffix (Symbol position) idrPerpSuffix) then (Ok data, s)
      else
        let '(r, s) := GetCurrentRate clock exchange s in
        match r with
        | Err why => (Err ("failed to get exchange rate: " ++ why), s)
        | Ok rate =>
            match MarshalPosition (convertPosition position rate) with
            | None => (Err "failed to marshal transformed UserPosition", s)
            | Some transformedData => (Ok transformedData, s)
            end
        end
  end.
End Position.

(** The decoded amounts are JSON numbers: [encoding/json] has no way to
    produce a NaN. *)
Definition jsonNumbers (exchange : nat -> Exchange) : Prop :=
  forall k status baseResp,
    exchange k = Response status (Some baseResp) ->
    is_nan (Amount (Result baseResp)) = false.

(** A rate cache is as [newRateCache] made it, or holds a rate above zero. *)
Definition emptyOrPositive (c : rateCache) : Prop :=
  c = newRateCache (ttl c) \/ ltb zero (rate c) = true.

(** An environment for the examples: the clock advances by one second per
    reading, and every exchange answers 200 with the amount 15000. *)
Definition tick (k : nat) : Z := Z.of_nat k * 1000000000.

Definition quote15000 (k : nat) : Exchange :=
  Response 200
    (Some {| Result := {| BaseCurrency := "USDT"; QuoteCurrency := "IDR";
                          Amount := of_Z 15000; UpdatedAt := [] |} |}).

(** A margin record labelled IDR, and stand-ins for [json.Unmarshal] and
    [json.Marshal] that decode every payload to it and encode every record
    to the empty payload. *)
Definition marginIDR : UserMargin :=
  {| Timestamp := 1700000000000; CFXUserID := "C1"; Asset := "IDR";
     TotalPositionValue := of_Z 10; MarginBalance := of_Z 2; OrderMargin := of_Z 1;
     EffectiveLeverage := of_Z 3; MaintenanceMargin := of_Z 1;
     UnrealizedPnl := of_Z (-1); AvailableMargin := of_Z 1; WalletBalance := of_Z 2;
     MarginRatio := of_Z 0; WithdrawableMargin := of_Z 1 |}.

Definition decodeIDR (data : bytes) : option UserMargin := Some marginIDR.
Definition encodeEmpty (margin : UserMargin) : option bytes := Some [].

End Service.

(** ** Sessions and configurations used in the examples *)

Module Sample.
Import Server.

(** Two sessions of user 111 (internal identifier C1) and one of user 222. *)
Definition alice : Client := NewClient None "111" "C1" "session-a".
Definition alice' : Client := NewClient None "111" "C1" "session-b".
Definition bob : Client := NewClient None "222" "C2" "session-c".

Definition sessions : gmap ClientPtr Client :=
  <[1%positive := alice]> (<[2%positive := alice']> (<[3%positive := bob]> ∅)).

Definition fresh (maxConnectionsPerUser : Z) : Mem :=
  {| hub := NewHub maxConnectionsPerUser; heap := sessions |}.

Definition margin111 : string := "user:111:margin".

Definition subscribe (id channel : string) : Protocol.Message :=
  {| Protocol.ID := id; Protocol.Type_ := Protocol.TypeSubscribe;
     Protocol.Channel := channel; Protocol.Data := []; Protocol.Success := false;
     Protocol.Code := 0; Protocol.Message_ := ""; Protocol.Timestamp := 0 |}.

Definition unsubscribe (id channel : string) : Protocol.Message :=
  {| Protocol.ID := id; Protocol.Type_ := Protocol.TypeUnsubscribe;
     Protocol.Channel := channel; Protocol.Data := []; Protocol.Success := false;
     Protocol.Code := 0; Protocol.Message_ := ""; Protocol.Timestamp := 0 |}.

(** A handler wired to a Broadcaster, over the three sessions. *)
Definition wired (maxConnectionsPerUser : Z) : Handler.State :=
  {| Handler.mem := fresh maxConnectionsPerUser;
     Handler.kafkaBroadcaster := Some Kafka.NewBroadcaster |}.

(** A stand-in for [json.Marshal] on frames: the type and the channel of
    the frame, as bytes. *)
Definition frame (msg : Protocol.Message) : result string bytes :=
  Ok (map byte_of_ascii
        (list_ascii_of_string (Protocol.Type_ msg ++ " " ++ Protocol.Channel msg))).

(** Sessions 1 and 2 subscribed to the margin channel of user 111; the
    queue of session 2 has one slot, and it is taken. *)
Definition listening : Client := setSubscriptions alice {[margin111]}.
Definition stuck : Client :=
  setSend (setSubscriptions alice' {[margin111]})
    {| buf := [[]]; cap := 1; closed := false |}.

Definition busy : Mem :=
  {| hub := {| clients := {[1%positive; 2%positive]};
               userConnections := {[ "111" := 2%Z ]};
               channels := {[ margin111 := {[1%positive; 2%positive]} ]};
               maxConnectionsPerUser := 2 |};
     heap := <[1%positive := listening]> (<[2%positive := stuck]> ∅) |}.

(** A configuration whose ping interval (30 s) exceeds its pong timeout
    (2 s). *)
Definition slowPing : App.Configuration :=
  {| App.Kafka :=
       {| App.Brokers := ["localhost:9092"];
          App.Topics := [Types.TopicUserMargin; Types.TopicUserPosition];
          App.ConsumerGroup := "coin-futures-websocket";
          App.InitialOffset := "latest";
          App.SessionTimeout := 20000; App.HeartbeatInterval := 6000 |};
     App.WebSocketServer :=
       {| Enabled := true; Port := 8080; TLSCertPath := ""; TLSKeyPath := "";
          PingIntervalMs := 30000; PingTimeoutMs := 2000;
          MaxConnectionsPerUser := 5; ReadBufferSize := 0; WriteBufferSize := 0;
          ShutdownTimeoutMs := 5000 |};
     App.CacheTTLSeconds := 60 |}.

End Sample.

(** ** The event loop of the Hub, and what its state keeps *)

Module HubLoop.
Import Server.

(** What arrives on the three channels of the Hub: [register], [unregister]
    and [broadcast] (with the clock reading its publication frame takes). *)
Inductive HubEvent : Type :=
| Register (client : ClientPtr)
| Unregister (client : ClientPtr)
| Broadcast (message : ChannelMessage) (now : Z).

Section Encoding.
Variable Encode : Protocol.Message -> result string bytes.
Variable rangeOrder : gset ClientPtr -> list ClientPtr.

(** One turn of the [select] of [Hub.Run]. *)
Definition handle (m : Mem) (e : HubEvent) : outcome Mem :=
  match e with
  | Register client => registerClient m client
  | Unregister client => unregisterClient m client
  | Broadcast message now => broadcastToChannel Encode rangeOrder m message now
  end.

(** [Hub.Run] on the events that have arrived, in their order of arrival. *)
Fixpoint Run (m : Mem) (events : list HubEvent) : outcome Mem :=
  match events with
  | [] => Done m
  | e :: rest => m' <-! handle m e ;; Run m' rest
  end.
End Encoding.

(** Every stored count is positive and within the limit. *)
Definition countsWithinLimit (h : Hub) : Prop :=
  forall p n, userConnections h !! p = Some n ->
              (0 < n <= maxConnectionsPerUser h)%Z.

(** No queue holds more frames than its capacity. *)
Definition queuesBounded (m : Mem) : Prop :=
  forall client c, heap m !! client = Some c ->
                   (length (buf (send c)) <= cap (send c))%nat.

(** A client is in the subscriber set of a channel exactly when the channel
    is in the subscription set of the client. *)
Definition subscriptionsAgree (m : Mem) : Prop :=
  forall client channel,
    (exists s, channels (hub m) !! channel = Some s /\ client ∈ s) <->
    (exists c, heap m !! client = Some c /\ channel ∈ subscriptions c).

(** No channel is bound to the empty set. *)
Definition noEmptyChannel (h : Hub) : Prop :=
  forall channel s, channels h !! channel = Some s -> s <> ∅.

(** How a client may differ after frames were sent to it: only in its
    queue, which keeps its capacity and its open-or-closed state, keeps the
    frames it had in their order at its head, and stays within its capacity
    if it was. *)
Definition grown (c c' : Client) : Prop :=
  c' = setSend c (send c') /\
  cap (send c') = cap (send c) /\
  closed (send c') = closed (send c) /\
  buf (send c) `prefix_of` buf (send c') /\
  ((length (buf (send c)) <= cap (send c))%nat ->
   (length (buf (send c')) <= cap (send c'))%nat).

(** What the loop of [unregisterClient] leaves of one entry of
    [h.channels]. *)
Definition without (client : ClientPtr) (s : gset ClientPtr) : option (gset ClientPtr) :=
  if (size (s ∖ {[client]}) =? 0)%nat then None else Some (s ∖ {[client]}).

End HubLoop.

(** ** What handling a client frame may touch *)

Module HandlerScope.
Import Server Handler.

(** The same session: identifiers, and the capacity and open-or-closed state
    of the queue. *)
Definition sameSession (c c' : Client) : Prop :=
  id c' = id c /\ ajaibID c' = ajaibID c /\ cfxUserID c' = cfxUserID c /\
  closed (send c') = closed (send c) /\ cap (send c') = cap (send c).

(** [st'] differs from [st] at most in the channels of the Hub, in the queue
    and the subscription set of [client], and in the index; and not in the
    index when [client] has no internal identifier. *)
Definition touchesOnly (client : ClientPtr) (st st' : State) : Prop :=
  clients (hub (mem st')) = clients (hub (mem st)) /\
  userConnections (hub (mem st')) = userConnections (hub (mem st)) /\
  maxConnectionsPerUser (hub (mem st')) = maxConnectionsPerUser (hub (mem st)) /\
  (forall p, p <> client -> heap (mem st') !! p = heap (mem st) !! p) /\
  option_Forall2 sameSession (heap (mem st) !! client) (heap (mem st') !! client) /\
  (forall c, heap (mem st) !! client = Some c -> cfxUserID c = "" ->
             kafkaBroadcaster st' = kafkaBroadcaster st).

End HandlerScope.

(** ** Package [kafka]: the dispatcher of bus messages *)

Module Ingress.
Import Float64 Types Service.

Section Dispatch.
Variable clock : nat -> Z.
Variable exchange : nat -> Exchange.
Variable UnmarshalMargin : bytes -> option UserMargin.
Variable MarshalMargin : UserMargin -> option bytes.
Variable UnmarshalPosition : bytes -> option UserPosition.
Variable MarshalPosition : UserPosition -> option bytes.

(** The handlers return an error, or nil after a call of [hub.Broadcast] or
    after none: the result carries the message handed to [hub.Broadcast], if
    any. [hasTransformer] says that [b.transformer] is not nil. *)

(** [Broadcaster.handleUserMargin] *)
Definition handleUserMargin (b : Kafka.Broadcaster) (hasTransformer : bool)
    (s : cachedCurrencyService) (data : bytes)
  : result string (option Server.ChannelMessage) * cachedCurrencyService :=
  match UnmarshalMargin data with
  | None => (Err "failed to unmarshal UserMargin", s)
  | Some margin =>
      let cfxUserID := CFXUserID margin in
      let ajaibID := Kafka.getAjaibID b cfxUserID in
      if String.eqb ajaibID "" then (Ok None, s)
      else
        let '(dataToBroadcast, s) :=
          if hasTransformer then
            let '(r, s) :=
              TransformUserMargin clock exchange UnmarshalMargin MarshalMargin
                s data cfxUserID in
            match r with
            | Err _ => (None, s)
            | Ok transformedData => (Some transformedData, s)
            end
          else (Some data, s) in
        match dataToBroadcast with
        | None => (Ok None, s)
        | Some d =>
            let channel := "user:" ++ ajaibID ++ ":" ++ ChannelMarginSuffix in
            (Ok (Some {| Server.cmChannel := channel; Server.cmData := d |}), s)
        end
  end.

(** [Broadcaster.handleUserPosition] *)
Definition handleUserPosition (b : Kafka.Broadcaster) (hasTransformer : bool)
    (s : cachedCurrencyService) (data : bytes)
  : result string (option Server.ChannelMessage) * cachedCurrencyService :=
  match UnmarshalPosition data with
  | None => (Err "failed to unmarshal UserPosition", s)
  | Some position =>
      let cfxUserID := pCFXUserID position in
      let ajaibID := Kafka.getAjaibID b cfxUserID in
      if String.eqb ajaibID "" then (Ok None, s)
      else
        let '(dataToBroadcast, s) :=
          if hasTransformer then
            let '(r, s) :=
              TransformUserPosition clock exchange UnmarshalPosition MarshalPosition
                s data cfxUserID in
            match r with
            | Err _ => (None, s)
            | Ok transformedData => (Some transformedData, s)
            end
          else (Some data, s) in
        match dataToBroadcast with
        | None => (Ok None, s)
        | Some d =>
            let channel := "user:" ++ ajaibID ++ ":" ++ ChannelPositionSuffix in
            (Ok (Some {| Server.cmChannel := channel; Server.cmData := d |}), s)
        end
  end.

(** [Broadcaster.HandleMessage] *)
Definition HandleMessage (b : Kafka.Broadcaster) (hasTransformer : bool)
    (s : cachedCurrencyService) (topic : string) (key value : bytes)
  : result string (option Server.ChannelMessage) * cachedCurrencyService :=
  if String.eqb topic TopicUserMargin then handleUserMargin b hasTransformer s value
  else if String.eqb topic TopicUserPosition
       then handleUserPosition b hasTransformer s value
  else (Ok None, s).
End Dispatch.

End Ingress.

(** ** Bus messages used in the examples *)

Module BusSample.
Import Float64 Types Service.

(** A margin record of internal identifier C1 in USDT, a position record of
    C1 on a USDT contract, and decoders that yield them for every payload. *)
Definition marginUSDT : UserMargin :=
  {| Timestamp := 1700000000000; CFXUserID := "C1"; Asset := "USDT";
     TotalPositionValue := of_Z 10; MarginBalance := of_Z 2; OrderMargin := of_Z 1;
     EffectiveLeverage := of_Z 3; MaintenanceMargin := of_Z 1;
     UnrealizedPnl := of_Z (-1); AvailableMargin := of_Z 1; WalletBalance := of_Z 2;
     MarginRatio := of_Z 0; WithdrawableMargin := of_Z 1 |}.

Definition position (symbol : string) : UserPosition :=
  {| pTimestamp := 1700000000000; pCFXUserID := "C1"; Symbol := symbol;
     Size := of_Z 1; Value := of_Z 4; Leverage := 10; EntryPrice := of_Z 4;
     MarkPrice := of_Z 4; LiquidationPrice := of_Z 3; pMaintenanceMargin := of_Z 1;
     RealisedPnl := of_Z 2; UnrealisedPnl := of_Z (-1);
     DeleveragePercentile := of_Z 0; RiskLimit := 100; OpenOrderBuyCost := of_Z 0;
     OpenOrderSellCost := of_Z 0; InitialMarginRequirement := of_Z 1;
     UpdatedTime := 1700000000000; OpenOrderBuyQuantity := of_Z 0;
     OpenOrderSellQuantity := of_Z 0; pOrderMargin := of_Z 1 |}.

Definition decodeUSDT (data : bytes) : option UserMargin := Some marginUSDT.
Definition decodePosition (symbol : string) (data : bytes) : option UserPosition :=
  Some (position symbol).
Definition encodePosition (p : UserPosition) : option bytes := Some [].
Definition undecodable {A : Type} (data : bytes) : option A := None.

(** The index after a session of user 111 with internal identifier C1
    subscribed. *)
Definition index111 : Kafka.Broadcaster :=
  Kafka.RegisterSubscription Kafka.NewBroadcaster "C1" "111".

End BusSample.

(** ** The part of package [strconv] that the resolver uses *)

Module Strconv.

Inductive NumError : Type :=
| ErrSyntax
| ErrRange.

Definition maxUint64 : Z := 2 ^ 64 - 1.

(** The loop of [ParseUint(s, 10, 64)] over the bytes of [s], with the value
    read so far; the sums are taken in [uint64]. *)
Fixpoint parseUintFrom (s : string) (n : Z) : result NumError Z :=
  match s with
  | EmptyString => Ok n
  | String c s' =>
      if negb (Channel.isDigit c) then Err ErrSyntax
      else
        let d := (Z.of_nat (nat_of_ascii c) - 48)%Z in
        if (maxUint64 / 10 + 1 <=? n)%Z then Err ErrRange
        else
          let n := (n * 10)%Z in
          let n1 := ((n + d) mod 2 ^ 64)%Z in
          if (n1 <? n)%Z || (maxUint64 <? n1)%Z then Err ErrRange
          else parseUintFrom s' n1
  end.

(** [ParseUint(s, 10, 64)] *)
Definition ParseUint (s : string) : result NumError Z :=
  match s with
  | EmptyString => Err ErrSyntax
  | _ => parseUintFrom s 0
  end.

(** [ParseInt(s, 10, 64)]: an optional sign, then [ParseUint], then the range
    of [int64]. *)
Definition ParseInt (s : string) : result NumError Z :=
  match s with
  | EmptyString => Err ErrSyntax
  | String c rest =>
      let neg := Ascii.eqb c "-" in
      let digits := if Ascii.eqb c "+" || neg then rest else s in
      match ParseUint digits with
      | Err ErrSyntax => Err ErrSyntax
      | Err ErrRange => Err ErrRange
      | Ok un =>
          if negb neg && (2 ^ 63 <=? un)%Z then Err ErrRange
          else if neg && (2 ^ 63 <? un)%Z then Err ErrRange
          else Ok (if neg then wrap64 (- wrap64 un) else wrap64 un)
      end
  end.

(** The number a string of decimal digits writes. *)
Fixpoint decimalFrom (s : string) (n : Z) : Z :=
  match s with
  | EmptyString => n
  | String c s' => decimalFrom s' (n * 10 + (Z.of_nat (nat_of_ascii c) - 48))
  end.

Definition decimal (s : string) : Z := decimalFrom s 0.

End Strconv.

(** ** Package [service]: the resolver of internal identifiers *)

Module Mapping.

Record CfxMappingResult : Type := mkCfxMappingResult {
  AjaibID : Z;
  CfxUserID : string
}.

Record CfxMappingResponse : Type := mkCfxMappingResponse {
  ErrCode : string;
  ErrMessage : string;
  Result : CfxMappingResult
}.

(** What the HTTP exchange of one [GetCfxUserID] call comes to. *)
Inductive Exchange : Type :=
| RequestFailed (why : string)
| RoundTripFailed (why : string)
| Response (status : Z) (body : option CfxMappingResponse).

(** [HTTPCfxUserMappingClient.GetCfxUserID] on the outcome of its exchange *)
Definition GetCfxUserID (x : Exchange) : result string string :=
  match x with
  | RequestFailed why => Err ("failed to create request: " ++ why)
  | RoundTripFailed why => Err ("HTTP request failed: " ++ why)
  | Response status body =>
      if negb (status =? 200)%Z then Err "unexpected status code"
      else match body with
           | None => Err "failed to parse response"
           | Some response =>
               if negb (String.eqb (ErrCode response) "EC0000000")
               then Err ("API error: " ++ ErrCode response ++ " - " ++ ErrMessage response)
               else if String.eqb (CfxUserID (Result response)) ""
                    then Err "CFX user ID not found for ajaib_id"
                    else Ok (CfxUserID (Result response))
           end
  end.

(** [Server.resolveCfxUserID]; [mapper] is [None] while [s.cfxUserMapper] is
    nil, and otherwise tells how the exchange for an identifier ends. *)
Definition resolveCfxUserID (mapper : option (Z -> Exchange)) (ajaibID : string) : string :=
  match mapper with
  | None => ""
  | Some adapter =>
      if String.eqb ajaibID "" then ""
      else match Strconv.ParseInt ajaibID with
           | Err _ => ""
           | Ok id =>
               match GetCfxUserID (adapter id) with
               | Err _ => ""
               | Ok cfxUserID => cfxUserID
               end
           end
  end.

End Mapping.

(** ** Package [server]: the upgrade handler *)

Module Frontend.
Import Server.

(** What [parseAjaibIDFromHeader] reads of a request: the header
    [X-Socket-Authorization] and the query parameter [token], each empty when
    absent. *)
Record Request : Type := mkRequest {
  header : string;
  token : string
}.

(** How [handleWebSocket] ends: an HTTP status with the code and message of
    the error body, a failed upgrade, or a session: the new client was sent
    on [hub.register], for [Hub.Run] to register it, and its two pumps were
    started. *)
Inductive Answer : Type :=
| Status (http : Z) (code : Z) (message : string)
| NoUpgrade
| Session (client : ClientPtr).

Section Collaborators.
(** [base64.RawURLEncoding.DecodeString], and [json.Unmarshal] into the claims
    with the value of [sub] (empty when the field is missing). *)
Variable DecodeString : string -> option bytes.
Variable claimsSub : bytes -> option string.
Variable Encode : Protocol.Message -> result string bytes.
(** [json.Marshal] of the map of [NewConnectedMessage]. *)
Variable connectedData : string -> string -> bytes.
Variable mapper : option (Z -> Mapping.Exchange).

(** [Server.parseAjaibIDFromHeader] *)
Definition parseAjaibIDFromHeader (r : Request) : string :=
  let header := if String.eqb (header r) "" then token r else header r in
  if String.eqb header "" then ""
  else
    let token := Strings.TrimPrefix header "Bearer " in
    match Strings.Split token "." with
    | [_; segment; _] =>
        match DecodeString segment with
        | None => ""
        | Some payload =>
            match claimsSub payload with
            | None => ""
            | Some sub => sub
            end
        end
    | _ => ""
    end.

(** [Server.handleWebSocket]. [upgraded] tells whether [Upgrade] succeeded,
    [uuid] is the id the new client gets and [now] the clock reading of the
    connected frame. The new client is at an address not in use. The handler
    does not register it: it sends it on [hub.register] (the answer
    [Session]) and [Hub.Run] calls [registerClient] when it takes the
    client from that channel, on the state the Hub has by then; the Hub is
    read here by [CanUserConnect] only. *)
Definition handleWebSocket (srv : Server) (m : Mem) (r : Request) (upgraded : bool)
    (uuid : string) (now : Z) : outcome (Mem * Answer) :=
  let ajaibID := parseAjaibIDFromHeader r in
  if String.eqb ajaibID "" then Done (m, Status 401 4100 "unauthorized")
  else if negb (String.eqb ajaibID "") && negb (CanUserConnect (hub m) ajaibID)
       then Done (m, Status 429 4200 "connection limit reached")
  else if negb upgraded then Done (m, NoUpgrade)
  else
    let cfxUserID := Mapping.resolveCfxUserID mapper ajaibID in
    let client := fresh (dom (heap m)) in
    let m := store m client
               (NewClient (Some (srvClientConfig srv)) ajaibID cfxUserID uuid) in
    sent <-! SendMessage Encode m client
               (Protocol.NewConnectedMessage now (connectedData uuid ajaibID)) ;;
    Done (fst sent, Session client).
End Collaborators.

End Frontend.

(** ** Package [channel]: the subscription manager *)

Module Manager.

(** [clientSubscriptions]: client id to the set of its channels. *)
Record Manager : Type := mkManager {
  clientSubscriptions : gmap string (gset string)
}.

Definition NewManager : Manager := {| clientSubscriptions := ∅ |}.

(** [ValidateSubscription] *)
Definition ValidateSubscription (m : Manager) (clientID channel : string)
  : result Channel.ChannelError Channel.ChannelInfo :=
  Channel.ParseChannel channel.

(** [TrackSubscription] *)
Definition TrackSubscription (m : Manager) (clientID channel : string) : Manager :=
  let subs := match clientSubscriptions m !! clientID with
              | None => <[clientID := ∅]> (clientSubscriptions m)
              | Some _ => clientSubscriptions m
              end in
  {| clientSubscriptions :=
       <[clientID := {[channel]} ∪ default ∅ (subs !! clientID)]> subs |}.

(** [UntrackSubscription] *)
Definition UntrackSubscription (m : Manager) (clientID channel : string) : Manager :=
  match clientSubscriptions m !! clientID with
  | Some subs =>
      let subs := subs ∖ {[channel]} in
      if (size subs =? 0)%nat
      then {| clientSubscriptions := delete clientID (clientSubscriptions m) |}
      else {| clientSubscriptions := <[clientID := subs]> (clientSubscriptions m) |}
  | None => m
  end.

(** [UntrackClient] *)
Definition UntrackClient (m : Manager) (clientID : string) : Manager :=
  {| clientSubscriptions := delete clientID (clientSubscriptions m) |}.

(** [GetClientSubscriptions]: nil for an unknown client, else the channels in
    the order of the map iteration, here that of [elements]. *)
Definition GetClientSubscriptions (m : Manager) (clientID : string) : option (list string) :=
  match clientSubscriptions m !! clientID with
  | None => None
  | Some subs => Some (elements subs)
  end.

(** [IsSubscribed] *)
Definition IsSubscribed (m : Manager) (clientID channel : string) : bool :=
  match clientSubscriptions m !! clientID with
  | Some subs => bool_decide (channel ∈ subs)
  | None => false
  end.

(** No client is bound to the empty set of channels. *)
Definition noEmptyClient (m : Manager) : Prop :=
  forall clientID subs, clientSubscriptions m !! clientID = Some subs -> subs <> ∅.

End Manager.

(** ** Sample requests of the upgrade handler *)

Module FrontSample.
Import Server.

(** A decoder that accepts every segment, and claims whose [sub] is the
    decoded payload read as text. *)
Definition decodeAll (segment : string) : option bytes :=
  Some (map byte_of_ascii (list_ascii_of_string segment)).

Definition subOfPayload (payload : bytes) : option string :=
  Some (string_of_list_ascii (map ascii_of_byte payload)).

Definition connectedData (uuid ajaibID : string) : bytes :=
  map byte_of_ascii (list_ascii_of_string (uuid ++ " " ++ ajaibID)).

(** An adapter that knows every user, as [cfx-7]. *)
Definition adapter (id : Z) : Mapping.Exchange :=
  Mapping.Response 200
    (Some {| Mapping.ErrCode := "EC0000000"; Mapping.ErrMessage := "";
             Mapping.Result := {| Mapping.AjaibID := id; Mapping.CfxUserID := "cfx-7" |} |}).

(** The token [h.111.s] in the header, and a credential of two segments in
    the query parameter. *)
Definition bearer111 : Frontend.Request :=
  {| Frontend.header := "Bearer h.111.s"; Frontend.token := "" |}.

Definition twoSegments : Frontend.Request :=
  {| Frontend.header := ""; Frontend.token := "h.111" |}.

Definition server : Server :=
  NewServer {| Enabled := true; Port := 8080; TLSCertPath := ""; TLSKeyPath := "";
               PingIntervalMs := 2000; PingTimeoutMs := 30000;
               MaxConnectionsPerUser := 1; ReadBufferSize := 0;
               WriteBufferSize := 0; ShutdownTimeoutMs := 5000 |}.

(** User 111 has one session, registered, under a limit of one. *)
Definition full : Mem :=
  {| hub := {| clients := {[1%positive]}; userConnections := {["111" := 1%Z]};
               channels := ∅; maxConnectionsPerUser := 1 |};
     heap := {[1%positive := Sample.alice]} |}.

End FrontSample.

(** ** Channel names in the words of the specification *)

Module ChannelSpec.
Import Strings.

(** The characters of [[0-9]]. *)
Definition decimalDigits : list ascii :=
  ["0"; "1"; "2"; "3"; "4"; "5"; "6"; "7"; "8"; "9"]%char.

(** A [public_id]: a string matching [[0-9]{1,10}], that is one to ten
    characters, each of them a decimal digit. *)
Definition publicID (s : string) : Prop :=
  (1 <= String.length s <= 10)%nat /\
  Forall (fun c => In c decimalDigits) (list_ascii_of_string s).

(** A subscribe command that is to be refused for a session of public
    identifier [p]: its channel name is malformed (it is no
    [user:<public_id>:<margin|position>]) or the public identifier in it is
    not [p]. *)
Definition refusedFor (p name : string) : Prop :=
  forall id suffix,
    publicID id -> Channel.validSuffix suffix ->
    name = "user:" ++ id ++ ":" ++ suffix -> id <> p.

(** The names that are of no known kind of channel: those that do not begin
    with [user:], and those made of [user:], a [public_id], a colon and a
    non-empty suffix without colon that is neither [margin] nor
    [position]. *)
Definition unknownKind (name : string) : Prop :=
  (forall rest, name <> "user:" ++ rest) \/
  exists id suffix,
    name = "user:" ++ id ++ ":" ++ suffix /\ publicID id /\
    suffix <> "" /\ occurs ":" suffix = false /\ ~ Channel.validSuffix suffix.

End ChannelSpec.

(** * Properties *)

Section StringFacts.
Import Strings.

Lemma HasPrefix_split s p :
  HasPrefix s p = true -> s = p ++ TrimPrefix s p.
Proof.
  unfold TrimPrefix. intros H. rewrite H. revert s H.
  induction p as [|a p IH]; intros s H; [reflexivity|].
  destruct s as [|c s]; [discriminate|]. simpl in *.
  apply andb_prop in H as [Hc Hp]. apply Ascii.eqb_eq in Hc. subst c.
  change (String a s = String a (p ++ dropBytes (String.length p) s)).
  f_equal. exact (IH s Hp).
Qed.

Lemma Split_nonempty s sep : Split s sep <> [].
Proof.
  destruct s as [|c s]; simpl; [discriminate|].
  destruct (Ascii.eqb c sep); [discriminate|].
  destruct (Split s sep); discriminate.
Qed.

Lemma append_String c (a b : string) : String c a ++ b = String c (a ++ b).
Proof. reflexivity. Qed.

Lemma Split_one s sep b :
  Split s sep = [b] -> s = b /\ occurs sep b = false.
Proof.
  revert b. induction s as [|c s IH]; intros b H; simpl in H.
  - injection H as <-. split; reflexivity.
  - destruct (Ascii.eqb c sep) eqn:Ec.
    + injection H as _ Hs. now apply Split_nonempty in Hs.
    + destruct (Split s sep) as [|p ps] eqn:Es; [now apply Split_nonempty in Es|].
      injection H as <- ->. destruct (IH p eq_refl) as [-> Hp].
      split; [reflexivity|]. simpl. now rewrite Ec.
Qed.

Lemma Split_two s sep a b :
  Split s sep = [a; b] ->
  s = a ++ String sep b /\ occurs sep a = false /\ occurs sep b = false.
Proof.
  revert a. induction s as [|c s IH]; intros a H; simpl in H.
  - discriminate.
  - destruct (Ascii.eqb c sep) eqn:Ec.
    + apply Ascii.eqb_eq in Ec. subst c. injection H as <- Hs.
      apply Split_one in Hs as [-> Hb]. now repeat split.
    + destruct (Split s sep) as [|p ps] eqn:Es; [discriminate|].
      injection H as <- ->. destruct (IH p eq_refl) as (-> & Hp & Hq).
      rewrite append_String. split; [reflexivity|]. split; [|assumption].
      simpl. now rewrite Ec.
Qed.

Lemma Split_app a b sep :
  occurs sep a = false ->
  Split (a ++ String sep b) sep = a :: Split b sep.
Proof.
  induction a as [|c a IH]; simpl; intros H.
  - now rewrite Ascii.eqb_refl.
  - apply orb_false_elim in H as [Hc Ha].
    rewrite Hc, (IH Ha). reflexivity.
Qed.

Lemma Split_without sep b : occurs sep b = false -> Split b sep = [b].
Proof.
  induction b as [|c b IH]; simpl; intros H; [reflexivity|].
  apply orb_false_elim in H as [Hc Hb]. rewrite Hc, (IH Hb). reflexivity.
Qed.

Lemma Split_with sep b : occurs sep b = true -> (2 <= length (Split b sep))%nat.
Proof.
  induction b as [|c b IH]; simpl; intros H; [discriminate|].
  destruct (Ascii.eqb c sep); simpl in *.
  - pose proof (Split_nonempty b sep). destruct (Split b sep); [congruence|simpl; lia].
  - specialize (IH H). destruct (Split b sep); simpl in *; lia.
Qed.

End StringFacts.

(** ** Channel names (package [channel]) *)

Section ChannelFacts.
Import Strings Channel.

Lemma isDigit_not_colon c : isDigit c = true -> Ascii.eqb c ":" = false.
Proof.
  intros H. destruct (Ascii.eqb c ":") eqn:E; [|reflexivity].
  apply Ascii.eqb_eq in E. subst c. discriminate H.
Qed.

Lemma allDigits_no_colon s : allDigits s = true -> occurs ":" s = false.
Proof.
  induction s as [|c s IH]; simpl; intros H; [reflexivity|].
  apply andb_prop in H as [Hc Hs].
  now rewrite (isDigit_not_colon c Hc), (IH Hs).
Qed.

Lemma ValidUserChannels_true suffix :
  default false (ValidUserChannels !! suffix) = true <-> validSuffix suffix.
Proof.
  unfold ValidUserChannels, validSuffix. split.
  - intros H. destruct (decide (suffix = "margin")) as [->|Hm]; [now left|].
    destruct (decide (suffix = "position")) as [->|Hp]; [now right|].
    rewrite lookup_insert_ne, lookup_insert_ne, lookup_empty in H by congruence.
    discriminate H.
  - intros [-> | ->]; reflexivity.
Qed.

Lemma isValidAjaibID_inv id :
  isValidAjaibID id = true ->
  (1 <= String.length id <= 10)%nat /\ allDigits id = true.
Proof.
  unfold isValidAjaibID. intros H.
  apply andb_prop in H as [H Hd]. apply andb_prop in H as [H1 H2].
  apply Nat.leb_le in H1, H2. auto.
Qed.

(** What a successful parse says about its input. *)
Lemma ParseChannel_Ok_inv channel info :
  ParseChannel channel = Ok info ->
  isValidAjaibID (AjaibID info) = true /\ validSuffix (ChannelSub info) /\
  channel = "user:" ++ AjaibID info ++ ":" ++ ChannelSub info /\
  info = {| Name := channel; Prefix := "user:"; UserID := "";
            AjaibID := AjaibID info; ChannelSub := ChannelSub info |}.
Proof.
  unfold ParseChannel. intros H.
  destruct (HasPrefix channel PrefixUser) eqn:Hpre; simpl in H; [|discriminate].
  destruct (Split (TrimPrefix channel PrefixUser) ":")
    as [|a [|b [|c l]]] eqn:Hsplit; try discriminate.
  destruct (String.eqb a ""); [discriminate|].
  destruct (String.eqb b ""); [discriminate|].
  destruct (isValidAjaibID a) eqn:Hid; simpl in H; [|discriminate].
  destruct (default false (ValidUserChannels !! b)) eqn:Hsuf; simpl in H;
    [|discriminate].
  injection H as <-. simpl.
  apply Split_two in Hsplit as (Htrim & _ & _).
  apply HasPrefix_split in Hpre. rewrite Htrim in Hpre.
  repeat split; try assumption.
  now apply ValidUserChannels_true.
Qed.

Lemma ParseChannel_valid id suffix :
  isValidAjaibID id = true -> validSuffix suffix ->
  ParseChannel ("user:" ++ id ++ ":" ++ suffix)
  = Ok {| Name := "user:" ++ id ++ ":" ++ suffix; Prefix := "user:";
          UserID := ""; AjaibID := id; ChannelSub := suffix |}.
Proof.
  intros Hid Hsuf. pose proof (isValidAjaibID_inv id Hid) as [Hlen Hdig].
  unfold ParseChannel.
  change (HasPrefix ("user:" ++ id ++ ":" ++ suffix) PrefixUser) with true.
  change (TrimPrefix ("user:" ++ id ++ ":" ++ suffix) PrefixUser)
    with (id ++ String ":" suffix).
  simpl negb. cbv iota.
  rewrite (Split_app id suffix ":" (allDigits_no_colon id Hdig)).
  assert (Hone : Split suffix ":" = [suffix]) by (destruct Hsuf as [-> | ->]; reflexivity).
  rewrite Hone.
  assert (Hne : String.eqb id "" = false).
  { destruct id; [simpl in Hlen; lia | reflexivity]. }
  assert (Hne' : String.eqb suffix "" = false) by (destruct Hsuf as [-> | ->]; reflexivity).
  rewrite Hne, Hne', Hid. simpl negb. cbv iota.
  apply ValidUserChannels_true in Hsuf. rewrite Hsuf. reflexivity.
Qed.

Lemma ValidUserChannels_other suffix :
  ~ validSuffix suffix -> ValidUserChannels !! suffix = None.
Proof.
  intros H. unfold ValidUserChannels, validSuffix in *.
  rewrite lookup_insert_ne by (intros <-; tauto).
  rewrite lookup_insert_ne by (intros <-; tauto).
  apply lookup_empty.
Qed.

(** [isDigit] accepts the ten characters of [[0-9]] and no other. *)
Lemma isDigit_decimal c : isDigit c = true <-> In c ChannelSpec.decimalDigits.
Proof.
  split.
  - unfold isDigit. intros H. apply andb_prop in H as [H1 H2].
    apply Nat.leb_le in H1, H2. rewrite <- (ascii_nat_embedding c).
    assert (Hn : exists k, (k < 10)%nat /\ nat_of_ascii c = (48 + k)%nat)
      by (exists (nat_of_ascii c - 48)%nat; lia).
    destruct Hn as (k & Hk & ->).
    do 10 (destruct k as [|k];
           [cbv; repeat (first [left; reflexivity | right])|]).
    lia.
  - simpl. intros H. repeat (destruct H as [<-|H]; [reflexivity|]). contradiction.
Qed.

Lemma allDigits_decimal s :
  allDigits s = true
  <-> Forall (fun c => In c ChannelSpec.decimalDigits) (list_ascii_of_string s).
Proof.
  induction s as [|c s IH]; simpl.
  - split; [constructor|reflexivity].
  - rewrite andb_true_iff, Forall_cons, IH, (isDigit_decimal c). reflexivity.
Qed.

(** The identifier check of the code is the pattern [[0-9]{1,10}] of the
    specification. *)
Lemma isValidAjaibID_publicID s :
  isValidAjaibID s = true <-> ChannelSpec.publicID s.
Proof.
  unfold isValidAjaibID, ChannelSpec.publicID.
  rewrite !andb_true_iff, !Nat.leb_le, allDigits_decimal. tauto.
Qed.

(** C7. For every [public_id] matching [[0-9]{1,10}] (one to ten
    characters, each among the ten decimal digits) and every suffix among
    [margin] and [position], [ParseChannel] accepts
    ["user:" + public_id + ":" + suffix] and returns exactly those two
    components (with the whole name and the prefix); every string that is
    not of that shape is rejected with an error. *)
Theorem ParseChannel_exact :
  (forall id suffix,
      ChannelSpec.publicID id -> validSuffix suffix ->
      ParseChannel ("user:" ++ id ++ ":" ++ suffix)
      = Ok {| Name := "user:" ++ id ++ ":" ++ suffix; Prefix := "user:";
              UserID := ""; AjaibID := id; ChannelSub := suffix |}) /\
  (forall channel,
      (forall id suffix,
          ChannelSpec.publicID id -> validSuffix suffix ->
          channel <> "user:" ++ id ++ ":" ++ suffix) ->
      exists e, ParseChannel channel = Err e).
Proof.
  split.
  - intros id suffix Hid Hsuf. apply isValidAjaibID_publicID in Hid.
    exact (ParseChannel_valid id suffix Hid Hsuf).
  - intros channel Hshape. destruct (ParseChannel channel) as [info|e] eqn:H.
    + apply ParseChannel_Ok_inv in H as (Hid & Hsuf & Heq & _).
      apply isValidAjaibID_publicID in Hid.
      now destruct (Hshape _ _ Hid Hsuf).
    + now exists e.
Qed.

Lemma ParseChannel_exact_witness :
  ParseChannel "user:130010505:margin"
  = Ok {| Name := "user:130010505:margin"; Prefix := "user:"; UserID := "";
          AjaibID := "130010505"; ChannelSub := "margin" |} /\
  exists e, ParseChannel "heartbeat" = Err e.
Proof.
  split.
  - apply (proj1 ParseChannel_exact "130010505" "margin"); [|left; reflexivity].
    split; [simpl; lia|]. simpl.
    do 9 (apply List.Forall_cons; [cbv; auto 20|]). apply List.Forall_nil.
  - apply (proj2 ParseChannel_exact "heartbeat").
    intros id suffix _ _. discriminate.
Defined.

(** A public identifier of eleven digits is rejected. *)
Example ParseChannel_eleven_digits :
  ParseChannel "user:12345678901:margin" = Err ErrInvalidCFXUserID.
Proof. reflexivity. Qed.

(** A name begins with [user:] exactly when [HasPrefix] says so. *)
Lemma HasPrefix_user name :
  HasPrefix name "user:" = false <-> forall rest, name <> "user:" ++ rest.
Proof.
  split.
  - intros H rest ->. cbv in H. discriminate H.
  - intros H. destruct (HasPrefix name "user:") eqn:E; [|reflexivity].
    apply HasPrefix_split in E. now destruct (H _ E).
Qed.

(** The names [ParseChannel] calls of unknown type are those of no known
    kind. *)
Lemma ParseChannel_unknown_iff name :
  ParseChannel name = Err ErrUnknownChannelType <-> ChannelSpec.unknownKind name.
Proof.
  split.
  - intros H. unfold ParseChannel in H.
    destruct (HasPrefix name PrefixUser) eqn:Hp; simpl in H.
    + right. pose proof (HasPrefix_split _ _ Hp) as Hname.
      destruct (Split (TrimPrefix name PrefixUser) ":") as [|a [|b [|x l]]] eqn:Hs;
        try discriminate H.
      destruct (String.eqb a "") eqn:Ha; [discriminate H|].
      destruct (String.eqb b "") eqn:Hb; [discriminate H|].
      destruct (isValidAjaibID a) eqn:Hv; simpl in H; [|discriminate H].
      destruct (default false (ValidUserChannels !! b)) eqn:Hl; simpl in H;
        [discriminate H|].
      apply Split_two in Hs as (Hrest & Hoa & Hob).
      exists a, b. split.
      { transitivity (PrefixUser ++ TrimPrefix name PrefixUser); [exact Hname|].
        rewrite Hrest. reflexivity. }
      split; [now apply isValidAjaibID_publicID|].
      split; [now apply String.eqb_neq|]. split; [exact Hob|].
      intros Hvs. apply ValidUserChannels_true in Hvs. rewrite Hvs in Hl.
      discriminate Hl.
    + left. now apply HasPrefix_user.
  - intros [Hno | (id & suffix & -> & Hid & Hne & Hocc & Hnv)].
    + unfold ParseChannel, PrefixUser. apply HasPrefix_user in Hno.
      now rewrite Hno.
    + apply isValidAjaibID_publicID in Hid.
      pose proof (isValidAjaibID_inv id Hid) as [Hlen Hdig].
      unfold ParseChannel.
      change (HasPrefix ("user:" ++ id ++ ":" ++ suffix) PrefixUser) with true.
      change (TrimPrefix ("user:" ++ id ++ ":" ++ suffix) PrefixUser)
        with (id ++ String ":" suffix).
      simpl negb. cbv iota.
      rewrite (Split_app id suffix ":" (allDigits_no_colon id Hdig)).
      rewrite (Split_without ":" suffix Hocc).
      assert (Hid0 : String.eqb id "" = false).
      { destruct id; [simpl in Hlen; lia | reflexivity]. }
      apply String.eqb_neq in Hne.
      rewrite Hid0, Hne, Hid, (ValidUserChannels_other suffix Hnv). reflexivity.
Qed.

End ChannelFacts.

(** ** The Hub (package [server]) *)

Section HubFacts.
Import Server.

(** A successful [unregisterClient] leaves the queue of the client closed. *)
Lemma unregisterClient_closes m client m' :
  unregisterClient m client = Done m' ->
  exists c, heap m' !! client = Some c /\ closed (send c) = true.
Proof.
  unfold unregisterClient, obind, deref, closeChan.
  destruct (heap m !! client) as [c|]; [|discriminate].
  destruct (closed (send c)) eqn:Hc; [discriminate|].
  intros H. injection H as <-. simpl. rewrite lookup_insert_eq.
  eexists. split; reflexivity.
Qed.

(** Hence a second [unregisterClient] of the same client always panics. *)
Lemma unregisterClient_again m client m' :
  unregisterClient m client = Done m' ->
  unregisterClient m' client = Panic "close of closed channel".
Proof.
  intros H. apply unregisterClient_closes in H as (c & Hc & Hclosed).
  unfold unregisterClient, obind, deref, closeChan. now rewrite Hc, Hclosed.
Qed.

(** The bookkeeping of the second call is not idempotent either: with two
    sessions of one user counted, each call takes one off. *)
Lemma releaseConnection_twice :
  releaseConnection "111" {[ "111" := 2%Z ]} = {[ "111" := 1%Z ]} /\
  releaseConnection "111" (releaseConnection "111" {[ "111" := 2%Z ]}) = ∅.
Proof. split; reflexivity. Qed.

(** C1. The second [unregisterClient] of a session does not leave the Hub as
    the first one did: session 1 is registered and unregistered, and the
    second unregistration closes the already closed outbound queue, which
    panics. *)
Theorem unregisterClient_twice_panics :
  exists m1 m2,
    registerClient (Sample.fresh 2) 1 = Done m1 /\
    unregisterClient m1 1 = Done m2 /\
    unregisterClient m2 1 = Panic "close of closed channel".
Proof.
  eexists _, _. split; [reflexivity|]. split; [reflexivity|]. reflexivity.
Qed.

(** Subscribing to a channel without an entry and unsubscribing again
    leaves an entry with the empty set. *)
Lemma subscribe_unsubscribe_fresh m client c channel :
  heap m !! client = Some c ->
  channels (hub m) !! channel = None ->
  exists m1 m2,
    SubscribeClient m client channel = Done m1 /\
    UnsubscribeClient m1 client channel = Done m2 /\
    channels (hub m2) = <[channel := ∅]> (channels (hub m)).
Proof.
  intros Hc Hch. unfold SubscribeClient, UnsubscribeClient, obind, deref.
  rewrite Hc, Hch. eexists _, _. split; [reflexivity|]. simpl.
  rewrite !lookup_insert_eq. split; [reflexivity|]. simpl.
  rewrite !insert_insert_eq. f_equal.
  rewrite union_empty_r_L. apply difference_diag_L.
Qed.

(** C3. Subscribe followed by unsubscribe does not restore the Hub: on a Hub
    where session 1 is registered and the channel has no entry, the entry
    of the channel remains afterwards, holding the empty set. *)
Theorem subscribe_unsubscribe_leaves_entry :
  exists m1 m2 m3,
    registerClient (Sample.fresh 2) 1 = Done m1 /\
    SubscribeClient m1 1 Sample.margin111 = Done m2 /\
    UnsubscribeClient m2 1 Sample.margin111 = Done m3 /\
    channels (hub m1) !! Sample.margin111 = None /\
    channels (hub m3) !! Sample.margin111 = Some ∅ /\
    hub m3 <> hub m1.
Proof.
  eexists _, _, _. split; [reflexivity|]. split; [reflexivity|].
  split; [reflexivity|]. split; [reflexivity|]. split; [reflexivity|].
  intros H. apply (f_equal (fun h => channels h !! Sample.margin111)) in H.
  vm_compute in H. discriminate H.
Qed.

(** Without a limit [registerClient] never touches the counts. *)
Lemma registerClient_unlimited m client m' :
  (maxConnectionsPerUser (hub m) <= 0)%Z ->
  registerClient m client = Done m' ->
  userConnections (hub m') = userConnections (hub m).
Proof.
  intros Hmax. unfold registerClient, obind, deref.
  destruct (heap m !! client) as [c|]; [|discriminate].
  assert (Hlt : (0 <? maxConnectionsPerUser (hub m))%Z = false) by lia.
  rewrite Hlt, andb_false_r. intros H. now injection H as <-.
Qed.

(** With a limit the count can fall below the live sessions as well: at
    limit 1 session 1 of user 111 is registered, session 2 of the same user
    is turned away by [registerClient], and when session 2 goes its
    [unregisterClient] takes the count of session 1 away. *)
Example unregister_of_rejected_session :
  exists m1 m2 m3,
    registerClient (Sample.fresh 1) 1 = Done m1 /\
    registerClient m1 2 = Done m2 /\ m2 = m1 /\
    unregisterClient m2 2 = Done m3 /\
    clients (hub m3) = {[1%positive]} /\
    liveSessions m3 "111" = 1%nat /\
    GetUserConnectionCount (hub m3) "111" = 0%Z /\
    CanUserConnect (hub m3) "111" = true.
Proof.
  eexists _, _, _. split; [reflexivity|]. split; [reflexivity|].
  split; [reflexivity|]. split; [reflexivity|]. split; [reflexivity|].
  split; [vm_compute; reflexivity|]. split; reflexivity.
Qed.

(** C4. With [max_connections_per_user = 0] the count of a user does not
    follow the live sessions: after session 1 of user 111 is registered it
    is live, and the count of 111 is still 0. *)
Theorem register_unlimited_not_counted :
  exists m1,
    registerClient (Sample.fresh 0) 1 = Done m1 /\
    1%positive ∈ clients (hub m1) /\
    liveSessions m1 "111" = 1%nat /\
    userConnections (hub m1) !! "111" = None /\
    GetUserConnectionCount (hub m1) "111" = 0%Z.
Proof.
  eexists. split; [reflexivity|]. split; [|split; [|split]].
  - vm_compute. set_solver.
  - vm_compute. reflexivity.
  - reflexivity.
  - reflexivity.
Qed.

(** *** Broadcast *)

Lemma sendAll_effect clientList : forall m data,
  NoDup clientList ->
  (forall client, client ∈ clientList -> openQueue m client) ->
  exists m',
    sendAll m clientList data = Done m' /\ hub m' = hub m /\
    forall client,
      heap m' !! client
      = if decide (client ∈ clientList) then deliver data <$> heap m !! client
        else heap m !! client.
Proof.
  induction clientList as [|p rest IH]; intros m data Hnd Hopen.
  - exists m. split; [reflexivity|]. split; [reflexivity|].
    intros client. destruct (decide (client ∈ [])) as [Hin|_]; [|reflexivity].
    now apply not_elem_of_nil in Hin.
  - apply NoDup_cons in Hnd as [Hp Hnd].
    destruct (Hopen p) as (c & Hc & Hcl); [apply list_elem_of_here|].
    simpl. unfold obind, deref, trySend. rewrite Hc, Hcl.
    set (m1 := if (length (buf (send c)) <? cap (send c))%nat
               then store m p (setSend c {| buf := buf (send c) ++ [data];
                                            cap := cap (send c); closed := false |})
               else m).
    assert (Hm1 : hub m1 = hub m) by (subst m1; now destruct (_ <? _)%nat).
    assert (Hp1 : heap m1 !! p = Some (deliver data c)).
    { subst m1. unfold deliver. destruct (_ <? _)%nat; simpl.
      - apply lookup_insert_eq.
      - exact Hc. }
    assert (Hother : forall q, q <> p -> heap m1 !! q = heap m !! q).
    { intros q Hq. subst m1. destruct (_ <? _)%nat; simpl; [|reflexivity].
      now apply lookup_insert_ne. }
    destruct (IH m1 data Hnd) as (m' & Hrun & Hhub & Hheap).
    { intros q Hq. destruct (Hopen q) as (cq & Hcq & Hclq); [now apply list_elem_of_further|].
      exists cq. split; [|exact Hclq]. rewrite Hother; [exact Hcq|].
      intros ->. contradiction. }
    exists m'. split.
    { subst m1. destruct (_ <? _)%nat; exact Hrun. }
    split; [congruence|].
    intros q. rewrite Hheap. destruct (decide (q = p)) as [->|Hq].
    + destruct (decide (p ∈ rest)) as [Hin|_]; [contradiction|].
      destruct (decide (p ∈ p :: rest)) as [_|Hnin].
      * now rewrite Hp1, Hc.
      * destruct Hnin. apply list_elem_of_here.
    + rewrite (Hother q Hq).
      destruct (decide (q ∈ rest)) as [Hin|Hnin];
        destruct (decide (q ∈ p :: rest)) as [Hin'|Hnin']; try reflexivity.
      * destruct Hnin'. now apply list_elem_of_further.
      * apply elem_of_cons in Hin' as [->|Hin']; contradiction.
Qed.

(** C9. A broadcast on a channel whose subscribers have open queues returns
    (no send blocks) and leaves the Hub's maps as they are; every subscriber
    with room in its queue gets the encoded publication frame appended at
    the tail of the queue, every subscriber with a full queue keeps its
    queue as it is, and so does every client that is not a subscriber. *)
Theorem broadcastToChannel_delivery
    (Encode : Protocol.Message -> result string bytes)
    (rangeOrder : gset ClientPtr -> list ClientPtr)
    (m : Mem) (message : ChannelMessage) (now : Z)
    (subscribers : gset ClientPtr) (data : bytes) :
  channels (hub m) !! cmChannel message = Some subscribers ->
  rangeOrder subscribers ≡ₚ elements subscribers ->
  Encode (Protocol.NewPublicationMessage now (cmChannel message) (cmData message))
  = Ok data ->
  (forall client, client ∈ subscribers -> openQueue m client) ->
  exists m',
    broadcastToChannel Encode rangeOrder m message now = Done m' /\
    hub m' = hub m /\
    forall client c, heap m !! client = Some c ->
      (client ∈ subscribers ->
       (length (buf (send c)) < cap (send c))%nat ->
       exists c', heap m' !! client = Some c' /\
                  buf (send c') = (buf (send c) ++ [data])%list /\
                  c' = setSend c {| buf := buf (send c) ++ [data];
                                    cap := cap (send c); closed := false |}) /\
      (client ∈ subscribers ->
       (cap (send c) <= length (buf (send c)))%nat ->
       heap m' !! client = Some c) /\
      (client ∉ subscribers -> heap m' !! client = Some c).
Proof.
  intros Hch Hperm Henc Hopen. unfold broadcastToChannel. rewrite Hch, Henc.
  destruct (sendAll_effect (rangeOrder subscribers) m data) as (m' & Hrun & Hhub & Hheap).
  { rewrite Hperm. apply NoDup_elements. }
  { intros client Hin. apply Hopen. rewrite Hperm in Hin. now apply elem_of_elements in Hin. }
  exists m'. split; [exact Hrun|]. split; [exact Hhub|].
  intros client c Hc.
  assert (Hmem : client ∈ rangeOrder subscribers <-> client ∈ subscribers).
  { rewrite Hperm. apply elem_of_elements. }
  rewrite Hheap, Hc. split; [|split].
  - intros Hin Hroom. apply Hmem in Hin.
    destruct (decide (client ∈ rangeOrder subscribers)); [|contradiction].
    simpl. unfold deliver. apply Nat.ltb_lt in Hroom. rewrite Hroom.
    eexists. split; [reflexivity|]. split; reflexivity.
  - intros Hin Hfull. apply Hmem in Hin.
    destruct (decide (client ∈ rangeOrder subscribers)); [|contradiction].
    simpl. unfold deliver. apply Nat.ltb_ge in Hfull. now rewrite Hfull.
  - intros Hnin. destruct (decide (client ∈ rangeOrder subscribers)) as [Hin|_];
      [|reflexivity].
    apply Hmem in Hin. contradiction.
Qed.

Lemma broadcastToChannel_delivery_witness :
  exists m' c1,
    broadcastToChannel Sample.frame elements Sample.busy
      {| cmChannel := Sample.margin111; cmData := [] |} 0 = Done m' /\
    hub m' = hub Sample.busy /\
    heap m' !! 1%positive = Some c1 /\ length (buf (send c1)) = 1%nat /\
    heap m' !! 2%positive = Some Sample.stuck.
Proof.
  destruct (broadcastToChannel_delivery Sample.frame elements Sample.busy
              {| cmChannel := Sample.margin111; cmData := [] |} 0
              {[1%positive; 2%positive]}
              (map byte_of_ascii (list_ascii_of_string "publication user:111:margin")))
    as (m' & Hrun & Hhub & Heach).
  - reflexivity.
  - reflexivity.
  - reflexivity.
  - intros client Hin. apply elem_of_union in Hin as [Hin|Hin];
      apply elem_of_singleton in Hin; subst client;
      eexists; (split; [reflexivity|reflexivity]).
  - destruct (Heach 1%positive Sample.listening eq_refl) as (Hroom & _ & _).
    destruct Hroom as (c1 & Hc1 & Hbuf & _).
    + apply elem_of_union_l. now apply elem_of_singleton.
    + simpl. lia.
    + destruct (Heach 2%positive Sample.stuck eq_refl) as (_ & Hfull & _).
      exists m', c1. split; [exact Hrun|]. split; [exact Hhub|].
      split; [exact Hc1|]. split; [now rewrite Hbuf|].
      apply Hfull.
      * apply elem_of_union_r. now apply elem_of_singleton.
      * simpl. lia.
Defined.

End HubFacts.

(** ** The client protocol (package [handler]) *)

Section HandlerFacts.
Import Protocol Server Handler.

Lemma ParseChannel_empty : Channel.ParseChannel "" = Err Channel.ErrUnknownChannelType.
Proof. reflexivity. Qed.

(** The frame a turned-down subscribe is answered with; the state is the
    one before the command. *)
Lemma subscribeStep_rejected st client c msg now :
  heap (mem st) !! client = Some c ->
  Channel msg ∉ subscriptions c ->
  ajaibID c <> "" ->
  rejected c (Channel msg) ->
  exists text,
    subscribeStep st client msg now
    = Done (st, NewErrorMessage now (ID msg) (rejectionCode (Channel msg)) text).
Proof.
  intros Hc Hsub Hid Hrej. unfold subscribeStep, rejected, rejectionCode in *.
  destruct (String.eqb (Channel msg) "") eqn:Hempty.
  { apply String.eqb_eq in Hempty. rewrite Hempty, ParseChannel_empty. eauto. }
  unfold IsClientSubscribed, obind, deref. rewrite Hc.
  rewrite bool_decide_eq_false_2 by exact Hsub.
  destruct (Channel.ParseChannel (Channel msg)) as [info|e].
  - apply String.eqb_neq in Hid. rewrite Hid.
    assert (Hne : String.eqb (ajaibID c) (Channel.AjaibID info) = false).
    { apply String.eqb_neq. congruence. }
    rewrite Hne. simpl. eauto.
  - destruct e; eauto.
Qed.

(** [SendMessage] touches the queue of the client and nothing else. *)
Lemma SendMessage_effect Encode m client c msg :
  heap m !! client = Some c ->
  closed (send c) = false ->
  exists m' r,
    SendMessage Encode m client msg = Done (m', r) /\
    hub m' = hub m /\
    (forall p, p <> client -> heap m' !! p = heap m !! p) /\
    (exists c', heap m' !! client = Some c' /\
                subscriptions c' = subscriptions c /\
                (r = Ok tt ->
                 exists data, Encode msg = Ok data /\
                              buf (send c') = (buf (send c) ++ [data])%list) /\
                (r <> Ok tt -> c' = c)).
Proof.
  intros Hc Hopen. unfold SendMessage. destruct (Encode msg) as [data|why].
  - unfold Send, obind, deref, trySend. rewrite Hc, Hopen.
    destruct (length (buf (send c)) <? cap (send c))%nat.
    + eexists _, _. split; [reflexivity|]. split; [reflexivity|]. split.
      * intros p Hp. simpl. now apply lookup_insert_ne.
      * eexists. split; [apply lookup_insert_eq|]. split; [reflexivity|].
        split; [|congruence]. intros _. now exists data.
    + eexists _, _. split; [reflexivity|]. split; [reflexivity|].
      split; [reflexivity|]. exists c. split; [exact Hc|]. split; [reflexivity|].
      split; [discriminate|reflexivity].
  - eexists _, _. split; [reflexivity|]. split; [reflexivity|].
    split; [reflexivity|]. exists c. split; [exact Hc|]. split; [reflexivity|].
    split; [discriminate|reflexivity].
Qed.

(** A command that is to be refused is one the handler turns down. *)
Lemma refusedFor_rejected c name :
  ChannelSpec.refusedFor (ajaibID c) name -> rejected c name.
Proof.
  intros Hrefused. unfold rejected.
  destruct (Channel.ParseChannel name) as [info|e] eqn:H; [|exact I].
  apply ParseChannel_Ok_inv in H as (Hid & Hsuf & Heq & _).
  apply isValidAjaibID_publicID in Hid. exact (Hrefused _ _ Hid Hsuf Heq).
Qed.

(** The code of the error reply, by the shape of the name. *)
Lemma rejectionCode_by_shape name :
  (ChannelSpec.unknownKind name -> rejectionCode name = 4000%Z) /\
  (~ ChannelSpec.unknownKind name -> rejectionCode name = 4001%Z).
Proof.
  rewrite <- ParseChannel_unknown_iff. unfold rejectionCode.
  destruct (Channel.ParseChannel name) as [info|[]]; split; intros H;
    try reflexivity; try discriminate H; now destruct H.
Qed.

(** C5, as the code has it. A subscribe command of a session with a public
    identifier and an open queue, for a channel it is not subscribed to,
    whose name is no [user:<public_id>:<margin|position>] or carries another
    public identifier than the session's, returns; the frame handed to the
    session is an error frame; its code is 4000 (bad request) when the name
    is of no known kind, that is when it does not begin with [user:] (the
    empty name included) or is [user:], a [public_id], a colon and a
    non-empty suffix without colon other than [margin] and [position]; it is
    4001 (channel not found) in every other case; the Hub's maps, the
    subscription index and every subscription set stay as they were, and
    when the send succeeds the encoded error frame is the new tail of the
    session's queue. *)
Theorem handleSubscribe_rejection
    (Encode : Message -> result string bytes)
    (st : State) (client : ClientPtr) (c : Client) (msg : Message) (now : Z) :
  heap (mem st) !! client = Some c ->
  closed (send c) = false ->
  Channel msg ∉ subscriptions c ->
  ajaibID c <> "" ->
  ChannelSpec.refusedFor (ajaibID c) (Channel msg) ->
  exists code text st' r,
    let frame := NewErrorMessage now (ID msg) code text in
    (ChannelSpec.unknownKind (Channel msg) -> code = 4000%Z) /\
    (~ ChannelSpec.unknownKind (Channel msg) -> code = 4001%Z) /\
    subscribeStep st client msg now = Done (st, frame) /\
    handleSubscribe Encode st client msg now = Done (st', r) /\
    hub (mem st') = hub (mem st) /\
    kafkaBroadcaster st' = kafkaBroadcaster st /\
    (forall p, subscriptions <$> heap (mem st') !! p
               = subscriptions <$> heap (mem st) !! p) /\
    (r = Ok tt ->
     exists data c',
       Encode frame = Ok data /\ heap (mem st') !! client = Some c' /\
       buf (send c') = (buf (send c) ++ [data])%list).
Proof.
  intros Hc Hopen Hsub Hid Hrefused.
  pose proof (refusedFor_rejected c (Channel msg) Hrefused) as Hrej.
  destruct (subscribeStep_rejected st client c msg now Hc Hsub Hid Hrej) as [text Hstep].
  destruct (SendMessage_effect Encode (mem st) client c
              (NewErrorMessage now (ID msg) (rejectionCode (Channel msg)) text)
              Hc Hopen)
    as (m' & r & Hsend & Hhub & Hothers & c' & Hc' & Hsubs & Hok & _).
  exists (rejectionCode (Channel msg)), text, (setMem st m'), r. cbv zeta.
  destruct (rejectionCode_by_shape (Channel msg)) as [H4000 H4001].
  split; [exact H4000|]. split; [exact H4001|].
  split; [exact Hstep|]. split.
  { unfold handleSubscribe, reply, obind. rewrite Hstep. simpl. now rewrite Hsend. }
  split; [exact Hhub|]. split; [reflexivity|]. split.
  - intros p. simpl. destruct (decide (p = client)) as [->|Hp].
    + rewrite Hc', Hc. simpl. now rewrite Hsubs.
    + now rewrite (Hothers p Hp).
  - intros Hr. destruct (Hok Hr) as (data & Henc & Hbuf).
    exists data, c'. simpl. auto.
Qed.

Lemma handleSubscribe_rejection_witness :
  exists text st' r,
    subscribeStep (Sample.wired 2) 1 (Sample.subscribe "s1" "user:222:margin") 0
    = Done (Sample.wired 2, NewErrorMessage 0 "s1" 4001 text) /\
    handleSubscribe Sample.frame (Sample.wired 2) 1
      (Sample.subscribe "s1" "user:222:margin") 0 = Done (st', r) /\
    hub (mem st') = hub (mem (Sample.wired 2)).
Proof.
  destruct (handleSubscribe_rejection Sample.frame (Sample.wired 2) 1 Sample.alice
              (Sample.subscribe "s1" "user:222:margin") 0)
    as (code & text & st' & r & _ & _ & Hstep & Hrun & Hhub & _).
  - reflexivity.
  - reflexivity.
  - apply not_elem_of_empty.
  - discriminate.
  - intros id suffix _ _ Heq ->. cbv in Heq. discriminate Heq.
  - exists text, st', r. split; [|split; [exact Hrun|exact Hhub]].
    assert (Hcode : code = 4001%Z).
    { cbv zeta in Hstep. vm_compute in Hstep. now injection Hstep as <- _. }
    rewrite <- Hcode. exact Hstep.
Defined.

(** Against C5 as written: session 1 of user 111 subscribes to
    [user:111:orders], a name that does not parse, and is answered with
    code 4000, not 4001. *)
Lemma subscribe_unknown_type_is_bad_request :
  Channel.ParseChannel "user:111:orders" = Err Channel.ErrUnknownChannelType /\
  exists frame,
    subscribeStep (Sample.wired 2) 1 (Sample.subscribe "s1" "user:111:orders") 0
    = Done (Sample.wired 2, frame) /\
    Type_ frame = TypeError /\ Code frame = 4000%Z /\
    Code frame <> CodeChannelNotFound.
Proof.
  split; [reflexivity|]. eexists. split; [reflexivity|].
  split; [reflexivity|]. split; [reflexivity|]. discriminate.
Qed.

(** C2. The index entry of an internal identifier goes with the first
    unsubscribe: sessions 1 and 2 of user 111 (internal identifier C1)
    subscribe to the margin channel, session 1 unsubscribes, and the lookup
    of C1 is empty although session 2 is still subscribed. *)
Theorem unsubscribe_drops_shared_mapping :
  exists m1 m2 st1 st2 st3 r1 r2 r3 b2 b3 c2,
    registerClient (Sample.fresh 2) 1 = Done m1 /\
    registerClient m1 2 = Done m2 /\
    subscribeStep {| mem := m2; kafkaBroadcaster := Some Kafka.NewBroadcaster |} 1
      (Sample.subscribe "a" Sample.margin111) 0 = Done (st1, r1) /\
    subscribeStep st1 2 (Sample.subscribe "b" Sample.margin111) 0 = Done (st2, r2) /\
    unsubscribeStep st2 1 (Sample.unsubscribe "c" Sample.margin111) 0
    = Done (st3, r3) /\
    Type_ r1 = TypeSubscribed /\ Type_ r2 = TypeSubscribed /\
    Type_ r3 = TypeUnsubscribed /\
    kafkaBroadcaster st2 = Some b2 /\ Kafka.getAjaibID b2 "C1" = "111" /\
    kafkaBroadcaster st3 = Some b3 /\
    heap (mem st3) !! 2%positive = Some c2 /\ cfxUserID c2 = "C1" /\
    Sample.margin111 ∈ subscriptions c2 /\
    channels (hub (mem st3)) !! Sample.margin111 = Some {[2%positive]} /\
    Kafka.getAjaibID b3 "C1" = "".
Proof.
  eexists _, _, _, _, _, _, _, _, _, _, _.
  split; [reflexivity|]. split; [reflexivity|]. split; [reflexivity|].
  split; [reflexivity|]. split; [reflexivity|]. split; [reflexivity|].
  split; [reflexivity|]. split; [reflexivity|]. split; [reflexivity|].
  split; [reflexivity|]. split; [reflexivity|]. split; [reflexivity|].
  split; [reflexivity|]. split; [vm_compute; set_solver|].
  split; [reflexivity|]. reflexivity.
Qed.

End HandlerFacts.

(** ** Start-up ([cmd/app/main.go]) *)

Section StartupFacts.
Import Server App.

(** C6, as the code has it. Start-up never looks at the liveness timers:
    for every configuration, whatever its ping interval and pong timeout,
    [initWebSocketServer] returns no error and the server it builds carries
    the two timers as configured (milliseconds turned into nanoseconds); and
    what [main] does with a configuration does not depend on them: with other
    timers it exits, panics or runs exactly as before, and when it runs it
    runs the server built from the new timers. *)
Theorem startup_ignores_liveness_timers
    (NewReader : KafkaConfiguration -> bool)
    (cfg : Configuration) (pingIntervalMs pingTimeoutMs : Z) :
  let cfg' := withTimers cfg pingIntervalMs pingTimeoutMs in
  let wsServer := NewServer (WebSocketServer cfg') in
  (exists messageHandler, initWebSocketServer cfg' = Ok (wsServer, messageHandler)) /\
  PingInterval (srvClientConfig wsServer) = wrap64 (pingIntervalMs * 1000000) /\
  PingTimeout (srvClientConfig wsServer) = wrap64 (pingTimeoutMs * 1000000) /\
  main NewReader cfg'
  = match main NewReader cfg with
    | Done (Running _ messageHandler) => Done (Running wsServer messageHandler)
    | other => other
    end.
Proof.
  cbv zeta. split; [eexists; reflexivity|]. split; [reflexivity|].
  split; [reflexivity|].
  unfold main, initWebSocketServer, initKafkaConsumer, obind.
  change (Kafka (withTimers cfg pingIntervalMs pingTimeoutMs)) with (Kafka cfg).
  destruct (Brokers (Kafka cfg)) as [|b bs]; [reflexivity|].
  destruct (String.eqb (ConsumerGroup (Kafka cfg)) ""); [reflexivity|].
  destruct (Topics (Kafka cfg)) as [|t ts]; [reflexivity|].
  destruct (NewReader (Kafka cfg)); reflexivity.
Qed.

(** Against C6 as written: with a ping interval of 30 s and a pong
    timeout of 2 s [initWebSocketServer] returns no error and the sessions
    get those timers; whatever the reader library does, [main] ends as it
    does for the same configuration with the two timers exchanged (2 s and
    30 s); and when the library returns a reader the service runs. *)
Lemma slow_ping_starts :
  (PingIntervalMs (WebSocketServer Sample.slowPing)
   >= PingTimeoutMs (WebSocketServer Sample.slowPing))%Z /\
  (exists messageHandler,
     initWebSocketServer Sample.slowPing
     = Ok (NewServer (WebSocketServer Sample.slowPing), messageHandler)) /\
  PingInterval (srvClientConfig (NewServer (WebSocketServer Sample.slowPing)))
  = 30000000000%Z /\
  PingTimeout (srvClientConfig (NewServer (WebSocketServer Sample.slowPing)))
  = 2000000000%Z /\
  (forall NewReader,
     main NewReader Sample.slowPing
     = match main NewReader (withTimers Sample.slowPing 2000 30000) with
       | Done (Running _ messageHandler) =>
           Done (Running (NewServer (WebSocketServer Sample.slowPing)) messageHandler)
       | other => other
       end) /\
  exists messageHandler,
    main (fun _ => true) Sample.slowPing
    = Done (Running (NewServer (WebSocketServer Sample.slowPing)) messageHandler).
Proof.
  split; [vm_compute; discriminate|]. split; [eexists; reflexivity|].
  split; [reflexivity|]. split; [reflexivity|]. split.
  - intros NewReader. unfold main, initWebSocketServer, initKafkaConsumer, obind.
    simpl. destruct (NewReader _); reflexivity.
  - eexists. reflexivity.
Qed.

End StartupFacts.

(** ** The exchange rate (package [service]) *)

Section RateFacts.
Import Float64 Service.

Lemma leb_zero_false_positive (r : float64) :
  is_nan r = false -> leb r zero = false -> ltb zero r = true.
Proof.
  destruct r as [sg|sg| |sg m e]; try destruct sg; simpl; intros Hnan Hle;
    try reflexivity; discriminate.
Qed.

Lemma positive_not_zero (r : float64) : ltb zero r = true -> eqb r zero = false.
Proof.
  destruct r as [sg|sg| |sg m e]; try destruct sg; simpl; intros H;
    try reflexivity; discriminate.
Qed.

(** The provider hands out the decoded amount, and only when it is not
    [<= 0]. *)
Lemma GetUSDTToIDRRate_Ok x r :
  GetUSDTToIDRRate x = Ok r ->
  leb r zero = false /\
  exists status baseResp,
    x = Response status (Some baseResp) /\ r = Amount (Result baseResp).
Proof.
  unfold GetUSDTToIDRRate. destruct x as [why|why|status [baseResp|]]; try discriminate.
  - destruct (negb (status =? 200)%Z); [discriminate|].
    destruct (leb (Amount (Result baseResp)) zero) eqn:Hle; [discriminate|].
    intros H. injection H as <-. split; [exact Hle|]. now exists status, baseResp.
  - destruct (negb (status =? 200)%Z); discriminate.
Qed.

Section WithEnvironment.
Variable clock : nat -> Z.
Variable exchange : nat -> Exchange.

Lemma stale_cache s : cache (snd (stale clock s)) = cache s.
Proof. reflexivity. Qed.

(** A hit of the cache is the rate in it, which is not [== 0]; looking does
    not change the cache. *)
Lemma cached_spec s hit s' :
  cached clock s = (hit, s') ->
  cache s' = cache s /\
  forall r, hit = Some r -> r = rate (cache s) /\ eqb r zero = false.
Proof.
  unfold cached, isExpired, get.
  destruct (eqb (rate (cache s)) zero) eqn:Hz.
  - intros H. injection H as <- <-. split; [reflexivity|]. discriminate.
  - destruct (stale clock s) as [old s1] eqn:Hs1.
    assert (Hc1 : cache s1 = cache s).
    { pose proof (stale_cache s) as H. now rewrite Hs1 in H. }
    destruct old.
    + intros H. injection H as <- <-. split; [exact Hc1|]. discriminate.
    + rewrite Hc1, Hz.
      destruct (stale clock s1) as [old2 s2] eqn:Hs2.
      assert (Hc2 : cache s2 = cache s1).
      { pose proof (stale_cache s1) as H. now rewrite Hs2 in H. }
      destruct old2; intros H; injection H as <- <-;
        (split; [congruence|]).
      * discriminate.
      * intros r Hr. injection Hr as <-. rewrite Hc2, Hc1. now split.
Qed.

(** One call: the cache is left alone, or it receives the rate that this
    call's exchange produced without error, which is also the rate
    returned. *)
Lemma GetCurrentRate_step s res s' :
  GetCurrentRate clock exchange s = (res, s') ->
  ttl (cache s') = ttl (cache s) /\
  (forall r, res = Ok r ->
     (r = rate (cache s) /\ eqb r zero = false)
     \/ exists k, GetUSDTToIDRRate (exchange k) = Ok r) /\
  (cache s' = cache s
   \/ exists r k, GetUSDTToIDRRate (exchange k) = Ok r /\ res = Ok r /\
                  rate (cache s') = r).
Proof.
  unfold GetCurrentRate.
  destruct (cached clock s) as [hit1 s1] eqn:H1.
  apply cached_spec in H1 as [Hc1 Hhit1].
  destruct hit1 as [r1|].
  { intros H. injection H as <- <-. destruct (Hhit1 r1 eq_refl) as [-> Hnz].
    split; [now rewrite Hc1|]. split; [|now left].
    intros r Hr. injection Hr as <-. left. now split. }
  destruct (cached clock s1) as [hit2 s2] eqn:H2.
  apply cached_spec in H2 as [Hc2 Hhit2].
  destruct hit2 as [r2|].
  { intros H. injection H as <- <-. destruct (Hhit2 r2 eq_refl) as [-> Hnz].
    split; [now rewrite Hc2, Hc1|]. split; [|left; congruence].
    intros r Hr. injection Hr as <-. left. rewrite Hc1 in *. now split. }
  unfold fetch. simpl.
  destruct (GetUSDTToIDRRate (exchange (fetches s2))) as [r|why] eqn:Hf.
  - intros H. injection H as <- <-. simpl. split; [now rewrite Hc2, Hc1|]. split.
    + intros r' Hr. injection Hr as <-. right. now exists (fetches s2).
    + right. exists r, (fetches s2). now repeat split.
  - intros H. injection H as <- <-. simpl. split; [now rewrite Hc2, Hc1|].
    split; [discriminate|]. left. now rewrite Hc2, Hc1.
Qed.

Hypothesis Hjson : jsonNumbers exchange.

Lemma fetched_positive k r :
  GetUSDTToIDRRate (exchange k) = Ok r -> ltb zero r = true.
Proof.
  intros H. apply GetUSDTToIDRRate_Ok in H as (Hle & status & baseResp & Hx & ->).
  apply leb_zero_false_positive; [|exact Hle]. exact (Hjson k status baseResp Hx).
Qed.

Lemma GetCurrentRate_keeps s res s' :
  emptyOrPositive (cache s) ->
  GetCurrentRate clock exchange s = (res, s') ->
  emptyOrPositive (cache s') /\ ttl (cache s') = ttl (cache s) /\
  forall r, res = Ok r -> ltb zero r = true.
Proof.
  intros Hinv Hrun. apply GetCurrentRate_step in Hrun as (Httl & Hres & Hcache).
  split; [|split; [exact Httl|]].
  - destruct Hcache as [-> | (r & k & Hk & _ & Hr)]; [exact Hinv|].
    right. rewrite Hr. exact (fetched_positive k r Hk).
  - intros r Hr. destruct (Hres r Hr) as [[-> Hnz] | [k Hk]].
    + destruct Hinv as [Hempty | Hpos]; [|exact Hpos].
      rewrite Hempty in Hnz. discriminate Hnz.
    + exact (fetched_positive k r Hk).
Qed.

Lemma calls_keep n : forall s rs s',
  emptyOrPositive (cache s) ->
  calls clock exchange n s = (rs, s') ->
  emptyOrPositive (cache s') /\ ttl (cache s') = ttl (cache s) /\
  forall r, Ok r ∈ rs -> ltb zero r = true.
Proof.
  induction n as [|n IH]; intros s rs s' Hinv; simpl.
  - intros H. injection H as <- <-. split; [exact Hinv|]. split; [reflexivity|].
    intros r Hr. now apply not_elem_of_nil in Hr.
  - destruct (GetCurrentRate clock exchange s) as [res s1] eqn:H1.
    destruct (calls clock exchange n s1) as [rs1 s2] eqn:H2.
    intros H. injection H as <- <-.
    destruct (GetCurrentRate_keeps s res s1 Hinv H1) as (Hinv1 & Httl1 & Hres).
    destruct (IH s1 rs1 s2 Hinv1 H2) as (Hinv2 & Httl2 & Hrs).
    split; [exact Hinv2|]. split; [congruence|].
    intros r Hr. apply elem_of_cons in Hr as [Hr|Hr]; [now apply Hres|now apply Hrs].
Qed.

End WithEnvironment.

(** C10. The HTTP rate provider returns an error for every fetched amount
    that is [<= 0], whatever the status of the answer, and a rate it returns
    without error is the amount fetched with status 200, which is not
    [<= 0]; a call of [GetCurrentRate] leaves the cache alone or stores the
    rate its provider returned without error, and a call on an empty cache
    that fetches an amount [<= 0] returns an error and stores nothing; so
    after any number of calls on a new service every rate returned with a nil
    error is strictly positive, and the cache is either still as created or
    holds a strictly positive rate, which the test [rate == 0] for the empty
    cache does not mistake for empty. The amounts decoded from JSON are not
    NaN. *)
Theorem stored_rates_positive
    (clock : nat -> Z) (exchange : nat -> Exchange) :
  jsonNumbers exchange ->
  (forall status baseResp,
      leb (Amount (Result baseResp)) zero = true ->
      exists e, GetUSDTToIDRRate (Response status (Some baseResp)) = Err e) /\
  (forall x r,
      GetUSDTToIDRRate x = Ok r ->
      leb r zero = false /\
      exists baseResp, x = Response 200 (Some baseResp) /\ r = Amount (Result baseResp)) /\
  (forall s res s',
      GetCurrentRate clock exchange s = (res, s') ->
      cache s' = cache s
      \/ exists r k, GetUSDTToIDRRate (exchange k) = Ok r /\ res = Ok r /\
                     rate (cache s') = r) /\
  (forall s status baseResp,
      eqb (rate (cache s)) zero = true ->
      exchange (fetches s) = Response status (Some baseResp) ->
      leb (Amount (Result baseResp)) zero = true ->
      exists e s',
        GetCurrentRate clock exchange s = (Err e, s') /\ cache s' = cache s) /\
  forall cacheTTL n rs s,
    calls clock exchange n (NewCachedCurrencyService cacheTTL) = (rs, s) ->
    (forall r, Ok r ∈ rs -> ltb zero r = true) /\
    (cache s = newRateCache cacheTTL
     \/ (ltb zero (rate (cache s)) = true /\ eqb (rate (cache s)) zero = false)).
Proof.
  intros Hjson.
  assert (Hrefuse : forall status baseResp,
             leb (Amount (Result baseResp)) zero = true ->
             exists e, GetUSDTToIDRRate (Response status (Some baseResp)) = Err e).
  { intros status baseResp Hle. unfold GetUSDTToIDRRate.
    destruct (negb (status =? 200)%Z); [eexists; reflexivity|].
    rewrite Hle. eexists. reflexivity. }
  split; [exact Hrefuse|]. split; [|split; [|split]].
  - intros x r H. unfold GetUSDTToIDRRate in H.
    destruct x as [why|why|status [baseResp|]]; try discriminate H.
    + destruct (status =? 200)%Z eqn:Hs; simpl in H; [|discriminate H].
      apply Z.eqb_eq in Hs. subst status.
      destruct (leb (Amount (Result baseResp)) zero) eqn:Hle; [discriminate H|].
      injection H as <-. split; [exact Hle|]. now exists baseResp.
    + destruct (negb (status =? 200)%Z); discriminate H.
  - intros s res s' H. now apply GetCurrentRate_step in H as (_ & _ & H).
  - intros s status baseResp Hz Hx Hle.
    destruct (Hrefuse status baseResp Hle) as [e He].
    unfold GetCurrentRate, cached, isExpired, fetch. rewrite Hz. simpl.
    rewrite Hz. simpl. rewrite Hx, He. eexists _, _. split; reflexivity.
  - intros cacheTTL n rs s Hrun.
    assert (Hinit : emptyOrPositive (cache (NewCachedCurrencyService cacheTTL)))
      by (left; reflexivity).
    destruct (calls_keep clock exchange Hjson n _ rs s Hinit Hrun)
      as (Hinv & Httl & Hrs).
    split; [exact Hrs|]. destruct Hinv as [Hempty | Hpos].
    + left. rewrite Hempty. simpl in Httl. now rewrite Httl.
    + right. split; [exact Hpos|]. now apply positive_not_zero.
Qed.

Lemma stored_rates_positive_witness :
  jsonNumbers quote15000 /\
  exists s,
    calls tick quote15000 2 (NewCachedCurrencyService 60000000000)
    = ([Ok (of_Z 15000); Ok (of_Z 15000)], s) /\
    ltb zero (of_Z 15000) = true /\
    ltb zero (rate (cache s)) = true /\ fetches s = 1%nat.
Proof.
  assert (Hjson : jsonNumbers quote15000).
  { intros k status baseResp H. injection H as _ <-. reflexivity. }
  split; [exact Hjson|].
  destruct (stored_rates_positive tick quote15000 Hjson) as (_ & _ & _ & _ & Hcalls).
  eexists. split; [reflexivity|].
  destruct (Hcalls 60000000000%Z 2%nat _ _ eq_refl) as [Hrs _].
  split; [|split; [|reflexivity]].
  - apply Hrs. apply list_elem_of_here.
  - apply Hrs. apply list_elem_of_here.
Defined.

End RateFacts.

(** ** The transformer (package [service]) *)

Section TransformerFacts.
Import Float64 Types Service.

(** The record after the eight assignments. *)
Lemma convertMargin_fields margin rate :
  convertMargin margin rate
  = {| Timestamp := Timestamp margin;
       CFXUserID := CFXUserID margin;
       Asset := Asset margin;
       TotalPositionValue := mul (TotalPositionValue margin) rate;
       MarginBalance := mul (MarginBalance margin) rate;
       OrderMargin := mul (OrderMargin margin) rate;
       EffectiveLeverage := EffectiveLeverage margin;
       MaintenanceMargin := mul (MaintenanceMargin margin) rate;
       UnrealizedPnl := mul (UnrealizedPnl margin) rate;
       AvailableMargin := mul (AvailableMargin margin) rate;
       WalletBalance := mul (WalletBalance margin) rate;
       MarginRatio := MarginRatio margin;
       WithdrawableMargin := mul (WithdrawableMargin margin) rate |}.
Proof. reflexivity. Qed.

(** C8, as the code has it. For a payload that decodes to a margin record:
    when the asset is not ["IDR"] the transformer returns the input bytes as
    they are and leaves the currency service alone; when the asset is
    ["IDR"] and the currency service yields a rate, the transformer returns
    what [json.Marshal] makes of the record in which exactly the eight
    monetary fields are the old values times that rate (in [float64]) and the
    other five fields are the old ones, an error when [json.Marshal] refuses
    that record; when the currency service has no rate to give, the
    transformer returns an error and no payload. *)
Theorem TransformUserMargin_converts
    (clock : nat -> Z) (exchange : nat -> Exchange)
    (Unmarshal : bytes -> option UserMargin) (Marshal : UserMargin -> option bytes)
    (s : cachedCurrencyService) (data : bytes) (cfxUserID : string)
    (margin : UserMargin) :
  Unmarshal data = Some margin ->
  (Asset margin <> "IDR" ->
   TransformUserMargin clock exchange Unmarshal Marshal s data cfxUserID = (Ok data, s))
  /\
  (Asset margin = "IDR" ->
   forall rate s',
     GetCurrentRate clock exchange s = (Ok rate, s') ->
     exists out,
       TransformUserMargin clock exchange Unmarshal Marshal s data cfxUserID
       = (match Marshal out with
          | Some transformedData => Ok transformedData
          | None => Err "failed to marshal transformed UserMargin"
          end, s') /\
       TotalPositionValue out = mul (TotalPositionValue margin) rate /\
       MarginBalance out = mul (MarginBalance margin) rate /\
       OrderMargin out = mul (OrderMargin margin) rate /\
       MaintenanceMargin out = mul (MaintenanceMargin margin) rate /\
       UnrealizedPnl out = mul (UnrealizedPnl margin) rate /\
       AvailableMargin out = mul (AvailableMargin margin) rate /\
       WalletBalance out = mul (WalletBalance margin) rate /\
       WithdrawableMargin out = mul (WithdrawableMargin margin) rate /\
       Timestamp out = Timestamp margin /\
       CFXUserID out = CFXUserID margin /\
       Asset out = Asset margin /\
       EffectiveLeverage out = EffectiveLeverage margin /\
       MarginRatio out = MarginRatio margin)
  /\
  (Asset margin = "IDR" ->
   forall why s',
     GetCurrentRate clock exchange s = (Err why, s') ->
     exists e,
       TransformUserMargin clock exchange Unmarshal Marshal s data cfxUserID
       = (Err e, s')).
Proof.
  intros Hdec. unfold TransformUserMargin. rewrite Hdec. split; [|split].
  - intros Hasset. apply String.eqb_neq in Hasset. now rewrite Hasset.
  - intros Hasset rate s' Hrate. apply String.eqb_eq in Hasset.
    rewrite Hasset, Hrate. simpl negb. cbv iota.
    exists (convertMargin margin rate). split.
    + now destruct (Marshal (convertMargin margin rate)).
    + rewrite convertMargin_fields. simpl. repeat split.
  - intros Hasset why s' Hrate. apply String.eqb_eq in Hasset.
    rewrite Hasset, Hrate. simpl negb. cbv iota. eexists. reflexivity.
Qed.

Lemma TransformUserMargin_converts_witness :
  decodeIDR [] = Some marginIDR /\ Asset marginIDR = "IDR" /\
  exists out s',
    TransformUserMargin tick quote15000 decodeIDR encodeEmpty
      (NewCachedCurrencyService 60000000000) [] "C1"
    = (match encodeEmpty out with
       | Some transformedData => Ok transformedData
       | None => Err "failed to marshal transformed UserMargin"
       end, s') /\
    MarginBalance out = of_Z 30000 /\ MarginRatio out = of_Z 0.
Proof.
  split; [reflexivity|]. split; [reflexivity|].
  destruct (TransformUserMargin_converts tick quote15000 decodeIDR encodeEmpty
              (NewCachedCurrencyService 60000000000) [] "C1" marginIDR eq_refl)
    as (_ & Hidr & _).
  destruct (Hidr eq_refl (of_Z 15000) _ eq_refl)
    as (out & Hrun & _ & Hbalance & _ & _ & _ & _ & _ & _ & _ & _ & _ & _ & Hratio).
  exists out. eexists. split; [exact Hrun|]. split.
  - rewrite Hbalance. reflexivity.
  - exact Hratio.
Defined.

(** Against C8 as written: a payload that decodes to a margin record
    labelled ["IDR"] is not returned converted when the rate provider cannot
    be reached: the transformer returns an error. Nor when a product leaves
    the range of [float64]: a margin balance of [1e308] times the rate 15000
    is [+Inf], and with an encoder that refuses the converted record, as
    [json.Marshal] refuses an infinite number, the transformer returns an
    error. *)
Lemma transform_fails_without_rate :
  decodeIDR [] = Some marginIDR /\ Asset marginIDR = "IDR" /\
  (exists e s',
     TransformUserMargin tick (fun _ => RoundTripFailed "connection refused")
       decodeIDR encodeEmpty (NewCachedCurrencyService 60000000000) [] "C1"
     = (Err e, s')) /\
  MarginBalance (convertMargin (setMarginBalance marginIDR (of_Z (10 ^ 308)))
                   (of_Z 15000))
  = S754_infinity false /\
  (forall Marshal : UserMargin -> option bytes,
     Marshal (convertMargin (setMarginBalance marginIDR (of_Z (10 ^ 308)))
                (of_Z 15000)) = None ->
     exists e s',
       TransformUserMargin tick quote15000
         (fun _ => Some (setMarginBalance marginIDR (of_Z (10 ^ 308)))) Marshal
         (NewCachedCurrencyService 60000000000) [] "C1"
       = (Err e, s')).
Proof.
  split; [reflexivity|]. split; [reflexivity|]. split.
  { eexists _, _. reflexivity. }
  split; [vm_compute; reflexivity|].
  intros Marshal Hrefuse. unfold TransformUserMargin.
  change (Asset (setMarginBalance marginIDR (of_Z (10 ^ 308)))) with "IDR".
  simpl negb. cbv iota.
  assert (Hrate : GetCurrentRate tick quote15000 (NewCachedCurrencyService 60000000000)
                  = (Ok (of_Z 15000),
                     snd (GetCurrentRate tick quote15000
                            (NewCachedCurrencyService 60000000000))))
    by reflexivity.
  rewrite Hrate, Hrefuse. eexists _, _. reflexivity.
Qed.

(** Any other asset: the payload goes through untouched. *)
Example TransformUserMargin_usdt (data : bytes) :
  TransformUserMargin tick quote15000
    (fun _ => Some (setMarginBalance
                      {| Timestamp := 0; CFXUserID := "C1"; Asset := "USDT";
                         TotalPositionValue := zero; MarginBalance := zero;
                         OrderMargin := zero; EffectiveLeverage := zero;
                         MaintenanceMargin := zero; UnrealizedPnl := zero;
                         AvailableMargin := zero; WalletBalance := zero;
                         MarginRatio := zero; WithdrawableMargin := zero |}
                      (of_Z 7)))
    encodeEmpty (NewCachedCurrencyService 60000000000) data "C1"
  = (Ok data, NewCachedCurrencyService 60000000000).
Proof. reflexivity. Qed.

End TransformerFacts.

(** ** More on the Hub *)

Set Warnings "-clear-no-such-hyp".

Section HubLaws.
Import Server HubLoop.

(** [registerClient] for a client whose user may connect. *)
Lemma registerClient_admits (m : Mem) (client : ClientPtr) (c : Client) :
  heap m !! client = Some c ->
  CanUserConnect (hub m) (ajaibID c) = true ->
  exists m', registerClient m client = Done m' /\ client ∈ clients (hub m') /\
             heap m' = heap m.
Proof.
  intros Hc. unfold CanUserConnect, registerClient, obind, deref. rewrite Hc.
  destruct (String.eqb (ajaibID c) "") eqn:Hid; simpl.
  { intros _. eexists. split; [reflexivity|].
    split; [|reflexivity]. simpl. set_solver. }
  destruct (Z.ltb_spec 0 (maxConnectionsPerUser (hub m))) as [Hmax|Hmax].
  - assert (Hle : (maxConnectionsPerUser (hub m) <=? 0)%Z = false) by lia.
    rewrite Hle. intros Hcan.
    assert (Hno : (maxConnectionsPerUser (hub m) <=? connectionsOf (hub m) (ajaibID c))%Z
                  = false) by lia.
    rewrite Hno. eexists. split; [reflexivity|].
    split; [|reflexivity]. simpl. set_solver.
  - assert (Hle : (maxConnectionsPerUser (hub m) <=? 0)%Z = true) by lia.
    rewrite Hle. intros _. eexists. split; [reflexivity|].
    split; [|reflexivity]. simpl. set_solver.
Qed.

(** X1. [CanUserConnect] and [registerClient] agree on one Hub state: a
    client whose user may connect is added to the live set, and a client
    whose user may not is turned away with the state untouched. *)
Theorem registerClient_CanUserConnect (m : Mem) (client : ClientPtr) (c : Client) :
  heap m !! client = Some c ->
  (CanUserConnect (hub m) (ajaibID c) = true ->
   exists m', registerClient m client = Done m' /\ client ∈ clients (hub m') /\
              heap m' = heap m) /\
  (CanUserConnect (hub m) (ajaibID c) = false -> registerClient m client = Done m).
Proof.
  intros Hc. split; [exact (registerClient_admits m client c Hc)|].
  unfold CanUserConnect, registerClient, obind, deref. rewrite Hc.
  destruct (String.eqb (ajaibID c) ""); simpl; [discriminate|].
  destruct (Z.ltb_spec 0 (maxConnectionsPerUser (hub m))) as [Hmax|Hmax].
  - assert (Hle : (maxConnectionsPerUser (hub m) <=? 0)%Z = false) by lia.
    rewrite Hle. intros Hcan.
    assert (Hyes : (maxConnectionsPerUser (hub m) <=? connectionsOf (hub m) (ajaibID c))%Z
                   = true) by lia.
    rewrite Hyes. reflexivity.
  - assert (Hle : (maxConnectionsPerUser (hub m) <=? 0)%Z = true) by lia.
    rewrite Hle. discriminate.
Qed.

Lemma registerClient_CanUserConnect_witness :
  CanUserConnect (NewHub 1) "111" = true /\
  exists m', registerClient (Sample.fresh 1) 1 = Done m' /\
             1%positive ∈ clients (hub m').
Proof.
  split; [reflexivity|].
  destruct (proj1 (registerClient_CanUserConnect (Sample.fresh 1) 1 Sample.alice eq_refl)
              eq_refl) as (m' & Hrun & Hin & _).
  now exists m'.
Defined.

Lemma wrap64_small z : (- 2 ^ 63 <= z < 2 ^ 63)%Z -> wrap64 z = z.
Proof.
  intros H. unfold wrap64. rewrite Z.mod_small; lia.
Qed.

Lemma registerClient_counts m client m' :
  (maxConnectionsPerUser (hub m) < 2 ^ 63)%Z ->
  countsWithinLimit (hub m) ->
  registerClient m client = Done m' ->
  countsWithinLimit (hub m') /\
  maxConnectionsPerUser (hub m') = maxConnectionsPerUser (hub m) /\
  heap m' = heap m.
Proof.
  intros Hmax Hinv. unfold registerClient, obind, deref.
  destruct (heap m !! client) as [c|]; [|discriminate].
  destruct (negb (String.eqb (ajaibID c) "") && (0 <? maxConnectionsPerUser (hub m))%Z).
  - destruct (Z.leb_spec (maxConnectionsPerUser (hub m)) (connectionsOf (hub m) (ajaibID c)))
      as [Hfull|Hroom].
    + intros H. injection H as <-. auto.
    + intros H. injection H as <-. simpl. split; [|auto].
      intros p n. simpl. unfold connectionsOf in *.
      destruct (decide (p = ajaibID c)) as [->|Hp].
      * rewrite lookup_insert_eq. intros H. injection H as <-.
        assert (Hcount : (0 <= default 0 (userConnections (hub m) !! ajaibID c))%Z).
        { destruct (userConnections (hub m) !! ajaibID c) as [k|] eqn:Hk; simpl; [|lia].
          pose proof (Hinv _ _ Hk). lia. }
        rewrite wrap64_small; lia.
      * rewrite lookup_insert_ne by congruence. apply Hinv.
  - intros H. injection H as <-. auto.
Qed.

Lemma releaseConnection_counts ajaibID (uc : gmap string Z) (limit : Z) :
  (limit < 2 ^ 63)%Z ->
  (forall p n, uc !! p = Some n -> (0 < n <= limit)%Z) ->
  forall p n, releaseConnection ajaibID uc !! p = Some n -> (0 < n <= limit)%Z.
Proof.
  intros Hmax Hinv p n. unfold releaseConnection.
  destruct (String.eqb ajaibID ""); [apply Hinv|].
  destruct (uc !! ajaibID) as [k|] eqn:Hk; [|apply Hinv].
  pose proof (Hinv _ _ Hk) as Hrange.
  assert (Hpos : (0 <? k)%Z = true) by lia. rewrite Hpos.
  rewrite lookup_insert_eq. simpl. rewrite wrap64_small by lia.
  destruct (Z.eqb_spec (k - 1) 0) as [Hz|Hnz].
  - destruct (decide (p = ajaibID)) as [->|Hp].
    + rewrite lookup_delete_eq. discriminate.
    + rewrite lookup_delete_ne, lookup_insert_ne by congruence. apply Hinv.
  - destruct (decide (p = ajaibID)) as [->|Hp].
    + rewrite lookup_insert_eq. intros H. injection H as <-. lia.
    + rewrite lookup_insert_ne by congruence. apply Hinv.
Qed.

Lemma unregisterClient_counts m client m' :
  (maxConnectionsPerUser (hub m) < 2 ^ 63)%Z ->
  countsWithinLimit (hub m) ->
  queuesBounded m ->
  unregisterClient m client = Done m' ->
  countsWithinLimit (hub m') /\
  maxConnectionsPerUser (hub m') = maxConnectionsPerUser (hub m) /\
  queuesBounded m'.
Proof.
  intros Hmax Hinv Hq. unfold unregisterClient, obind, deref, closeChan.
  destruct (heap m !! client) as [c|] eqn:Hc; [|discriminate].
  destruct (closed (send c)); [discriminate|].
  intros H. injection H as <-. simpl. split; [|split; [reflexivity|]].
  - intros p n. simpl. now apply releaseConnection_counts.
  - intros p cp. simpl. destruct (decide (p = client)) as [->|Hp].
    + rewrite lookup_insert_eq. intros H. injection H as <-. simpl. exact (Hq _ _ Hc).
    + rewrite lookup_insert_ne by congruence. apply Hq.
Qed.

Lemma grown_refl c : grown c c.
Proof.
  unfold grown. split; [now destruct c|]. repeat split; auto.
Qed.

Lemma grown_trans c1 c2 c3 : grown c1 c2 -> grown c2 c3 -> grown c1 c3.
Proof.
  intros (H1 & Hcap1 & Hcl1 & Hpre1 & Hb1) (H2 & Hcap2 & Hcl2 & Hpre2 & Hb2).
  unfold grown. split; [|split; [|split; [|split]]].
  - rewrite H2. rewrite H1 at 1. reflexivity.
  - congruence.
  - congruence.
  - now transitivity (buf (send c2)).
  - auto.
Qed.

Lemma trySend_grown c data ch sent :
  trySend (send c) data = Done (ch, sent) -> grown c (setSend c ch).
Proof.
  unfold trySend. destruct (closed (send c)) eqn:Hcl; [discriminate|].
  destruct (Nat.ltb_spec (length (buf (send c))) (cap (send c))) as [Hroom|Hfull];
    intros H; injection H as <- <-; unfold grown; simpl.
  - split; [reflexivity|]. split; [reflexivity|]. split; [now rewrite Hcl|].
    split; [now apply prefix_app_r|]. intros _. rewrite length_app. simpl. lia.
  - split; [reflexivity|]. repeat split; auto.
Qed.

(** The loop of a broadcast, for any list of clients: every client is as it
    was up to frames added to its queue. *)
Lemma sendAll_grown clientList : forall m data m',
  sendAll m clientList data = Done m' ->
  hub m' = hub m /\
  forall client, option_Forall2 grown (heap m !! client) (heap m' !! client).
Proof.
  induction clientList as [|p rest IH]; intros m data m'; simpl.
  - intros H. injection H as <-. split; [reflexivity|].
    intros client. destruct (heap m !! client); constructor. apply grown_refl.
  - unfold obind, deref. destruct (heap m !! p) as [c|] eqn:Hc; [|discriminate].
    destruct (trySend (send c) data) as [[ch sent]|] eqn:Hsend; [|discriminate].
    pose proof (trySend_grown c data ch sent Hsend) as Hgrown.
    destruct sent.
    + intros Hrun. apply IH in Hrun as [Hhub Hheap]. split; [exact Hhub|].
      intros client. specialize (Hheap client). simpl in Hheap.
      destruct (decide (client = p)) as [->|Hp].
      * rewrite lookup_insert_eq in Hheap. rewrite Hc.
        inversion Hheap as [? c' Hg Heq1 Heq2|]; subst. constructor.
        now apply (grown_trans c (setSend c ch) c').
      * now rewrite lookup_insert_ne in Hheap by congruence.
    + intros Hrun. now apply IH in Hrun.
Qed.

(** A broadcast that returns changes clients at most by sending to them. *)
Lemma broadcastToChannel_grown
    (Encode : Protocol.Message -> result string bytes)
    (rangeOrder : gset ClientPtr -> list ClientPtr)
    (m : Mem) (message : ChannelMessage) (now : Z) (m' : Mem) :
  broadcastToChannel Encode rangeOrder m message now = Done m' ->
  hub m' = hub m /\
  (forall client, option_Forall2 grown (heap m !! client) (heap m' !! client)).
Proof.
  intros Hrun. unfold broadcastToChannel in Hrun.
  destruct (channels (hub m) !! cmChannel message) as [subscribers|].
  - destruct (Encode _) as [data|why].
    + now apply sendAll_grown in Hrun.
    + injection Hrun as <-. split; [reflexivity|].
      intros client. destruct (heap m !! client); constructor. apply grown_refl.
  - injection Hrun as <-. split; [reflexivity|].
    intros client. destruct (heap m !! client); constructor. apply grown_refl.
Qed.

(** Queues that only grew within their capacities are within them. *)
Lemma grown_queuesBounded (m m' : Mem) :
  (forall client, option_Forall2 grown (heap m !! client) (heap m' !! client)) ->
  queuesBounded m -> queuesBounded m'.
Proof.
  intros Hheap Hq client c' Hc'. specialize (Hheap client). rewrite Hc' in Hheap.
  inversion Hheap as [c ? Hg Heq1 Heq2|]; subst. symmetry in Heq1.
  destruct Hg as (_ & _ & _ & _ & Hbound). apply Hbound. exact (Hq _ _ Heq1).
Qed.

(** X2. A broadcast that returns leaves the Hub's maps as they are and every
    client as it was up to its queue: the queue keeps its capacity, keeps the
    frames it held in their order at its head, and is not filled beyond its
    capacity; no client appears or disappears. This holds for every encoder
    and every iteration order. *)
Theorem broadcastToChannel_queues
    (Encode : Protocol.Message -> result string bytes)
    (rangeOrder : gset ClientPtr -> list ClientPtr)
    (m : Mem) (message : ChannelMessage) (now : Z) (m' : Mem) :
  broadcastToChannel Encode rangeOrder m message now = Done m' ->
  hub m' = hub m /\
  (forall client, option_Forall2 grown (heap m !! client) (heap m' !! client)) /\
  (queuesBounded m -> queuesBounded m').
Proof.
  intros Hrun.
  destruct (broadcastToChannel_grown Encode rangeOrder m message now m' Hrun)
    as [Hhub Hheap].
  split; [exact Hhub|]. split; [exact Hheap|].
  exact (grown_queuesBounded m m' Hheap).
Qed.

Lemma broadcastToChannel_queues_witness :
  exists m',
    broadcastToChannel Sample.frame elements Sample.busy
      {| cmChannel := Sample.margin111; cmData := [] |} 0 = Done m' /\
    hub m' = hub Sample.busy /\ queuesBounded m'.
Proof.
  destruct (broadcastToChannel Sample.frame elements Sample.busy
              {| cmChannel := Sample.margin111; cmData := [] |} 0) as [m'|] eqn:Hrun;
    [|vm_compute in Hrun; discriminate Hrun].
  exists m'. split; [reflexivity|].
  destruct (broadcastToChannel_queues Sample.frame elements Sample.busy
              {| cmChannel := Sample.margin111; cmData := [] |} 0 m' Hrun)
    as (Hhub & _ & Hq).
  split; [exact Hhub|]. apply Hq.
  intros client c Hc.
  destruct (decide (client = 1%positive)) as [->|H1].
  { injection Hc as <-. vm_compute. lia. }
  destruct (decide (client = 2%positive)) as [->|H2].
  { injection Hc as <-. vm_compute. lia. }
  unfold Sample.busy in Hc. simpl in Hc.
  rewrite !lookup_insert_ne, lookup_empty in Hc by congruence. discriminate Hc.
Defined.

(** X3. The event loop keeps the counts sound: on a Hub whose limit fits an
    [int], whose stored counts are all positive and within the limit and
    whose queues are within their capacities (as on a new Hub), the same
    holds after any sequence of register, unregister and broadcast events
    that the loop gets through, and the limit is unchanged. *)
Theorem Run_keeps_counts
    (Encode : Protocol.Message -> result string bytes)
    (rangeOrder : gset ClientPtr -> list ClientPtr)
    (events : list HubEvent) : forall (m m' : Mem),
  (maxConnectionsPerUser (hub m) < 2 ^ 63)%Z ->
  countsWithinLimit (hub m) ->
  queuesBounded m ->
  Run Encode rangeOrder m events = Done m' ->
  countsWithinLimit (hub m') /\ queuesBounded m' /\
  maxConnectionsPerUser (hub m') = maxConnectionsPerUser (hub m).
Proof.
  induction events as [|e rest IH]; intros m m' Hmax Hinv Hq; simpl.
  - intros H. injection H as <-. auto.
  - unfold obind. destruct (handle Encode rangeOrder m e) as [m1|] eqn:He; [|discriminate].
    intros Hrun.
    assert (H1 : countsWithinLimit (hub m1) /\ queuesBounded m1 /\
                 maxConnectionsPerUser (hub m1) = maxConnectionsPerUser (hub m)).
    { destruct e as [client|client|message now]; simpl in He.
      - destruct (registerClient_counts m client m1 Hmax Hinv He) as (Hc & Hl & Hh).
        split; [exact Hc|]. split; [|exact Hl]. unfold queuesBounded. now rewrite Hh.
      - destruct (unregisterClient_counts m client m1 Hmax Hinv Hq He) as (Hc & Hl & Hb).
        auto.
      - destruct (broadcastToChannel_grown Encode rangeOrder m message now m1 He)
          as (Hhub & Hgrown).
        pose proof (grown_queuesBounded m m1 Hgrown) as Hb.
        rewrite Hhub. auto. }
    destruct H1 as (Hinv1 & Hq1 & Hl1).
    destruct (IH m1 m') as (Hinv' & Hq' & Hl'); try assumption; [lia|].
    split; [exact Hinv'|]. split; [exact Hq'|]. congruence.
Qed.

Lemma sample_queuesBounded limit : queuesBounded (Sample.fresh limit).
Proof.
  intros client c. unfold Sample.fresh, Sample.sessions. simpl.
  rewrite !lookup_insert. repeat case_decide; intros Hc;
    try (injection Hc as <-; vm_compute; lia).
  rewrite lookup_empty in Hc. discriminate Hc.
Qed.

Lemma Run_keeps_counts_witness :
  exists m',
    Run Sample.frame elements (Sample.fresh 2)
      [Register 1; Register 2; Register 3;
       Broadcast {| cmChannel := Sample.margin111; cmData := [] |} 0;
       Unregister 1] = Done m' /\
    countsWithinLimit (hub m') /\ queuesBounded m'.
Proof.
  destruct (Run Sample.frame elements (Sample.fresh 2)
              [Register 1; Register 2; Register 3;
               Broadcast {| cmChannel := Sample.margin111; cmData := [] |} 0;
               Unregister 1]) as [m'|] eqn:Hrun;
    [|vm_compute in Hrun; discriminate Hrun].
  exists m'. split; [reflexivity|].
  destruct (Run_keeps_counts Sample.frame elements
              [Register 1; Register 2; Register 3;
               Broadcast {| cmChannel := Sample.margin111; cmData := [] |} 0;
               Unregister 1] (Sample.fresh 2) m') as (Hc & Hq & _).
  - simpl. lia.
  - intros p n H. simpl in H. rewrite lookup_empty in H. discriminate H.
  - apply sample_queuesBounded.
  - exact Hrun.
  - split; assumption.
Defined.

(** *** Subscriptions *)

Lemma SubscribeClient_Done m client channel m' :
  SubscribeClient m client channel = Done m' ->
  exists c,
    heap m !! client = Some c /\
    heap m' = <[client := setSubscriptions c ({[channel]} ∪ subscriptions c)]> (heap m) /\
    clients (hub m') = clients (hub m) /\
    userConnections (hub m') = userConnections (hub m) /\
    maxConnectionsPerUser (hub m') = maxConnectionsPerUser (hub m) /\
    forall ch,
      channels (hub m') !! ch
      = if decide (channel = ch)
        then Some ({[client]} ∪ default ∅ (channels (hub m) !! channel))
        else channels (hub m) !! ch.
Proof.
  unfold SubscribeClient, obind, deref.
  destruct (heap m !! client) as [c|]; [|discriminate].
  intros H. injection H as <-. exists c. simpl. repeat split.
  intros ch. destruct (decide (channel = ch)) as [<-|Hne].
  - rewrite lookup_insert_eq. destruct (channels (hub m) !! channel) eqn:Hch.
    + now rewrite Hch.
    + now rewrite lookup_insert_eq.
  - rewrite lookup_insert_ne by exact Hne.
    destruct (channels (hub m) !! channel); [reflexivity|].
    now rewrite lookup_insert_ne.
Qed.

Lemma UnsubscribeClient_Done m client channel m' :
  UnsubscribeClient m client channel = Done m' ->
  exists c,
    heap m !! client = Some c /\
    heap m' = <[client := setSubscriptions c (subscriptions c ∖ {[channel]})]> (heap m) /\
    clients (hub m') = clients (hub m) /\
    userConnections (hub m') = userConnections (hub m) /\
    maxConnectionsPerUser (hub m') = maxConnectionsPerUser (hub m) /\
    forall ch,
      channels (hub m') !! ch
      = if decide (channel = ch)
        then (fun s => s ∖ {[client]}) <$> channels (hub m) !! channel
        else channels (hub m) !! ch.
Proof.
  unfold UnsubscribeClient, obind, deref.
  destruct (heap m !! client) as [c|]; [|discriminate].
  intros H. injection H as <-. exists c. simpl. repeat split.
  intros ch. destruct (decide (channel = ch)) as [<-|Hne].
  - destruct (channels (hub m) !! channel) eqn:Hch; simpl.
    + now rewrite lookup_insert_eq.
    + exact Hch.
  - destruct (channels (hub m) !! channel); [|reflexivity].
    now rewrite lookup_insert_ne.
Qed.

(** [SubscribeClient] on a state where subscriber sets and subscription
    sets agree. *)
Lemma SubscribeClient_agree (m : Mem) (client : ClientPtr) (channel : string)
    (m' : Mem) :
  subscriptionsAgree m ->
  SubscribeClient m client channel = Done m' ->
  subscriptionsAgree m' /\
  (noEmptyChannel (hub m) -> noEmptyChannel (hub m')) /\
  clients (hub m') = clients (hub m) /\
  userConnections (hub m') = userConnections (hub m) /\
  maxConnectionsPerUser (hub m') = maxConnectionsPerUser (hub m).
Proof.
  intros Hagree Hrun.
  destruct (SubscribeClient_Done _ _ _ _ Hrun) as (c & Hc & Hheap & Hcl & Huc & Hmax & Hch).
  split; [|split; [|split; [exact Hcl|split; [exact Huc|exact Hmax]]]].
  + intros p ch. rewrite Hheap, Hch. specialize (Hagree p ch).
    destruct (decide (channel = ch)) as [<-|Hne];
      destruct (decide (p = client)) as [->|Hp].
    * rewrite lookup_insert_eq. split; intros _.
      -- eexists. split; [reflexivity|]. simpl. set_solver.
      -- eexists. split; [reflexivity|]. set_solver.
    * rewrite lookup_insert_ne by congruence. rewrite <- Hagree. split.
      -- intros (s & Hs & Hin). injection Hs as <-.
         destruct (channels (hub m) !! channel) as [s0|]; simpl in Hin.
         ++ exists s0. split; [reflexivity|]. set_solver.
         ++ set_solver.
      -- intros (s & Hs & Hin). rewrite Hs. eexists. split; [reflexivity|].
         simpl. set_solver.
    * rewrite lookup_insert_eq. rewrite Hagree. split.
      -- intros (c0 & Hc0 & Hin). eexists. split; [reflexivity|]. simpl.
         rewrite Hc in Hc0. injection Hc0 as <-. set_solver.
      -- intros (c0 & Hc0 & Hin). injection Hc0 as <-. simpl in Hin.
         exists c. split; [exact Hc|]. set_solver.
    * rewrite lookup_insert_ne by congruence. exact Hagree.
  + intros Hne ch s. rewrite Hch. destruct (decide (channel = ch)) as [<-|Hd].
    * intros H. injection H as <-. set_solver.
    * apply Hne.
Qed.

(** [UnsubscribeClient] on such a state. *)
Lemma UnsubscribeClient_agree (m : Mem) (client : ClientPtr) (channel : string)
    (m' : Mem) :
  subscriptionsAgree m ->
  UnsubscribeClient m client channel = Done m' ->
  subscriptionsAgree m' /\
  clients (hub m') = clients (hub m) /\
  userConnections (hub m') = userConnections (hub m) /\
  maxConnectionsPerUser (hub m') = maxConnectionsPerUser (hub m).
Proof.
  intros Hagree Hrun.
  destruct (UnsubscribeClient_Done _ _ _ _ Hrun) as (c & Hc & Hheap & Hcl & Huc & Hmax & Hch).
  split; [|split; [exact Hcl|split; [exact Huc|exact Hmax]]].
  intros p ch. rewrite Hheap, Hch. specialize (Hagree p ch).
  destruct (decide (channel = ch)) as [<-|Hne];
    destruct (decide (p = client)) as [->|Hp].
  + rewrite lookup_insert_eq. split.
    * intros (s & Hs & Hin).
      destruct (channels (hub m) !! channel); simpl in Hs; [|discriminate].
      injection Hs as <-. set_solver.
    * intros (c0 & Hc0 & Hin). injection Hc0 as <-. simpl in Hin. set_solver.
  + rewrite lookup_insert_ne by congruence. rewrite <- Hagree. split.
    * intros (s & Hs & Hin).
      destruct (channels (hub m) !! channel) as [s0|]; simpl in Hs; [|discriminate].
      injection Hs as <-. exists s0. split; [reflexivity|]. set_solver.
    * intros (s & Hs & Hin). rewrite Hs. simpl. eexists. split; [reflexivity|].
      set_solver.
  + rewrite lookup_insert_eq. rewrite Hagree. split.
    * intros (c0 & Hc0 & Hin). eexists. split; [reflexivity|]. simpl.
      rewrite Hc in Hc0. injection Hc0 as <-. set_solver.
    * intros (c0 & Hc0 & Hin). injection Hc0 as <-. simpl in Hin.
      exists c. split; [exact Hc|]. set_solver.
  + rewrite lookup_insert_ne by congruence. exact Hagree.
Qed.

(** X4. [SubscribeClient] and [UnsubscribeClient] keep the two views of a
    subscription in step: if a client is in the subscriber set of a channel
    exactly when the channel is in the client's subscription set, this is
    still so after either call; both leave the live set, the counts and the
    limit alone, and [SubscribeClient] binds no channel to the empty set. *)
Theorem subscriptions_stay_in_step (m : Mem) (client : ClientPtr) (channel : string)
    (m' : Mem) :
  subscriptionsAgree m ->
  (SubscribeClient m client channel = Done m' ->
   subscriptionsAgree m' /\
   (noEmptyChannel (hub m) -> noEmptyChannel (hub m')) /\
   clients (hub m') = clients (hub m) /\
   userConnections (hub m') = userConnections (hub m) /\
   maxConnectionsPerUser (hub m') = maxConnectionsPerUser (hub m)) /\
  (UnsubscribeClient m client channel = Done m' ->
   subscriptionsAgree m' /\
   clients (hub m') = clients (hub m) /\
   userConnections (hub m') = userConnections (hub m) /\
   maxConnectionsPerUser (hub m') = maxConnectionsPerUser (hub m)).
Proof.
  intros Hagree. split.
  - exact (SubscribeClient_agree m client channel m' Hagree).
  - exact (UnsubscribeClient_agree m client channel m' Hagree).
Qed.

Lemma sample_subscriptionsAgree limit : subscriptionsAgree (Sample.fresh limit).
Proof.
  intros client channel. split.
  - intros (s & Hs & _). simpl in Hs. rewrite lookup_empty in Hs. discriminate Hs.
  - intros (c & Hc & Hin). exfalso. revert Hc.
    unfold Sample.fresh, Sample.sessions. simpl.
    rewrite !lookup_insert. repeat case_decide; intros Hc;
      try (injection Hc as <-; simpl in Hin; set_solver).
    rewrite lookup_empty in Hc. discriminate Hc.
Qed.

Lemma subscriptions_stay_in_step_witness :
  exists m1 m2,
    SubscribeClient (Sample.fresh 2) 1 Sample.margin111 = Done m1 /\
    UnsubscribeClient m1 1 Sample.margin111 = Done m2 /\
    subscriptionsAgree m1 /\ subscriptionsAgree m2.
Proof.
  destruct (SubscribeClient (Sample.fresh 2) 1 Sample.margin111) as [m1|] eqn:H1;
    [|vm_compute in H1; discriminate H1].
  destruct (UnsubscribeClient m1 1 Sample.margin111) as [m2|] eqn:H2.
  - exists m1, m2. split; [reflexivity|]. split; [exact H2|].
    destruct (proj1 (subscriptions_stay_in_step (Sample.fresh 2) 1 Sample.margin111 m1
                       (sample_subscriptionsAgree 2)) H1) as (Hagree1 & _).
    split; [exact Hagree1|].
    exact (proj1 (proj2 (subscriptions_stay_in_step m1 1 Sample.margin111 m2 Hagree1) H2)).
  - exfalso. injection H1 as <-. vm_compute in H2. discriminate H2.
Defined.

(** *** Unregistration and the channels *)

Lemma without_twice client (x : option (gset ClientPtr)) :
  (x ≫= without client) ≫= without client = x ≫= without client.
Proof.
  destruct x as [s|]; [|reflexivity]. simpl. unfold without.
  destruct (size (s ∖ {[client]}) =? 0)%nat eqn:Hs; [reflexivity|]. simpl.
  replace (s ∖ {[client]} ∖ {[client]}) with (s ∖ {[client]}) by set_solver.
  now rewrite Hs.
Qed.

Lemma leaveChannel_lookup client a (chs : gmap string (gset ClientPtr)) ch :
  leaveChannel client a chs !! ch
  = if decide (a = ch) then chs !! ch ≫= without client else chs !! ch.
Proof.
  unfold leaveChannel, without.
  destruct (decide (a = ch)) as [<-|Hne].
  - destruct (chs !! a) as [s|] eqn:Ha; simpl; [|exact Ha].
    destruct (size (s ∖ {[client]}) =? 0)%nat.
    + apply lookup_delete_eq.
    + apply lookup_insert_eq.
  - destruct (chs !! a) as [s|]; [|reflexivity].
    destruct (size (s ∖ {[client]}) =? 0)%nat.
    + now apply lookup_delete_ne.
    + now apply lookup_insert_ne.
Qed.

Lemma leaveAll_lookup client (l : list string) (chs : gmap string (gset ClientPtr)) ch :
  foldr (leaveChannel client) chs l !! ch
  = if decide (ch ∈ l) then chs !! ch ≫= without client else chs !! ch.
Proof.
  induction l as [|a l IH]; simpl.
  - destruct (decide (ch ∈ [])) as [Hin|_]; [|reflexivity].
    now apply not_elem_of_nil in Hin.
  - rewrite leaveChannel_lookup, IH.
    destruct (decide (a = ch)) as [->|Hne].
    + destruct (decide (ch ∈ ch :: l)) as [_|Hnin]; [|destruct Hnin; apply list_elem_of_here].
      destruct (decide (ch ∈ l)); [apply without_twice|reflexivity].
    + destruct (decide (ch ∈ l)) as [Hin|Hnin];
        destruct (decide (ch ∈ a :: l)) as [Hin'|Hnin']; try reflexivity.
      * destruct Hnin'. now apply list_elem_of_further.
      * apply elem_of_cons in Hin' as [->|Hin']; contradiction.
Qed.

Lemma unregisterClient_Done m client m' :
  unregisterClient m client = Done m' ->
  exists c,
    heap m !! client = Some c /\ closed (send c) = false /\
    heap m' = <[client := setSend c {| buf := buf (send c); cap := cap (send c);
                                       closed := true |}]> (heap m) /\
    clients (hub m') = clients (hub m) ∖ {[client]} /\
    userConnections (hub m') = releaseConnection (ajaibID c) (userConnections (hub m)) /\
    forall ch,
      channels (hub m') !! ch
      = if decide (ch ∈ subscriptions c)
        then channels (hub m) !! ch ≫= without client
        else channels (hub m) !! ch.
Proof.
  unfold unregisterClient, obind, deref, closeChan.
  destruct (heap m !! client) as [c|]; [|discriminate].
  destruct (closed (send c)) eqn:Hcl; [discriminate|].
  intros H. injection H as <-. exists c. simpl.
  split; [reflexivity|]. split; [exact Hcl|]. split; [reflexivity|].
  split; [reflexivity|]. split; [reflexivity|].
  intros ch. unfold set_fold. simpl. rewrite leaveAll_lookup.
  destruct (decide (ch ∈ elements (subscriptions c))) as [Hin|Hnin];
    destruct (decide (ch ∈ subscriptions c)) as [Hin'|Hnin']; try reflexivity.
  - apply elem_of_elements in Hin. contradiction.
  - apply elem_of_elements in Hin'. contradiction.
Qed.

(** X5. After [unregisterClient], on a Hub where subscriber sets and
    subscription sets agree, the client is in no subscriber set, every other
    client is in exactly the subscriber sets it was in, the client is out of
    the live set, its queue is closed with its frames still in it, and a Hub
    without empty subscriber sets still has none. *)
Theorem unregisterClient_leaves_channels (m : Mem) (client : ClientPtr) (m' : Mem) :
  subscriptionsAgree m ->
  unregisterClient m client = Done m' ->
  (forall channel s, channels (hub m') !! channel = Some s -> client ∉ s) /\
  (forall other channel,
      other <> client ->
      (exists s, channels (hub m') !! channel = Some s /\ other ∈ s) <->
      (exists s, channels (hub m) !! channel = Some s /\ other ∈ s)) /\
  (client ∉ clients (hub m')) /\
  (exists c c', heap m !! client = Some c /\ heap m' !! client = Some c' /\
                closed (send c') = true /\ buf (send c') = buf (send c)) /\
  (noEmptyChannel (hub m) -> noEmptyChannel (hub m')).
Proof.
  intros Hagree Hrun.
  destruct (unregisterClient_Done _ _ _ Hrun) as (c & Hc & Hopen & Hheap & Hcl & _ & Hch).
  split; [|split; [|split; [|split]]].
  - intros channel s. rewrite Hch.
    destruct (decide (channel ∈ subscriptions c)) as [Hin|Hnin].
    + destruct (channels (hub m) !! channel) as [s0|]; simpl; [|discriminate].
      unfold without. destruct (size (s0 ∖ {[client]}) =? 0)%nat; [discriminate|].
      intros H. injection H as <-. set_solver.
    + intros Hs Hmem. apply Hnin.
      destruct (proj1 (Hagree client channel)) as (c0 & Hc0 & Hsub); [eauto|].
      rewrite Hc in Hc0. now injection Hc0 as <-.
  - intros other channel Hother. rewrite Hch.
    destruct (decide (channel ∈ subscriptions c)) as [Hin|Hnin]; [|reflexivity].
    destruct (channels (hub m) !! channel) as [s0|]; simpl.
    + unfold without. destruct (size (s0 ∖ {[client]}) =? 0)%nat eqn:Hsize.
      * split; [intros (s & Hs & _); discriminate|].
        intros (s & Hs & Hmem). injection Hs as <-.
        apply Nat.eqb_eq, size_empty_iff in Hsize. set_solver.
      * split; intros (s & Hs & Hmem); injection Hs as <-;
          (eexists; split; [reflexivity|]; set_solver).
    + split; intros (s & Hs & _); discriminate.
  - rewrite Hcl. set_solver.
  - exists c. eexists. split; [exact Hc|]. rewrite Hheap, lookup_insert_eq.
    split; [reflexivity|]. split; reflexivity.
  - intros Hne channel s. rewrite Hch.
    destruct (decide (channel ∈ subscriptions c)) as [Hin|Hnin]; [|apply Hne].
    destruct (channels (hub m) !! channel) as [s0|]; simpl; [|discriminate].
    unfold without. destruct (size (s0 ∖ {[client]}) =? 0)%nat eqn:Hsize; [discriminate|].
    intros H. injection H as <-. intros Hempty. rewrite Hempty in Hsize.
    rewrite size_empty in Hsize. discriminate Hsize.
Qed.

Lemma unregisterClient_leaves_channels_witness :
  exists m1 m2,
    SubscribeClient (Sample.fresh 2) 1 Sample.margin111 = Done m1 /\
    unregisterClient m1 1 = Done m2 /\
    channels (hub m2) = ∅ /\
    forall channel s, channels (hub m2) !! channel = Some s -> 1%positive ∉ s.
Proof.
  destruct (SubscribeClient (Sample.fresh 2) 1 Sample.margin111) as [m1|] eqn:H1;
    [|vm_compute in H1; discriminate H1].
  destruct (unregisterClient m1 1) as [m2|] eqn:H2.
  - exists m1, m2. split; [reflexivity|]. split; [exact H2|]. split.
    + injection H1 as <-. vm_compute in H2. injection H2 as <-. reflexivity.
    + destruct (SubscribeClient_agree (Sample.fresh 2) 1 Sample.margin111 m1
                  (sample_subscriptionsAgree 2) H1) as (Hagree1 & _).
      exact (proj1 (unregisterClient_leaves_channels m1 1 m2 Hagree1 H2)).
  - exfalso. injection H1 as <-. vm_compute in H2. discriminate H2.
Defined.

Lemma add_remove (cs : gset ClientPtr) (client : ClientPtr) :
  client ∉ cs -> ({[client]} ∪ cs) ∖ {[client]} = cs.
Proof. intros H. apply set_eq. intros x. set_solver. Qed.

(** X6. Register followed by unregister gives the Hub's maps back: for a
    client that is not live, has no subscriptions and an open queue, and whose
    user may connect, on a Hub whose counts are positive and within a limit
    that fits an [int], [registerClient] and then [unregisterClient] return
    and leave the live set, the counts and the channels exactly as they were;
    what remains is the closed queue of the client. *)
Theorem register_unregister_restores (m : Mem) (client : ClientPtr) (c : Client) :
  heap m !! client = Some c ->
  client ∉ clients (hub m) ->
  subscriptions c = ∅ ->
  closed (send c) = false ->
  (maxConnectionsPerUser (hub m) < 2 ^ 63)%Z ->
  countsWithinLimit (hub m) ->
  CanUserConnect (hub m) (ajaibID c) = true ->
  exists m1 m2,
    registerClient m client = Done m1 /\
    unregisterClient m1 client = Done m2 /\
    hub m2 = hub m /\
    heap m2 = <[client := setSend c {| buf := buf (send c); cap := cap (send c);
                                       closed := true |}]> (heap m).
Proof.
  intros Hc Hfresh Hsubs Hopen Hmax Hinv Hcan.
  destruct (registerClient_admits m client c Hc Hcan)
    as (m1 & Hreg & _ & Hheap1).
  exists m1. unfold unregisterClient, obind, deref, closeChan.
  rewrite Hheap1, Hc, Hopen, Hsubs. eexists. split; [exact Hreg|].
  split; [reflexivity|]. simpl. rewrite Hheap1. split; [|reflexivity].
  unfold set_fold. simpl. rewrite elements_empty. simpl.
  revert Hreg. unfold registerClient, obind, deref, CanUserConnect in *. rewrite Hc.
  destruct (String.eqb (ajaibID c) "") eqn:Hid; simpl in *.
  { intros H. injection H as <-. simpl. unfold releaseConnection. rewrite Hid.
    destruct (hub m) as [cs uc chs lim]. simpl in *. unfold setChannels, setUserConnections, setClients. simpl.
      f_equal. now apply add_remove. }
  destruct (Z.ltb_spec 0 (maxConnectionsPerUser (hub m))) as [Hpos|Hnone].
  - assert (Hle : (maxConnectionsPerUser (hub m) <=? 0)%Z = false) by lia.
    rewrite Hle in Hcan. apply Z.ltb_lt in Hcan.
    assert (Hno : (maxConnectionsPerUser (hub m) <=? connectionsOf (hub m) (ajaibID c))%Z
                  = false) by lia.
    rewrite Hno. intros H. injection H as <-. simpl.
    unfold releaseConnection. rewrite Hid, lookup_insert_eq.
    unfold connectionsOf in *.
    destruct (hub m) as [cs uc chs lim]. simpl in *.
    destruct (uc !! ajaibID c) as [n|] eqn:Hn; simpl in *.
    + pose proof (Hinv _ _ Hn) as Hrange. simpl in Hrange.
      rewrite (wrap64_small (n + 1)) by lia.
      assert (Hp : (0 <? n + 1)%Z = true) by lia. rewrite Hp.
      rewrite lookup_insert_eq. simpl. rewrite wrap64_small by lia.
      replace (n + 1 - 1)%Z with n by lia.
      assert (Hz : (n =? 0)%Z = false) by lia. rewrite Hz.
      rewrite insert_insert_eq, (insert_id uc _ _ Hn). unfold setChannels, setUserConnections, setClients. simpl.
      f_equal. now apply add_remove.
    + rewrite (wrap64_small (0 + 1)) by lia. simpl.
      rewrite lookup_insert_eq. simpl.
      rewrite insert_insert_eq, delete_insert_eq, (delete_id uc _ Hn).
      unfold setChannels, setUserConnections, setClients. simpl.
      f_equal. now apply add_remove.
  - intros H. injection H as <-. simpl. unfold releaseConnection. rewrite Hid.
    destruct (hub m) as [cs uc chs lim]. simpl in *.
    destruct (uc !! ajaibID c) as [n|] eqn:Hn.
    + pose proof (Hinv _ _ Hn) as Hrange. simpl in Hrange. lia.
    + unfold setChannels, setUserConnections, setClients. simpl.
      f_equal. now apply add_remove.
Qed.

Lemma register_unregister_restores_witness :
  exists m1 m2,
    registerClient (Sample.fresh 2) 1 = Done m1 /\
    unregisterClient m1 1 = Done m2 /\
    hub m2 = hub (Sample.fresh 2).
Proof.
  destruct (register_unregister_restores (Sample.fresh 2) 1 Sample.alice)
    as (m1 & m2 & H1 & H2 & Hhub & _).
  - reflexivity.
  - simpl. apply not_elem_of_empty.
  - reflexivity.
  - reflexivity.
  - simpl. lia.
  - intros p n H. simpl in H. rewrite lookup_empty in H. discriminate H.
  - reflexivity.
  - now exists m1, m2.
Defined.

(** X7. [SubscribeClient] is idempotent on the Hub: calling it a second time
    with the same client and channel returns and changes nothing. *)
Theorem SubscribeClient_twice (m : Mem) (client : ClientPtr) (channel : string)
    (m1 : Mem) :
  SubscribeClient m client channel = Done m1 ->
  SubscribeClient m1 client channel = Done m1.
Proof.
  unfold SubscribeClient, obind, deref.
  destruct (heap m !! client) as [c|] eqn:Hc; [|discriminate].
  intros H. injection H as <-.
  assert (Hunion : forall (A : Type) `{Countable A} (x : A) (s : gset A),
             {[x]} ∪ ({[x]} ∪ s) = {[x]} ∪ s).
  { intros A ? ? x s. apply set_eq. intros y. set_solver. }
  unfold store, setHub, setChannels, setSubscriptions. cbn [hub heap channels].
  rewrite lookup_insert_eq.
  destruct (channels (hub m) !! channel) as [s0|] eqn:Hch;
    cbn [clients userConnections channels maxConnectionsPerUser subscriptions
         id ajaibID cfxUserID send pingInterval pingTimeout writeWait readLimit];
    rewrite ?Hch, ?lookup_insert_eq; cbn [default];
    rewrite ?lookup_insert_eq; cbn [default]; cbv [Datatypes.id];
    rewrite !insert_insert_eq, ?union_empty_r_L, ?Hunion, ?union_idemp_L;
    reflexivity.
Qed.

Lemma SubscribeClient_twice_witness :
  exists m1,
    SubscribeClient (Sample.fresh 2) 1 Sample.margin111 = Done m1 /\
    SubscribeClient m1 1 Sample.margin111 = Done m1.
Proof.
  destruct (SubscribeClient (Sample.fresh 2) 1 Sample.margin111) as [m1|] eqn:H1;
    [|vm_compute in H1; discriminate H1].
  exists m1. split; [reflexivity|].
  exact (SubscribeClient_twice (Sample.fresh 2) 1 Sample.margin111 m1 H1).
Defined.

End HubLaws.

(** ** More on the client protocol *)

Section HandlerLaws.
Import Protocol Server Handler.

(** What a successful subscribe went through. *)
Lemma subscribeStep_subscribed st client msg now st' r :
  subscribeStep st client msg now = Done (st', r) ->
  Type_ r = TypeSubscribed ->
  Channel msg <> "" /\
  r = NewSubscribedMessage now (ID msg) (Channel msg) /\
  exists c info,
    heap (mem st) !! client = Some c /\
    (Channel msg ∉ subscriptions c) /\
    Channel.ParseChannel (Channel msg) = Ok info /\
    (ajaibID c = "" \/ ajaibID c = Channel.AjaibID info) /\
    SubscribeClient (mem st) client (Channel msg) = Done (mem st') /\
    kafkaBroadcaster st'
    = match kafkaBroadcaster st with
      | Some b =>
          if negb (String.eqb (cfxUserID c) "")
          then Some (Kafka.RegisterSubscription b (cfxUserID c) (ajaibID c))
          else Some b
      | None => None
      end.
Proof.
  unfold subscribeStep.
  destruct (String.eqb (Channel msg) "") eqn:Hempty.
  { intros H. injection H as <- <-. discriminate. }
  apply String.eqb_neq in Hempty.
  unfold IsClientSubscribed, obind, deref.
  destruct (heap (mem st) !! client) as [c|] eqn:Hc; [|discriminate].
  destruct (bool_decide (Channel msg ∈ subscriptions c)) eqn:Hsub.
  { intros H. injection H as <- <-. discriminate. }
  apply bool_decide_eq_false in Hsub.
  destruct (Channel.ParseChannel (Channel msg)) as [info|e] eqn:Hparse.
  2: { intros H. injection H as <- <-. discriminate. }
  destruct (negb (String.eqb (ajaibID c) "")
            && negb (String.eqb (ajaibID c) (Channel.AjaibID info))) eqn:Hmis.
  { intros H. injection H as <- <-. discriminate. }
  destruct (SubscribeClient (mem st) client (Channel msg)) as [m'|] eqn:Hrun;
    [|discriminate].
  intros H _. injection H as <- <-. split; [exact Hempty|]. split; [reflexivity|].
  exists c, info. split; [reflexivity|]. split; [exact Hsub|]. split; [reflexivity|].
  split; [|split; [reflexivity|reflexivity]].
  apply andb_false_iff in Hmis as [Hm|Hm]; apply negb_false_iff, String.eqb_eq in Hm; auto.
Qed.

(** X8. A subscribe command for a channel of the session's own public
    identifier ([user:<id>:<margin|position>] with the one-to-ten-digit id of
    the session) that the session is not subscribed to is accepted: the reply
    is [subscribed] for that channel, the channel joins the session's
    subscription set, the session joins the channel's subscriber set, and
    when a Broadcaster is wired and the session has an internal identifier,
    the index maps that identifier to the public identifier. *)
Theorem subscribeStep_accepts (st : State) (client : ClientPtr) (c : Client)
    (msg : Message) (now : Z) (suffix : string) :
  heap (mem st) !! client = Some c ->
  Channel.isValidAjaibID (ajaibID c) = true ->
  Channel.validSuffix suffix ->
  Channel msg = "user:" ++ ajaibID c ++ ":" ++ suffix ->
  Channel msg ∉ subscriptions c ->
  exists st',
    subscribeStep st client msg now
    = Done (st', NewSubscribedMessage now (ID msg) (Channel msg)) /\
    (exists c', heap (mem st') !! client = Some c' /\
                subscriptions c' = {[Channel msg]} ∪ subscriptions c) /\
    (exists s, channels (hub (mem st')) !! Channel msg = Some s /\ client ∈ s) /\
    (forall b, kafkaBroadcaster st = Some b -> cfxUserID c <> "" ->
               exists b', kafkaBroadcaster st' = Some b' /\
                          Kafka.getAjaibID b' (cfxUserID c) = ajaibID c).
Proof.
  intros Hc Hid Hsuf Hname Hsub. unfold subscribeStep.
  assert (Hne : String.eqb (Channel msg) "" = false) by now rewrite Hname.
  rewrite Hne. unfold IsClientSubscribed, obind, deref. rewrite Hc.
  rewrite bool_decide_eq_false_2 by exact Hsub.
  assert (Hparse : Channel.ParseChannel (Channel msg)
                   = Ok {| Channel.Name := "user:" ++ ajaibID c ++ ":" ++ suffix;
                           Channel.Prefix := "user:"; Channel.UserID := "";
                           Channel.AjaibID := ajaibID c;
                           Channel.ChannelSub := suffix |}).
  { rewrite Hname. now apply ParseChannel_valid. }
  rewrite Hparse. simpl Channel.AjaibID.
  rewrite String.eqb_refl, andb_false_r.
  destruct (SubscribeClient (mem st) client (Channel msg)) as [m'|] eqn:Hrun.
  2: { unfold SubscribeClient, obind, deref in Hrun. rewrite Hc in Hrun. discriminate. }
  destruct (SubscribeClient_Done _ _ _ _ Hrun) as (c0 & Hc0 & Hheap & _ & _ & _ & Hch).
  rewrite Hc in Hc0. injection Hc0 as <-.
  eexists. split; [reflexivity|]. simpl. split; [|split].
  - rewrite Hheap, lookup_insert_eq. eexists. split; reflexivity.
  - rewrite Hch. destruct (decide (Channel msg = Channel msg)) as [_|Hd]; [|now destruct Hd].
    eexists. split; [reflexivity|]. set_solver.
  - intros b Hb Hcfx. rewrite Hb. apply String.eqb_neq in Hcfx. rewrite Hcfx. simpl.
    eexists. split; [reflexivity|]. unfold Kafka.getAjaibID. simpl.
    now rewrite lookup_insert_eq.
Qed.

Lemma subscribeStep_accepts_witness :
  exists st',
    subscribeStep (Sample.wired 2) 1 (Sample.subscribe "s1" Sample.margin111) 0
    = Done (st', NewSubscribedMessage 0 "s1" Sample.margin111) /\
    exists b', kafkaBroadcaster st' = Some b' /\ Kafka.getAjaibID b' "C1" = "111".
Proof.
  destruct (subscribeStep_accepts (Sample.wired 2) 1 Sample.alice
              (Sample.subscribe "s1" Sample.margin111) 0 "margin")
    as (st' & Hrun & _ & _ & Hindex).
  - reflexivity.
  - reflexivity.
  - left. reflexivity.
  - reflexivity.
  - apply not_elem_of_empty.
  - exists st'. split; [exact Hrun|].
    apply (Hindex Kafka.NewBroadcaster eq_refl). discriminate.
Defined.

(** X9. A subscribe command repeated after it was accepted is answered with
    error 4002 (already subscribed) and changes nothing. *)
Theorem subscribeStep_repeated (st : State) (client : ClientPtr) (msg : Message)
    (now now' : Z) (st' : State) (r : Message) :
  subscribeStep st client msg now = Done (st', r) ->
  Type_ r = TypeSubscribed ->
  subscribeStep st' client msg now'
  = Done (st', NewErrorMessage now' (ID msg) CodeAlreadySubscribed
                 "already subscribed to channel").
Proof.
  intros Hrun Hok.
  destruct (subscribeStep_subscribed _ _ _ _ _ _ Hrun Hok)
    as (Hne & _ & c & info & Hc & _ & _ & _ & Hsub & _).
  destruct (SubscribeClient_Done _ _ _ _ Hsub) as (c0 & Hc0 & Hheap & _).
  unfold subscribeStep. apply String.eqb_neq in Hne. rewrite Hne.
  unfold IsClientSubscribed, obind, deref. rewrite Hheap, lookup_insert_eq.
  rewrite bool_decide_eq_true_2; [reflexivity|]. simpl. set_solver.
Qed.

Lemma subscribeStep_repeated_witness :
  exists st',
    subscribeStep (Sample.wired 2) 1 (Sample.subscribe "s1" Sample.margin111) 0
    = Done (st', NewSubscribedMessage 0 "s1" Sample.margin111) /\
    subscribeStep st' 1 (Sample.subscribe "s1" Sample.margin111) 5
    = Done (st', NewErrorMessage 5 "s1" 4002 "already subscribed to channel").
Proof.
  destruct (subscribeStep (Sample.wired 2) 1 (Sample.subscribe "s1" Sample.margin111) 0)
    as [[st' r]|] eqn:Hrun; [|vm_compute in Hrun; discriminate Hrun].
  assert (Hr : r = NewSubscribedMessage 0 "s1" Sample.margin111).
  { vm_compute in Hrun. injection Hrun as _ <-. reflexivity. }
  subst r. exists st'. split; [reflexivity|].
  exact (subscribeStep_repeated (Sample.wired 2) 1
           (Sample.subscribe "s1" Sample.margin111) 0 5 st' _ Hrun eq_refl).
Defined.

(** X10. Subscribe and then unsubscribe through the handler: after an
    accepted subscribe, an unsubscribe command for the same channel is
    answered with [unsubscribed]; the session's subscription set is the one it
    had before the subscribe, the session is no longer in the channel's
    subscriber set, and when the session has an internal identifier and a
    Broadcaster is wired, the index has no entry for that identifier. *)
Theorem subscribe_then_unsubscribe (st : State) (client : ClientPtr)
    (msg msg' : Message) (now now' : Z) (st1 : State) (r : Message) :
  subscribeStep st client msg now = Done (st1, r) ->
  Type_ r = TypeSubscribed ->
  Channel msg' = Channel msg ->
  exists st2 c c2,
    unsubscribeStep st1 client msg' now'
    = Done (st2, NewUnsubscribedMessage now' (ID msg') (Channel msg)) /\
    heap (mem st) !! client = Some c /\
    heap (mem st2) !! client = Some c2 /\
    subscriptions c2 = subscriptions c /\
    (forall s, channels (hub (mem st2)) !! Channel msg = Some s -> client ∉ s) /\
    (forall b2, cfxUserID c <> "" -> kafkaBroadcaster st2 = Some b2 ->
                Kafka.getAjaibID b2 (cfxUserID c) = "").
Proof.
  intros Hrun Hok Hsame.
  destruct (subscribeStep_subscribed _ _ _ _ _ _ Hrun Hok)
    as (Hne & _ & c & info & Hc & Hnot & _ & _ & Hsub & Hkb).
  destruct (SubscribeClient_Done _ _ _ _ Hsub) as (c0 & Hc0 & Hheap1 & _ & _ & _ & Hch1).
  rewrite Hc in Hc0. injection Hc0 as <-.
  unfold unsubscribeStep. rewrite Hsame. apply String.eqb_neq in Hne. rewrite Hne.
  unfold IsClientSubscribed, obind, deref. rewrite Hheap1, lookup_insert_eq.
  rewrite bool_decide_eq_true_2 by (simpl; set_solver). simpl negb. cbv iota.
  destruct (UnsubscribeClient (mem st1) client (Channel msg)) as [m2|] eqn:Hun.
  2: { unfold UnsubscribeClient, obind, deref in Hun.
       rewrite Hheap1, lookup_insert_eq in Hun. discriminate. }
  destruct (UnsubscribeClient_Done _ _ _ _ Hun) as (c1 & Hc1 & Hheap2 & _ & _ & _ & Hch2).
  rewrite Hheap1, lookup_insert_eq in Hc1. injection Hc1 as <-.
  rewrite Hheap2, lookup_insert_eq.
  eexists _, c, _. split; [reflexivity|]. split; [exact Hc|]. simpl.
  rewrite Hheap2, lookup_insert_eq. split; [reflexivity|]. split; [|split].
  - simpl. apply set_eq. intros x. set_solver.
  - intros s. rewrite Hch2.
    destruct (decide (Channel msg = Channel msg)) as [_|Hd]; [|now destruct Hd].
    destruct (channels (hub (mem st1)) !! Channel msg); simpl; [|discriminate].
    intros H. injection H as <-. set_solver.
  - intros b2 Hcfx. apply String.eqb_neq in Hcfx. rewrite Hkb.
    destruct (kafkaBroadcaster st) as [b|]; rewrite ?Hcfx; simpl; [|discriminate].
    intros H. injection H as <-. unfold Kafka.getAjaibID. simpl.
    now rewrite lookup_delete_eq.
Qed.

Lemma subscribe_then_unsubscribe_witness :
  exists st1 st2,
    subscribeStep (Sample.wired 2) 1 (Sample.subscribe "s1" Sample.margin111) 0
    = Done (st1, NewSubscribedMessage 0 "s1" Sample.margin111) /\
    unsubscribeStep st1 1 (Sample.unsubscribe "u1" Sample.margin111) 7
    = Done (st2, NewUnsubscribedMessage 7 "u1" Sample.margin111).
Proof.
  destruct (subscribeStep (Sample.wired 2) 1 (Sample.subscribe "s1" Sample.margin111) 0)
    as [[st1 r]|] eqn:Hrun; [|vm_compute in Hrun; discriminate Hrun].
  assert (Hr : r = NewSubscribedMessage 0 "s1" Sample.margin111).
  { vm_compute in Hrun. injection Hrun as _ <-. reflexivity. }
  subst r.
  destruct (subscribe_then_unsubscribe (Sample.wired 2) 1
              (Sample.subscribe "s1" Sample.margin111)
              (Sample.unsubscribe "u1" Sample.margin111) 0 7 st1 _ Hrun eq_refl eq_refl)
    as (st2 & _ & _ & Hun & _).
  exists st1, st2. split; [reflexivity|exact Hun].
Defined.

(** *** What a frame may touch *)

Section Scope.
Import HandlerScope.

Lemma sameSession_refl c : sameSession c c.
Proof. unfold sameSession. auto. Qed.

Lemma touchesOnly_refl client st : touchesOnly client st st.
Proof.
  unfold touchesOnly. repeat split; auto.
  destruct (heap (mem st) !! client); constructor. apply sameSession_refl.
Qed.

Lemma touchesOnly_trans client st1 st2 st3 :
  touchesOnly client st1 st2 -> touchesOnly client st2 st3 -> touchesOnly client st1 st3.
Proof.
  intros (Hc1 & Hu1 & Hm1 & Ho1 & Hs1 & Hk1) (Hc2 & Hu2 & Hm2 & Ho2 & Hs2 & Hk2).
  unfold touchesOnly. split; [congruence|]. split; [congruence|]. split; [congruence|].
  split; [|split].
  - intros p Hp. rewrite (Ho2 p Hp). now apply Ho1.
  - inversion Hs1 as [c1 c2 H12 E1 E2|E1 E2]; rewrite <- E2 in Hs2.
    + inversion Hs2 as [? c3 H23 E3 E4|]; subst. constructor.
      destruct H12 as (? & ? & ? & ? & ?), H23 as (? & ? & ? & ? & ?).
      unfold sameSession. repeat split; congruence.
    + inversion Hs2. constructor.
  - intros c Hc Hcfx. rewrite <- (Hk1 c Hc Hcfx).
    rewrite Hc in Hs1. inversion Hs1 as [? c2 H12 E1 E2|]; subst.
    destruct H12 as (_ & _ & Hcfx2 & _). symmetry in E2.
    apply (Hk2 c2 E2). congruence.
Qed.

Lemma subscribeStep_scope st client msg now st' r :
  subscribeStep st client msg now = Done (st', r) -> touchesOnly client st st'.
Proof.
  unfold subscribeStep.
  destruct (String.eqb (Channel msg) "").
  { intros H. injection H as <- <-. apply touchesOnly_refl. }
  unfold IsClientSubscribed, obind, deref.
  destruct (heap (mem st) !! client) as [c|] eqn:Hc; [|discriminate].
  destruct (bool_decide (Channel msg ∈ subscriptions c)).
  { intros H. injection H as <- <-. apply touchesOnly_refl. }
  destruct (Channel.ParseChannel (Channel msg)) as [info|e].
  2: { intros H. injection H as <- <-. apply touchesOnly_refl. }
  destruct (negb (String.eqb (ajaibID c) "")
            && negb (String.eqb (ajaibID c) (Channel.AjaibID info))).
  { intros H. injection H as <- <-. apply touchesOnly_refl. }
  destruct (SubscribeClient (mem st) client (Channel msg)) as [m'|] eqn:Hrun;
    [|discriminate].
  intros H. injection H as <- <-.
  destruct (SubscribeClient_Done _ _ _ _ Hrun) as (c0 & Hc0 & Hheap & Hcl & Huc & Hmax & _).
  rewrite Hc in Hc0. injection Hc0 as <-.
  unfold touchesOnly. simpl. rewrite Hheap, lookup_insert_eq, Hc.
  split; [exact Hcl|]. split; [exact Huc|]. split; [exact Hmax|]. split; [|split].
  - intros p Hp. now apply lookup_insert_ne.
  - constructor. unfold sameSession. simpl. auto.
  - intros c0 H Hcfx. injection H as <-. rewrite Hcfx. simpl.
    now destruct (kafkaBroadcaster st).
Qed.

Lemma unsubscribeStep_scope st client msg now st' r :
  unsubscribeStep st client msg now = Done (st', r) -> touchesOnly client st st'.
Proof.
  unfold unsubscribeStep.
  destruct (String.eqb (Channel msg) "").
  { intros H. injection H as <- <-. apply touchesOnly_refl. }
  unfold IsClientSubscribed, obind, deref.
  destruct (heap (mem st) !! client) as [c|] eqn:Hc; [|discriminate].
  destruct (bool_decide (Channel msg ∈ subscriptions c)); simpl.
  2: { intros H. injection H as <- <-. apply touchesOnly_refl. }
  destruct (UnsubscribeClient (mem st) client (Channel msg)) as [m'|] eqn:Hrun;
    [|discriminate].
  destruct (UnsubscribeClient_Done _ _ _ _ Hrun) as (c0 & Hc0 & Hheap & Hcl & Huc & Hmax & _).
  rewrite Hc in Hc0. injection Hc0 as <-.
  rewrite Hheap, lookup_insert_eq. intros H. injection H as <- <-.
  unfold touchesOnly. simpl. rewrite Hheap, lookup_insert_eq, Hc.
  split; [exact Hcl|]. split; [exact Huc|]. split; [exact Hmax|]. split; [|split].
  - intros p Hp. now apply lookup_insert_ne.
  - constructor. unfold sameSession. simpl. auto.
  - intros c0 H Hcfx. injection H as <-. rewrite Hcfx. simpl.
    now destruct (kafkaBroadcaster st).
Qed.

Lemma reply_scope Encode client st f st' r :
  reply Encode client (st, f) = Done (st', r) -> touchesOnly client st st'.
Proof.
  unfold reply, obind, SendMessage. simpl.
  destruct (Encode f) as [data|why].
  2: { intros H. injection H as <- <-. destruct st. apply touchesOnly_refl. }
  unfold Send, obind, deref.
  destruct (heap (mem st) !! client) as [c|] eqn:Hc; [|discriminate].
  destruct (trySend (send c) data) as [[ch sent]|] eqn:Hsend; [|discriminate].
  pose proof (trySend_grown c data ch sent Hsend) as (_ & Hcap & Hclosed & _).
  destruct sent; intros H; injection H as <- <-.
  - unfold touchesOnly. simpl. rewrite lookup_insert_eq, Hc.
    split; [reflexivity|]. split; [reflexivity|]. split; [reflexivity|]. split; [|split].
    + intros p Hp. now apply lookup_insert_ne.
    + constructor. unfold sameSession. simpl in *. auto.
    + reflexivity.
  - destruct st. apply touchesOnly_refl.
Qed.

(** X11. Handling a client frame never adds or removes a session and never
    changes a connection count or the limit, never touches the record of
    another session, leaves the identifiers of the sending session and the
    capacity and open state of its queue as they were, and, for a session
    without an internal identifier, leaves the subscription index alone. *)
Theorem HandleMessage_touchesOnly
    (Encode : Message -> result string bytes)
    (st : State) (client : ClientPtr) (msg : Message) (now : Z)
    (st' : State) (r : result SendError unit) :
  HandleMessage Encode st client msg now = Done (st', r) ->
  touchesOnly client st st'.
Proof.
  unfold HandleMessage, handlePing, handleSubscribe, handleUnsubscribe.
  destruct (String.eqb (Type_ msg) TypePing); [apply reply_scope|].
  destruct (String.eqb (Type_ msg) TypeSubscribe).
  { unfold obind at 1.
    destruct (subscribeStep st client msg now) as [[st1 f]|] eqn:Hstep; [|discriminate].
    intros H. apply reply_scope in H. apply subscribeStep_scope in Hstep.
    now apply (touchesOnly_trans client st st1 st'). }
  destruct (String.eqb (Type_ msg) TypeUnsubscribe); [|apply reply_scope].
  unfold obind at 1.
  destruct (unsubscribeStep st client msg now) as [[st1 f]|] eqn:Hstep; [|discriminate].
  intros H. apply reply_scope in H. apply unsubscribeStep_scope in Hstep.
  now apply (touchesOnly_trans client st st1 st').
Qed.

Lemma HandleMessage_touchesOnly_witness :
  exists st' r,
    HandleMessage Sample.frame (Sample.wired 2) 1
      (Sample.subscribe "s1" Sample.margin111) 0 = Done (st', r) /\
    clients (hub (mem st')) = ∅ /\
    heap (mem st') !! 2%positive = Some Sample.alice'.
Proof.
  destruct (HandleMessage Sample.frame (Sample.wired 2) 1
              (Sample.subscribe "s1" Sample.margin111) 0) as [[st' r]|] eqn:Hrun;
    [|vm_compute in Hrun; discriminate Hrun].
  exists st', r. split; [reflexivity|].
  destruct (HandleMessage_touchesOnly Sample.frame (Sample.wired 2) 1
              (Sample.subscribe "s1" Sample.margin111) 0 st' r Hrun)
    as (Hcl & _ & _ & Hothers & _).
  split; [exact Hcl|]. rewrite (Hothers 2%positive); [reflexivity|discriminate].
Defined.

End Scope.

End HandlerLaws.

(** ** The dispatcher of bus messages (package [kafka]) *)

Section IngressLaws.
Import Float64 Types Service Ingress.

Variable clock : nat -> Z.
Variable exchange : nat -> Exchange.
Variable UnmarshalMargin : bytes -> option UserMargin.
Variable MarshalMargin : UserMargin -> option bytes.
Variable UnmarshalPosition : bytes -> option UserPosition.
Variable MarshalPosition : UserPosition -> option bytes.

Local Abbreviation dispatch :=
  (HandleMessage clock exchange UnmarshalMargin MarshalMargin
     UnmarshalPosition MarshalPosition).

(** X12. From subscribe to publication: after a session with a public and
    an internal identifier had a subscribe accepted, with a Broadcaster wired,
    a margin message on the bus for that internal identifier whose asset is
    not ["IDR"] is handed to the Hub for broadcast on exactly the subscribed
    channel when that is the margin channel, with the payload as it came; a
    position message whose symbol does not end in [IDR-PERP] likewise on the
    position channel. *)
Theorem subscribed_channel_is_served
    (st st' : Handler.State) (client : Server.ClientPtr) (c : Server.Client)
    (msg r : Protocol.Message) (now : Z) (info : Channel.ChannelInfo)
    (b' : Kafka.Broadcaster) (hasTransformer : bool)
    (s : cachedCurrencyService) (key data : bytes) :
  Handler.subscribeStep st client msg now = Done (st', r) ->
  Protocol.Type_ r = Protocol.TypeSubscribed ->
  Server.heap (Handler.mem st) !! client = Some c ->
  Server.ajaibID c <> "" ->
  Server.cfxUserID c <> "" ->
  Handler.kafkaBroadcaster st' = Some b' ->
  Channel.ParseChannel (Protocol.Channel msg) = Ok info ->
  (Channel.ChannelSub info = "margin" ->
   forall margin,
     UnmarshalMargin data = Some margin ->
     CFXUserID margin = Server.cfxUserID c ->
     Asset margin <> "IDR" ->
     dispatch b' hasTransformer s TopicUserMargin key data
     = (Ok (Some {| Server.cmChannel := Protocol.Channel msg;
                    Server.cmData := data |}), s)) /\
  (Channel.ChannelSub info = "position" ->
   forall position,
     UnmarshalPosition data = Some position ->
     pCFXUserID position = Server.cfxUserID c ->
     Strings.HasSuffix (Symbol position) "IDR-PERP" = false ->
     dispatch b' hasTransformer s TopicUserPosition key data
     = (Ok (Some {| Server.cmChannel := Protocol.Channel msg;
                    Server.cmData := data |}), s)).
Proof.
  intros Hrun Hok Hc Hid Hcfx Hb' Hparse.
  destruct (subscribeStep_subscribed _ _ _ _ _ _ Hrun Hok)
    as (_ & _ & c0 & info0 & Hc0 & _ & Hparse0 & Hsame & _ & Hkb).
  rewrite Hc in Hc0. injection Hc0 as <-.
  rewrite Hparse in Hparse0. injection Hparse0 as <-.
  destruct Hsame as [Hempty|Hsame]; [contradiction|].
  apply ParseChannel_Ok_inv in Hparse as (_ & _ & Hname & _).
  assert (Hlookup : Kafka.getAjaibID b' (Server.cfxUserID c) = Server.ajaibID c).
  { rewrite Hkb in Hb'. apply String.eqb_neq in Hcfx.
    destruct (Handler.kafkaBroadcaster st) as [b|]; [|discriminate].
    rewrite Hcfx in Hb'. simpl in Hb'. injection Hb' as <-.
    unfold Kafka.getAjaibID. simpl. now rewrite lookup_insert_eq. }
  apply String.eqb_neq in Hid.
  split.
  - intros Hsub margin Hdec Hfor Hasset. unfold HandleMessage.
    rewrite String.eqb_refl. unfold handleUserMargin, TransformUserMargin.
    rewrite Hdec, Hfor, Hlookup, Hid. apply String.eqb_neq in Hasset. rewrite Hasset.
    simpl negb. cbv iota. rewrite Hname, Hsub, <- Hsame.
    now destruct hasTransformer.
  - intros Hsub position Hdec Hfor Hsym. unfold HandleMessage.
    change (String.eqb TopicUserPosition TopicUserMargin) with false. cbv iota.
    rewrite String.eqb_refl. unfold handleUserPosition, TransformUserPosition.
    rewrite Hdec, Hfor, Hlookup, Hid. unfold idrPerpSuffix. rewrite Hsym.
    simpl negb. cbv iota. rewrite Hname, Hsub, <- Hsame.
    now destruct hasTransformer.
Qed.

(** X13. What the dispatcher drops: a margin message that does not decode is
    returned as an error; one whose internal identifier has no entry in the
    index leads to no broadcast and no use of the currency service; one
    labelled ["IDR"] for which the currency service gives no rate leads to no
    broadcast either, with a nil error (there is no fall-back to the
    unconverted payload); and a message on any other topic than the two known
    ones is ignored. *)
Theorem dispatcher_drops
    (b : Kafka.Broadcaster) (s : cachedCurrencyService) (key data : bytes) :
  (UnmarshalMargin data = None ->
   forall hasTransformer,
   exists e, dispatch b hasTransformer s TopicUserMargin key data = (Err e, s)) /\
  (forall margin hasTransformer,
     UnmarshalMargin data = Some margin ->
     Kafka.activeUsers b !! CFXUserID margin = None ->
     dispatch b hasTransformer s TopicUserMargin key data = (Ok None, s)) /\
  (forall margin why s',
     UnmarshalMargin data = Some margin ->
     Kafka.getAjaibID b (CFXUserID margin) <> "" ->
     Asset margin = "IDR" ->
     GetCurrentRate clock exchange s = (Err why, s') ->
     dispatch b true s TopicUserMargin key data = (Ok None, s')) /\
  (forall topic hasTransformer,
     topic <> TopicUserMargin -> topic <> TopicUserPosition ->
     dispatch b hasTransformer s topic key data = (Ok None, s)).
Proof.
  unfold HandleMessage. split; [|split; [|split]].
  - intros Hdec hasTransformer. rewrite String.eqb_refl. unfold handleUserMargin.
    rewrite Hdec. eexists. reflexivity.
  - intros margin hasTransformer Hdec Hnone. rewrite String.eqb_refl.
    unfold handleUserMargin, Kafka.getAjaibID. now rewrite Hdec, Hnone.
  - intros margin why s' Hdec Hentry Hasset Hrate. rewrite String.eqb_refl.
    unfold handleUserMargin, TransformUserMargin. rewrite Hdec.
    apply String.eqb_neq in Hentry. rewrite Hentry.
    apply String.eqb_eq in Hasset. rewrite Hasset, Hrate. reflexivity.
  - intros topic hasTransformer Hm Hp.
    apply String.eqb_neq in Hm, Hp. now rewrite Hm, Hp.
Qed.

(** X14. A margin message labelled ["IDR"] for an internal identifier with
    an index entry, when the currency service gives a rate and the converted
    record encodes, is handed to the Hub on [user:<public id>:margin] with the
    encoding of the record whose eight monetary fields are multiplied by the
    rate. *)
Theorem dispatcher_converts
    (b : Kafka.Broadcaster) (s s' : cachedCurrencyService) (key data out : bytes)
    (margin : UserMargin) (rate : float64) :
  UnmarshalMargin data = Some margin ->
  Kafka.getAjaibID b (CFXUserID margin) <> "" ->
  Asset margin = "IDR" ->
  GetCurrentRate clock exchange s = (Ok rate, s') ->
  MarshalMargin (convertMargin margin rate) = Some out ->
  dispatch b true s TopicUserMargin key data
  = (Ok (Some {| Server.cmChannel :=
                   "user:" ++ Kafka.getAjaibID b (CFXUserID margin) ++ ":margin";
                 Server.cmData := out |}), s').
Proof.
  intros Hdec Hentry Hasset Hrate Henc. unfold HandleMessage.
  rewrite String.eqb_refl. unfold handleUserMargin, TransformUserMargin. rewrite Hdec.
  apply String.eqb_neq in Hentry. rewrite Hentry.
  apply String.eqb_eq in Hasset. rewrite Hasset, Hrate, Henc. reflexivity.
Qed.

End IngressLaws.

Section IngressWitnesses.
Import Float64 Types Service Ingress.

Lemma subscribed_channel_is_served_witness :
  exists st' b',
    Handler.subscribeStep (Sample.wired 2) 1 (Sample.subscribe "s1" Sample.margin111) 0
    = Done (st', Protocol.NewSubscribedMessage 0 "s1" Sample.margin111) /\
    Handler.kafkaBroadcaster st' = Some b' /\
    HandleMessage tick quote15000 BusSample.decodeUSDT encodeEmpty
      (BusSample.decodePosition "BTCUSDT-PERP") BusSample.encodePosition
      b' true (NewCachedCurrencyService 60000000000) TopicUserMargin [] []
    = (Ok (Some {| Server.cmChannel := Sample.margin111; Server.cmData := [] |}),
       NewCachedCurrencyService 60000000000).
Proof.
  destruct (Handler.subscribeStep (Sample.wired 2) 1
              (Sample.subscribe "s1" Sample.margin111) 0)
    as [[st' r]|] eqn:Hrun; [|vm_compute in Hrun; discriminate Hrun].
  assert (Hr : r = Protocol.NewSubscribedMessage 0 "s1" Sample.margin111).
  { vm_compute in Hrun. injection Hrun as _ <-. reflexivity. }
  subst r.
  assert (Hb : exists b', Handler.kafkaBroadcaster st' = Some b').
  { vm_compute in Hrun. injection Hrun as <-. eexists. reflexivity. }
  destruct Hb as [b' Hb'].
  exists st', b'. split; [reflexivity|]. split; [exact Hb'|].
  refine (proj1 (subscribed_channel_is_served tick quote15000 BusSample.decodeUSDT
                   encodeEmpty (BusSample.decodePosition "BTCUSDT-PERP")
                   BusSample.encodePosition (Sample.wired 2) st' 1 Sample.alice
                   (Sample.subscribe "s1" Sample.margin111) _ 0 _ b' true
                   (NewCachedCurrencyService 60000000000) [] []
                   Hrun eq_refl eq_refl _ _ Hb' eq_refl)
                eq_refl BusSample.marginUSDT eq_refl eq_refl _);
    discriminate.
Defined.

Lemma dispatcher_drops_witness :
  HandleMessage tick quote15000 BusSample.decodeUSDT encodeEmpty
    (BusSample.decodePosition "BTCUSDT-PERP") BusSample.encodePosition
    Kafka.NewBroadcaster true (NewCachedCurrencyService 60000000000)
    TopicUserMargin [] []
  = (Ok None, NewCachedCurrencyService 60000000000) /\
  HandleMessage tick quote15000 BusSample.decodeUSDT encodeEmpty
    (BusSample.decodePosition "BTCUSDT-PERP") BusSample.encodePosition
    BusSample.index111 true (NewCachedCurrencyService 60000000000)
    "heartbeat" [] []
  = (Ok None, NewCachedCurrencyService 60000000000).
Proof.
  destruct (dispatcher_drops tick quote15000 BusSample.decodeUSDT encodeEmpty
              (BusSample.decodePosition "BTCUSDT-PERP") BusSample.encodePosition
              Kafka.NewBroadcaster (NewCachedCurrencyService 60000000000) [] [])
    as (_ & Hnone & _ & _).
  destruct (dispatcher_drops tick quote15000 BusSample.decodeUSDT encodeEmpty
              (BusSample.decodePosition "BTCUSDT-PERP") BusSample.encodePosition
              BusSample.index111 (NewCachedCurrencyService 60000000000) [] [])
    as (_ & _ & _ & Htopic).
  split.
  - apply (Hnone BusSample.marginUSDT true eq_refl). reflexivity.
  - apply Htopic; discriminate.
Defined.

Lemma dispatcher_converts_witness :
  exists s',
    HandleMessage tick quote15000 decodeIDR encodeEmpty
      (BusSample.decodePosition "BTCUSDT-PERP") BusSample.encodePosition
      BusSample.index111 true (NewCachedCurrencyService 60000000000)
      TopicUserMargin [] []
    = (Ok (Some {| Server.cmChannel := "user:111:margin"; Server.cmData := [] |}), s').
Proof.
  eexists.
  apply (dispatcher_converts tick quote15000 decodeIDR encodeEmpty
           (BusSample.decodePosition "BTCUSDT-PERP") BusSample.encodePosition
           BusSample.index111 (NewCachedCurrencyService 60000000000) _ [] [] []
           marginIDR (of_Z 15000)).
  - reflexivity.
  - discriminate.
  - reflexivity.
  - reflexivity.
  - reflexivity.
Defined.

End IngressWitnesses.

(** ** Rate cache and position transformer (package [service]) *)

Section ServiceLaws.
Import Float64 Types Service Strings.

Lemma length_append (a b : string) :
  String.length (a ++ b) = (String.length a + String.length b)%nat.
Proof. induction a as [|c a IH]; simpl; [reflexivity|]. now rewrite IH. Qed.

Lemma dropBytes_append (a b : string) : dropBytes (String.length a) (a ++ b) = b.
Proof. induction a as [|c a IH]; simpl; [reflexivity|exact IH]. Qed.

Lemma dropBytes_split n : forall s,
  (n <= String.length s)%nat ->
  exists p, s = p ++ dropBytes n s /\ String.length p = n.
Proof.
  induction n as [|n IH]; intros s Hn.
  - exists "". split; reflexivity.
  - destruct s as [|c s]; simpl in Hn; [lia|].
    destruct (IH s) as (p & Hp & Hlen); [lia|].
    exists (String c p). split; [|simpl; now rewrite Hlen].
    change (String c s = String c (p ++ dropBytes n s)). now rewrite <- Hp.
Qed.

(** [HasSuffix] holds exactly of the strings that end with the suffix. *)
Lemma HasSuffix_spec s suffix :
  HasSuffix s suffix = true <-> exists p, s = p ++ suffix.
Proof.
  unfold HasSuffix. split.
  - intros H. apply andb_prop in H as [Hle Heq].
    apply Nat.leb_le in Hle. apply String.eqb_eq in Heq.
    destruct (dropBytes_split (String.length s - String.length suffix) s) as (p & Hp & _);
      [lia|].
    exists p. now rewrite <- Heq.
  - intros [p ->]. rewrite length_append. apply andb_true_intro. split.
    + apply Nat.leb_le. lia.
    + replace (String.length p + String.length suffix - String.length suffix)%nat
        with (String.length p) by lia.
      rewrite dropBytes_append. apply String.eqb_refl.
Qed.

(** X15. For a payload that decodes to a position record: when the symbol
    does not end in [IDR-PERP] the transformer returns the input bytes as
    they are and leaves the currency service alone; when it does and the
    currency service yields a rate, the transformer returns the encoding of
    the record in which exactly [value], [maintenance_margin],
    [realised_pnl], [unrealised_pnl] and [order_margin] are the old values
    times the rate and the other sixteen fields are the old ones. *)
Theorem TransformUserPosition_converts
    (clock : nat -> Z) (exchange : nat -> Exchange)
    (Unmarshal : bytes -> option UserPosition) (Marshal : UserPosition -> option bytes)
    (s : cachedCurrencyService) (data : bytes) (cfxUserID : string)
    (position : UserPosition) :
  Unmarshal data = Some position ->
  ((forall p, Symbol position <> p ++ "IDR-PERP") ->
   TransformUserPosition clock exchange Unmarshal Marshal s data cfxUserID
   = (Ok data, s))
  /\
  (forall p rate s',
     Symbol position = p ++ "IDR-PERP" ->
     GetCurrentRate clock exchange s = (Ok rate, s') ->
     exists out,
       TransformUserPosition clock exchange Unmarshal Marshal s data cfxUserID
       = (match Marshal out with
          | Some transformedData => Ok transformedData
          | None => Err "failed to marshal transformed UserPosition"
          end, s') /\
       Value out = mul (Value position) rate /\
       pMaintenanceMargin out = mul (pMaintenanceMargin position) rate /\
       RealisedPnl out = mul (RealisedPnl position) rate /\
       UnrealisedPnl out = mul (UnrealisedPnl position) rate /\
       pOrderMargin out = mul (pOrderMargin position) rate /\
       pTimestamp out = pTimestamp position /\
       pCFXUserID out = pCFXUserID position /\
       Symbol out = Symbol position /\
       Size out = Size position /\
       Leverage out = Leverage position /\
       EntryPrice out = EntryPrice position /\
       MarkPrice out = MarkPrice position /\
       LiquidationPrice out = LiquidationPrice position /\
       DeleveragePercentile out = DeleveragePercentile position /\
       RiskLimit out = RiskLimit position /\
       OpenOrderBuyCost out = OpenOrderBuyCost position /\
       OpenOrderSellCost out = OpenOrderSellCost position /\
       InitialMarginRequirement out = InitialMarginRequirement position /\
       UpdatedTime out = UpdatedTime position /\
       OpenOrderBuyQuantity out = OpenOrderBuyQuantity position /\
       OpenOrderSellQuantity out = OpenOrderSellQuantity position).
Proof.
  intros Hdec. unfold TransformUserPosition. rewrite Hdec. split.
  - intros Hsym. destruct (HasSuffix (Symbol position) idrPerpSuffix) eqn:Hs;
      [|reflexivity].
    apply HasSuffix_spec in Hs as [p Hp]. now destruct (Hsym p).
  - intros p rate s' Hsym Hrate.
    assert (Hs : HasSuffix (Symbol position) idrPerpSuffix = true).
    { apply HasSuffix_spec. now exists p. }
    rewrite Hs, Hrate. simpl negb. cbv iota.
    exists (convertPosition position rate). split.
    + now destruct (Marshal (convertPosition position rate)).
    + destruct position. simpl. repeat split.
Qed.

Lemma TransformUserPosition_converts_witness :
  exists out s',
    TransformUserPosition tick quote15000 (BusSample.decodePosition "BTCIDR-PERP")
      BusSample.encodePosition (NewCachedCurrencyService 60000000000) [] "C1"
    = (match BusSample.encodePosition out with
       | Some transformedData => Ok transformedData
       | None => Err "failed to marshal transformed UserPosition"
       end, s') /\
    Value out = of_Z 60000 /\ Size out = of_Z 1.
Proof.
  destruct (TransformUserPosition_converts tick quote15000
              (BusSample.decodePosition "BTCIDR-PERP") BusSample.encodePosition
              (NewCachedCurrencyService 60000000000) [] "C1"
              (BusSample.position "BTCIDR-PERP") eq_refl) as [_ Hconv].
  destruct (Hconv "BTC" (of_Z 15000) _ eq_refl eq_refl)
    as (out & Hrun & Hvalue & _ & _ & _ & _ & _ & _ & _ & Hsize & _).
  exists out. eexists. split; [exact Hrun|]. split.
  - rewrite Hvalue. reflexivity.
  - exact Hsize.
Defined.

(** *** The rate cache *)

Lemma leb_zero_false_not_zero (r : float64) : leb r zero = false -> eqb r zero = false.
Proof.
  destruct r as [sg|sg| |sg m e]; try destruct sg; simpl; intros H;
    try reflexivity; discriminate.
Qed.

(** X16. A rate in the cache that is not older than the TTL at the two
    clock readings the call makes is returned as it is: no HTTP exchange is
    made and the cache is untouched. A rate exactly as old as the TTL still
    counts as fresh. *)
Theorem GetCurrentRate_fresh
    (clock : nat -> Z) (exchange : nat -> Exchange) (s : cachedCurrencyService) :
  eqb (rate (cache s)) zero = false ->
  (Sub (clock (clockReads s)) (timestamp (cache s)) <= ttl (cache s))%Z ->
  (Sub (clock (S (clockReads s))) (timestamp (cache s)) <= ttl (cache s))%Z ->
  GetCurrentRate clock exchange s
  = (Ok (rate (cache s)),
     {| cache := cache s; clockReads := S (S (clockReads s)); fetches := fetches s |}).
Proof.
  intros Hnz H1 H2. unfold GetCurrentRate, cached, isExpired, get, stale, now. simpl.
  rewrite Hnz.
  assert (E1 : (ttl (cache s) <? Sub (clock (clockReads s)) (timestamp (cache s)))%Z
               = false) by lia.
  assert (E2 : (ttl (cache s) <? Sub (clock (S (clockReads s))) (timestamp (cache s)))%Z
               = false) by lia.
  rewrite E1. simpl. rewrite Hnz, E2. reflexivity.
Qed.

(** X17. A cached rate that is older than the TTL at both readings is not
    used: the call makes exactly one HTTP exchange; when the provider fails
    the call returns an error and the cache keeps its old content (nothing is
    stored and the old rate is not returned), and when the provider succeeds
    its rate is returned and stored with the time of the next clock
    reading. *)
Theorem GetCurrentRate_expired
    (clock : nat -> Z) (exchange : nat -> Exchange) (s : cachedCurrencyService) :
  eqb (rate (cache s)) zero = false ->
  (ttl (cache s) < Sub (clock (clockReads s)) (timestamp (cache s)))%Z ->
  (ttl (cache s) < Sub (clock (S (clockReads s))) (timestamp (cache s)))%Z ->
  match GetUSDTToIDRRate (exchange (fetches s)) with
  | Err why =>
      exists e,
      GetCurrentRate clock exchange s
      = (Err e, {| cache := cache s; clockReads := S (S (clockReads s));
                   fetches := S (fetches s) |})
  | Ok r =>
      GetCurrentRate clock exchange s
      = (Ok r, {| cache := {| rate := r; timestamp := clock (S (S (clockReads s)));
                              ttl := ttl (cache s) |};
                  clockReads := S (S (S (clockReads s)));
                  fetches := S (fetches s) |})
  end.
Proof.
  intros Hnz H1 H2. unfold GetCurrentRate, cached, isExpired, get, stale, now, fetch, set.
  simpl. rewrite Hnz.
  assert (E1 : (ttl (cache s) <? Sub (clock (clockReads s)) (timestamp (cache s)))%Z
               = true) by lia.
  assert (E2 : (ttl (cache s) <? Sub (clock (S (clockReads s))) (timestamp (cache s)))%Z
               = true) by lia.
  rewrite E1. simpl. rewrite Hnz, E2. simpl.
  destruct (GetUSDTToIDRRate (exchange (fetches s))) as [r|why].
  - reflexivity.
  - eexists. reflexivity.
Qed.

(** X18. Single fetch within the TTL: on a new service whose first HTTP
    exchange answers 200 with an amount that is not [<= 0], the first call
    fetches that amount and stores it with the time of the first clock
    reading, and a second call whose two clock readings are within the TTL
    of that time returns the same rate from the cache; one exchange was
    made in all. *)
Theorem calls_fetch_once
    (clock : nat -> Z) (exchange : nat -> Exchange) (cacheTTL : Z)
    (baseResp : baseResponse) :
  exchange 0%nat = Response 200 (Some baseResp) ->
  leb (Amount (Result baseResp)) zero = false ->
  (Sub (clock 1%nat) (clock 0%nat) <= cacheTTL)%Z ->
  (Sub (clock 2%nat) (clock 0%nat) <= cacheTTL)%Z ->
  calls clock exchange 2 (NewCachedCurrencyService cacheTTL)
  = ([Ok (Amount (Result baseResp)); Ok (Amount (Result baseResp))],
     {| cache := {| rate := Amount (Result baseResp); timestamp := clock 0%nat;
                    ttl := cacheTTL |};
        clockReads := 3; fetches := 1 |}).
Proof.
  intros Hx Hpos H1 H2. pose proof (leb_zero_false_not_zero _ Hpos) as Hnz.
  unfold calls.
  assert (Hfirst : GetCurrentRate clock exchange (NewCachedCurrencyService cacheTTL)
                   = (Ok (Amount (Result baseResp)),
                      {| cache := {| rate := Amount (Result baseResp);
                                     timestamp := clock 0%nat; ttl := cacheTTL |};
                         clockReads := 1; fetches := 1 |})).
  { unfold GetCurrentRate, cached, isExpired, fetch, set, now. simpl.
    rewrite Hx. simpl. now rewrite Hpos. }
  rewrite Hfirst.
  unfold GetCurrentRate, cached, isExpired, get, stale, now. simpl.
  rewrite Hnz.
  assert (E1 : (cacheTTL <? Sub (clock 1%nat) (clock 0%nat))%Z = false) by lia.
  assert (E2 : (cacheTTL <? Sub (clock 2%nat) (clock 0%nat))%Z = false) by lia.
  rewrite E1. simpl. rewrite Hnz, E2. reflexivity.
Qed.

Lemma GetCurrentRate_fresh_witness :
  GetCurrentRate tick quote15000
    {| cache := {| rate := of_Z 15000; timestamp := 0; ttl := 60000000000 |};
       clockReads := 0; fetches := 1 |}
  = (Ok (of_Z 15000),
     {| cache := {| rate := of_Z 15000; timestamp := 0; ttl := 60000000000 |};
        clockReads := 2; fetches := 1 |}).
Proof.
  apply (GetCurrentRate_fresh tick quote15000
           {| cache := {| rate := of_Z 15000; timestamp := 0; ttl := 60000000000 |};
              clockReads := 0; fetches := 1 |}).
  - reflexivity.
  - vm_compute. discriminate.
  - vm_compute. discriminate.
Defined.

Lemma GetCurrentRate_expired_witness :
  GetCurrentRate tick quote15000
    {| cache := {| rate := of_Z 14000; timestamp := 0; ttl := 0 |};
       clockReads := 1; fetches := 1 |}
  = (Ok (of_Z 15000),
     {| cache := {| rate := of_Z 15000; timestamp := 3000000000; ttl := 0 |};
        clockReads := 4; fetches := 2 |}).
Proof.
  apply (GetCurrentRate_expired tick quote15000
           {| cache := {| rate := of_Z 14000; timestamp := 0; ttl := 0 |};
              clockReads := 1; fetches := 1 |}).
  - reflexivity.
  - vm_compute. reflexivity.
  - vm_compute. reflexivity.
Defined.

Lemma calls_fetch_once_witness :
  exists s,
    calls tick quote15000 2 (NewCachedCurrencyService 60000000000)
    = ([Ok (of_Z 15000); Ok (of_Z 15000)], s) /\ fetches s = 1%nat.
Proof.
  eexists. split.
  - apply (calls_fetch_once tick quote15000 60000000000
             {| Result := {| BaseCurrency := "USDT"; QuoteCurrency := "IDR";
                             Amount := of_Z 15000; UpdatedAt := [] |} |}).
    + reflexivity.
    + reflexivity.
    + vm_compute. discriminate.
    + vm_compute. discriminate.
  - reflexivity.
Defined.

End ServiceLaws.

(** ** The subscription manager (package [channel]) *)

Section ManagerLaws.
Import Manager.

Lemma TrackSubscription_lookup m clientID channel c :
  clientSubscriptions (TrackSubscription m clientID channel) !! c
  = if decide (clientID = c)
    then Some ({[channel]} ∪ default ∅ (clientSubscriptions m !! clientID))
    else clientSubscriptions m !! c.
Proof.
  unfold TrackSubscription. simpl. destruct (decide (clientID = c)) as [<-|Hne].
  - rewrite lookup_insert_eq. destruct (clientSubscriptions m !! clientID) eqn:H.
    + now rewrite H.
    + now rewrite lookup_insert_eq.
  - rewrite lookup_insert_ne by exact Hne.
    destruct (clientSubscriptions m !! clientID); [reflexivity|].
    now rewrite lookup_insert_ne.
Qed.

Lemma UntrackSubscription_lookup m clientID channel c :
  clientSubscriptions (UntrackSubscription m clientID channel) !! c
  = if decide (clientID = c)
    then match clientSubscriptions m !! clientID with
         | Some subs => if (size (subs ∖ {[channel]}) =? 0)%nat then None
                        else Some (subs ∖ {[channel]})
         | None => None
         end
    else clientSubscriptions m !! c.
Proof.
  unfold UntrackSubscription. destruct (decide (clientID = c)) as [<-|Hne].
  - destruct (clientSubscriptions m !! clientID) as [subs|] eqn:H; [|exact H].
    destruct (size (subs ∖ {[channel]}) =? 0)%nat; simpl.
    + apply lookup_delete_eq.
    + apply lookup_insert_eq.
  - destruct (clientSubscriptions m !! clientID) as [subs|]; [|reflexivity].
    destruct (size (subs ∖ {[channel]}) =? 0)%nat; simpl.
    + now apply lookup_delete_ne.
    + now apply lookup_insert_ne.
Qed.

(** X19. [IsSubscribed] after each update of the manager: tracking a
    subscription makes it hold for that client and channel, untracking it or
    untracking the client makes it fail, and every other pair of client and
    channel answers as before. *)
Theorem IsSubscribed_after (m : Manager) (clientID channel c ch : string) :
  IsSubscribed (TrackSubscription m clientID channel) c ch
  = (if decide (clientID = c /\ channel = ch) then true else IsSubscribed m c ch) /\
  IsSubscribed (UntrackSubscription m clientID channel) c ch
  = (if decide (clientID = c /\ channel = ch) then false else IsSubscribed m c ch) /\
  IsSubscribed (UntrackClient m clientID) c ch
  = (if decide (clientID = c) then false else IsSubscribed m c ch).
Proof.
  split; [|split].
  - unfold IsSubscribed. rewrite TrackSubscription_lookup.
    destruct (decide (clientID = c)) as [<-|Hne].
    + destruct (decide (clientID = clientID /\ channel = ch)) as [[_ <-]|Hn].
      * apply bool_decide_eq_true_2. set_solver.
      * assert (channel <> ch) by (intros ->; now destruct Hn).
        destruct (clientSubscriptions m !! clientID) as [subs|]; simpl.
        -- apply bool_decide_ext. set_solver.
        -- apply bool_decide_eq_false_2. set_solver.
    + destruct (decide (clientID = c /\ channel = ch)) as [[Hc _]|_]; [contradiction|].
      reflexivity.
  - unfold IsSubscribed. rewrite UntrackSubscription_lookup.
    destruct (decide (clientID = c)) as [<-|Hne].
    + destruct (clientSubscriptions m !! clientID) as [subs|].
      * destruct (decide (clientID = clientID /\ channel = ch)) as [[_ <-]|Hn].
        -- destruct (size (subs ∖ {[channel]}) =? 0)%nat; [reflexivity|].
           apply bool_decide_eq_false_2. set_solver.
        -- assert (channel <> ch) by (intros ->; now destruct Hn).
           destruct (size (subs ∖ {[channel]}) =? 0)%nat eqn:Hsize.
           ++ apply Nat.eqb_eq, size_empty_iff in Hsize.
              symmetry. apply bool_decide_eq_false_2. set_solver.
           ++ apply bool_decide_ext. set_solver.
      * now destruct (decide (clientID = clientID /\ channel = ch)).
    + destruct (decide (clientID = c /\ channel = ch)) as [[Hc _]|_]; [contradiction|].
      reflexivity.
  - unfold IsSubscribed, UntrackClient. simpl.
    destruct (decide (clientID = c)) as [<-|Hne].
    + now rewrite lookup_delete_eq.
    + now rewrite lookup_delete_ne.
Qed.

(** X20. The manager stores no empty set: if no client is bound to the empty
    set this is still so after tracking, untracking a subscription and
    untracking a client; and on such a manager tracking a subscription that
    was not there and untracking it again gives back the manager exactly. *)
Theorem Manager_no_empty_sets (m : Manager) (clientID channel : string) :
  noEmptyClient m ->
  noEmptyClient (TrackSubscription m clientID channel) /\
  noEmptyClient (UntrackSubscription m clientID channel) /\
  noEmptyClient (UntrackClient m clientID) /\
  (IsSubscribed m clientID channel = false ->
   UntrackSubscription (TrackSubscription m clientID channel) clientID channel = m).
Proof.
  intros Hne. split; [|split; [|split]].
  - intros c subs. rewrite TrackSubscription_lookup.
    destruct (decide (clientID = c)); [|apply Hne].
    intros H. injection H as <-. set_solver.
  - intros c subs. rewrite UntrackSubscription_lookup.
    destruct (decide (clientID = c)); [|apply Hne].
    destruct (clientSubscriptions m !! clientID) as [s0|]; [|discriminate].
    destruct (size (s0 ∖ {[channel]}) =? 0)%nat eqn:Hsize; [discriminate|].
    intros H. injection H as <-. intros Hempty. rewrite Hempty, size_empty in Hsize.
    discriminate Hsize.
  - intros c subs. unfold UntrackClient. simpl.
    destruct (decide (clientID = c)) as [<-|Hd].
    + rewrite lookup_delete_eq. discriminate.
    + rewrite lookup_delete_ne by exact Hd. apply Hne.
  - intros Hnot. destruct m as [cs]. unfold IsSubscribed in Hnot. simpl in *.
    unfold UntrackSubscription, TrackSubscription. simpl.
    destruct (cs !! clientID) as [subs|] eqn:Hcs.
    + apply bool_decide_eq_false in Hnot.
      rewrite lookup_insert_eq, Hcs. simpl.
      replace (({[channel]} ∪ subs) ∖ {[channel]}) with subs
        by (apply set_eq; intros x; set_solver).
      destruct (size subs =? 0)%nat eqn:Hsize.
      * apply Nat.eqb_eq, size_empty_iff, leibniz_equiv in Hsize.
        now destruct (Hne _ _ Hcs).
      * simpl. f_equal. rewrite insert_insert_eq. now apply insert_id.
    + rewrite !lookup_insert_eq.
      assert (Hsize : size ((({[channel]} : gset string) ∪ default ∅ (Some ∅)) ∖ {[channel]}) = 0%nat).
      { apply size_empty_iff. set_solver. }
      cbv zeta. rewrite Hsize. cbn [Nat.eqb clientSubscriptions]. f_equal.
      rewrite delete_insert_eq, delete_insert_eq. now apply delete_id.
Qed.

Lemma Manager_no_empty_sets_witness :
  noEmptyClient NewManager /\
  UntrackSubscription (TrackSubscription NewManager "session-a" "user:111:margin")
    "session-a" "user:111:margin" = NewManager.
Proof.
  assert (Hne : noEmptyClient NewManager).
  { intros c subs H. simpl in H. rewrite lookup_empty in H. discriminate H. }
  split; [exact Hne|].
  apply (Manager_no_empty_sets NewManager "session-a" "user:111:margin" Hne).
  reflexivity.
Defined.

End ManagerLaws.

(** ** The upgrade handler and the resolver of internal identifiers *)

Section FrontendLaws.
Import Server Mapping Frontend.

Variable DecodeString : string -> option bytes.
Variable claimsSub : bytes -> option string.
Variable Encode : Protocol.Message -> result string bytes.
Variable connectedData : string -> string -> bytes.
Variable mapper : option (Z -> Exchange).

Local Abbreviation parse := (parseAjaibIDFromHeader DecodeString claimsSub).
Local Abbreviation upgrade :=
  (handleWebSocket DecodeString claimsSub Encode connectedData mapper).

(** X21. A session gets a non-empty internal identifier only when a mapper
    is configured, the public identifier parses as an [int64], and the adapter
    answered that number with status 200, the success code [EC0000000] and
    this very identifier. *)
Theorem resolveCfxUserID_nonempty (ajaibID : string) :
  resolveCfxUserID mapper ajaibID <> "" ->
  exists adapter id response,
    mapper = Some adapter /\
    Strconv.ParseInt ajaibID = Ok id /\
    adapter id = Response 200 (Some response) /\
    ErrCode response = "EC0000000" /\
    CfxUserID (Result response) = resolveCfxUserID mapper ajaibID.
Proof.
  unfold resolveCfxUserID. destruct mapper as [adapter|]; [|congruence].
  destruct (String.eqb ajaibID ""); [congruence|].
  destruct (Strconv.ParseInt ajaibID) as [id|e]; [|congruence].
  unfold GetCfxUserID.
  destruct (adapter id) as [why|why|status body] eqn:Hx; try congruence.
  destruct (status =? 200)%Z eqn:Hs; simpl; [|congruence].
  apply Z.eqb_eq in Hs. subst status.
  destruct body as [response|]; [|congruence].
  destruct (String.eqb (ErrCode response) "EC0000000") eqn:Hc; simpl; [|congruence].
  apply String.eqb_eq in Hc.
  destruct (String.eqb (CfxUserID (Result response)) ""); [congruence|].
  intros _. exists adapter, id, response. repeat split; auto.
Qed.

(** X22. The upgrade handler turns a request away without touching the Hub
    or the heap: with status 401 and code 4100 when the credential, taken
    from the header or else from the query parameter and stripped of
    [Bearer ], does not split into exactly three segments at the dots; and
    with status 429 and code 4200 when the credential names a user who may
    not connect. *)
Theorem handleWebSocket_turns_away (srv : Server) (m : Mem) (r : Request)
    (upgraded : bool) (uuid : string) (now : Z) :
  let credential := if String.eqb (header r) "" then token r else header r in
  (length (Strings.Split (Strings.TrimPrefix credential "Bearer ") ".") <> 3%nat ->
   upgrade srv m r upgraded uuid now = Done (m, Status 401 4100 "unauthorized")) /\
  (parse r <> "" -> CanUserConnect (hub m) (parse r) = false ->
   upgrade srv m r upgraded uuid now = Done (m, Status 429 4200 "connection limit reached")).
Proof.
  intros credential. split.
  - intros Hlen. unfold handleWebSocket.
    assert (Hparse : parse r = "").
    { unfold parseAjaibIDFromHeader. fold credential.
      destruct (String.eqb credential ""); [reflexivity|].
      destruct (Strings.Split (Strings.TrimPrefix credential "Bearer ") ".")
        as [|a [|b [|c [|d l]]]]; try reflexivity.
      now destruct Hlen. }
    now rewrite Hparse.
  - intros Hne Hcan. unfold handleWebSocket.
    apply String.eqb_neq in Hne. rewrite Hne, Hcan. reflexivity.
Qed.

(** X23. An accepted upgrade: when the credential names a user who may
    connect and the upgrade succeeds, the handler ends with a session for a
    new client at an address that was not in use, which it has sent to the
    Hub's loop for registration; the handler itself leaves the Hub as it was
    (the live set and the counts included); the heap differs at this address
    only, where the client has the user of the credential, the identifier of
    the resolver, no subscription and an open queue, which holds the
    connected frame alone if the frame encodes and the queue has room; and
    if the loop takes the registration in this state of the Hub, the client
    joins the live set. *)
Theorem handleWebSocket_accepts (srv : Server) (m : Mem) (r : Request)
    (uuid : string) (now : Z) :
  parse r <> "" ->
  CanUserConnect (hub m) (parse r) = true ->
  let client := fresh (dom (heap m)) in
  exists m' c,
    upgrade srv m r true uuid now = Done (m', Session client) /\
    heap m !! client = None /\
    hub m' = hub m /\
    heap m' = <[client := c]> (heap m) /\
    ajaibID c = parse r /\
    cfxUserID c = resolveCfxUserID mapper (parse r) /\
    subscriptions c = ∅ /\
    closed (send c) = false /\
    buf (send c)
    = match Encode (Protocol.NewConnectedMessage now (connectedData uuid (parse r))) with
      | Ok data => if (0 <? SendBuffer (srvClientConfig srv))%nat then [data] else []
      | Err _ => []
      end /\
    exists m'',
      registerClient m' client = Done m'' /\
      clients (hub m'') = {[client]} ∪ clients (hub m) /\
      channels (hub m'') = channels (hub m) /\
      heap m'' = heap m'.
Proof.
  intros Hne Hcan client.
  assert (Hfresh : heap m !! client = None).
  { apply not_elem_of_dom. apply is_fresh. }
  assert (Hregister : forall c (m' : Mem),
             hub m' = hub m -> heap m' !! client = Some c -> ajaibID c = parse r ->
             exists m'',
               registerClient m' client = Done m'' /\
               clients (hub m'') = {[client]} ∪ clients (hub m) /\
               channels (hub m'') = channels (hub m) /\
               heap m'' = heap m').
  { intros c m' Hhub Hc Hid. destruct m' as [h' hp]. simpl in Hhub, Hc. subst h'.
    unfold registerClient, obind, deref. simpl. rewrite Hc. simpl.
    rewrite Hid. unfold CanUserConnect in Hcan.
    destruct (String.eqb (parse r) "") eqn:Hempty; simpl in *.
    { eexists. split; [reflexivity|]. simpl. auto. }
    destruct (Z.ltb_spec 0 (maxConnectionsPerUser (hub m))) as [Hmax|Hmax].
    - assert (Hle : (maxConnectionsPerUser (hub m) <=? 0)%Z = false) by lia.
      rewrite Hle in Hcan.
      assert (Hin : (maxConnectionsPerUser (hub m) <=? connectionsOf (hub m) (parse r))%Z
                    = false) by lia.
      rewrite Hin. eexists. split; [reflexivity|]. simpl. auto.
    - eexists. split; [reflexivity|]. simpl. auto. }
  unfold handleWebSocket. fold client.
  pose proof Hne as Hneb. apply String.eqb_neq in Hneb. rewrite Hneb, Hcan. simpl.
  set (c0 := NewClient (Some (srvClientConfig srv)) (parse r)
               (resolveCfxUserID mapper (parse r)) uuid).
  unfold SendMessage.
  destruct (Encode (Protocol.NewConnectedMessage now (connectedData uuid (parse r))))
    as [data|why].
  - unfold Send, deref. simpl. rewrite lookup_insert_eq. simpl.
    unfold trySend. simpl.
    change (match SendBuffer (srvClientConfig srv) with
            | 0%nat => false | S _ => true end)
      with (0 <? SendBuffer (srvClientConfig srv))%nat.
    destruct (0 <? SendBuffer (srvClientConfig srv))%nat eqn:Hroom; simpl.
    + eexists _, _. split; [reflexivity|].
      split; [exact Hfresh|]. split; [reflexivity|].
      split; [simpl; apply insert_insert_eq|].
      split; [reflexivity|]. split; [reflexivity|]. split; [reflexivity|].
      split; [reflexivity|]. split; [reflexivity|].
      eapply Hregister; [reflexivity|simpl; apply lookup_insert_eq|reflexivity].
    + eexists _, c0. split; [reflexivity|]. simpl.
      split; [exact Hfresh|]. split; [reflexivity|]. split; [reflexivity|].
      split; [reflexivity|]. split; [reflexivity|]. split; [reflexivity|].
      split; [reflexivity|]. split; [reflexivity|].
      eapply Hregister; [reflexivity|simpl; apply lookup_insert_eq|reflexivity].
  - simpl. eexists _, c0. split; [reflexivity|]. simpl.
    split; [exact Hfresh|]. split; [reflexivity|]. split; [reflexivity|].
    split; [reflexivity|]. split; [reflexivity|]. split; [reflexivity|].
    split; [reflexivity|]. split; [reflexivity|].
    eapply Hregister; [reflexivity|simpl; apply lookup_insert_eq|reflexivity].
Qed.

(** An accepted upgrade, as far as the Hub's loop is concerned. *)
Lemma upgrade_session (srv : Server) (m : Mem) (r : Request) (uuid : string) (now : Z) :
  parse r <> "" ->
  CanUserConnect (hub m) (parse r) = true ->
  exists c,
    upgrade srv m r true uuid now
    = Done ({| hub := hub m; heap := <[fresh (dom (heap m)) := c]> (heap m) |},
            Session (fresh (dom (heap m)))) /\
    ajaibID c = parse r /\ closed (send c) = false.
Proof.
  intros Hne Hcan. unfold handleWebSocket.
  apply String.eqb_neq in Hne. rewrite Hne, Hcan. simpl.
  unfold SendMessage.
  destruct (Encode (Protocol.NewConnectedMessage now (connectedData uuid (parse r))))
    as [data|why].
  - unfold Send, deref. simpl. rewrite lookup_insert_eq. simpl.
    unfold trySend. simpl.
    destruct (SendBuffer (srvClientConfig srv)) as [|n]; simpl.
    + eexists. split; [reflexivity|]. split; reflexivity.
    + eexists. split; [unfold store; simpl; rewrite insert_insert_eq; reflexivity|].
      split; reflexivity.
  - simpl. eexists. split; [reflexivity|]. split; reflexivity.
Qed.

(** X26. Two upgrades that pass the limit check before the Hub's loop has
    registered either: for a user with one connection left under the limit,
    both handlers read the Hub before any registration, both pass
    [CanUserConnect] and both end with a session, at two different
    addresses; when the loop then takes the two registrations it admits the
    first and turns the second away, so the second session, with its open
    queue, is not in the live set and is not counted, and the count of the
    user is at the limit. *)
Theorem upgrades_race_one_registered
    (rangeOrder : gset ClientPtr -> list ClientPtr)
    (srv : Server) (m : Mem) (r1 r2 : Request) (uuid1 uuid2 : string) (now1 now2 : Z) :
  parse r1 <> "" ->
  parse r2 = parse r1 ->
  (0 < maxConnectionsPerUser (hub m) < 2 ^ 63)%Z ->
  connectionsOf (hub m) (parse r1) = (maxConnectionsPerUser (hub m) - 1)%Z ->
  (forall p, p ∈ clients (hub m) -> is_Some (heap m !! p)) ->
  exists m1 m2 m3 c1 c2 s2,
    upgrade srv m r1 true uuid1 now1 = Done (m1, Session c1) /\
    upgrade srv m1 r2 true uuid2 now2 = Done (m2, Session c2) /\
    c1 <> c2 /\
    HubLoop.Run Encode rangeOrder m2 [HubLoop.Register c1; HubLoop.Register c2]
    = Done m3 /\
    clients (hub m3) = {[c1]} ∪ clients (hub m) /\
    (c2 ∉ clients (hub m3)) /\
    connectionsOf (hub m3) (parse r1) = maxConnectionsPerUser (hub m) /\
    heap m3 !! c2 = Some s2 /\ ajaibID s2 = parse r1 /\ closed (send s2) = false.
Proof.
  intros Hne Hsame Hmax Hcount Hlive.
  assert (Hneb : String.eqb (parse r1) "" = false) by now apply String.eqb_neq.
  assert (Hcan : CanUserConnect (hub m) (parse r1) = true).
  { unfold CanUserConnect. rewrite Hneb.
    assert (Hle : (maxConnectionsPerUser (hub m) <=? 0)%Z = false) by lia.
    rewrite Hle. simpl. lia. }
  destruct (upgrade_session srv m r1 uuid1 now1 Hne Hcan) as (s1 & Hrun1 & Hid1 & _).
  set (c1 := fresh (dom (heap m))) in *.
  set (m1 := {| hub := hub m; heap := <[c1 := s1]> (heap m) |}) in *.
  assert (Hne2 : parse r2 <> "") by now rewrite Hsame.
  assert (Hcan2 : CanUserConnect (hub m1) (parse r2) = true) by now rewrite Hsame.
  destruct (upgrade_session srv m1 r2 uuid2 now2 Hne2 Hcan2)
    as (s2 & Hrun2 & Hid2 & Hopen2).
  set (c2 := fresh (dom (heap m1))) in *.
  set (m2 := {| hub := hub m1; heap := <[c2 := s2]> (heap m1) |}) in *.
  assert (Hfresh1 : c1 ∉ dom (heap m)) by apply is_fresh.
  assert (Hfresh2 : c2 ∉ dom (heap m1)) by apply is_fresh.
  assert (Hdiff : c1 <> c2).
  { intros Heq. apply Hfresh2. rewrite <- Heq. simpl.
    rewrite dom_insert. set_solver. }
  assert (Hc1 : heap m2 !! c1 = Some s1).
  { simpl. rewrite lookup_insert_ne by congruence. apply lookup_insert_eq. }
  assert (Hc2 : heap m2 !! c2 = Some s2) by (simpl; apply lookup_insert_eq).
  assert (Hwrap : wrap64 (connectionsOf (hub m) (parse r1) + 1)
                  = maxConnectionsPerUser (hub m)).
  { rewrite Hcount. rewrite wrap64_small; lia. }
  set (h3 := setClients
               (setUserConnections (hub m)
                  (<[parse r1 := maxConnectionsPerUser (hub m)]>
                     (userConnections (hub m))))
               ({[c1]} ∪ clients (hub m))).
  assert (Hreg1 : registerClient m2 c1 = Done (setHub m2 h3)).
  { unfold registerClient, obind, deref. rewrite Hc1. simpl. rewrite Hid1, Hneb.
    assert (Hpos : (0 <? maxConnectionsPerUser (hub m))%Z = true) by lia.
    rewrite Hpos. simpl.
    assert (Hroom : (maxConnectionsPerUser (hub m) <=? connectionsOf (hub m) (parse r1))%Z
                    = false) by lia.
    rewrite Hroom, Hwrap. reflexivity. }
  assert (Hcount3 : connectionsOf h3 (parse r1) = maxConnectionsPerUser (hub m)).
  { unfold connectionsOf, h3. simpl. now rewrite lookup_insert_eq. }
  assert (Hreg2 : registerClient (setHub m2 h3) c2 = Done (setHub m2 h3)).
  { unfold registerClient, obind, deref. simpl. rewrite lookup_insert_eq. simpl.
    rewrite Hid2, Hsame, Hneb.
    assert (Hpos : (0 <? maxConnectionsPerUser (hub m))%Z = true) by lia.
    rewrite Hpos. simpl. fold h3. rewrite Hcount3.
    now rewrite Z.leb_refl. }
  exists m1, m2, (setHub m2 h3), c1, c2, s2.
  split; [exact Hrun1|]. split; [exact Hrun2|]. split; [exact Hdiff|].
  split.
  { simpl. unfold obind. rewrite Hreg1, Hreg2. reflexivity. }
  split; [reflexivity|]. split.
  { simpl. intros Hin. apply elem_of_union in Hin as [Hin|Hin].
    - apply elem_of_singleton in Hin. congruence.
    - apply Hfresh2. simpl. rewrite dom_insert. apply elem_of_union. right.
      apply elem_of_dom. apply Hlive. exact Hin. }
  split; [exact Hcount3|]. split; [exact Hc2|]. split; [|exact Hopen2].
  now rewrite Hid2.
Qed.

End FrontendLaws.

Section FrontendWitnesses.
Import Server Mapping Frontend FrontSample.

Lemma resolveCfxUserID_nonempty_witness :
  exists adapter id response,
    Some FrontSample.adapter = Some adapter /\
    Strconv.ParseInt "111" = Ok id /\
    adapter id = Response 200 (Some response) /\
    ErrCode response = "EC0000000" /\
    CfxUserID (Result response) = resolveCfxUserID (Some FrontSample.adapter) "111".
Proof.
  apply (resolveCfxUserID_nonempty (Some FrontSample.adapter) "111").
  vm_compute. discriminate.
Defined.

Lemma handleWebSocket_turns_away_witness :
  handleWebSocket decodeAll subOfPayload Sample.frame FrontSample.connectedData
    (Some FrontSample.adapter) server full twoSegments true "session-z" 0
  = Done (full, Status 401 4100 "unauthorized") /\
  handleWebSocket decodeAll subOfPayload Sample.frame FrontSample.connectedData
    (Some FrontSample.adapter) server full bearer111 true "session-z" 0
  = Done (full, Status 429 4200 "connection limit reached").
Proof.
  split.
  - apply (handleWebSocket_turns_away decodeAll subOfPayload Sample.frame
             FrontSample.connectedData (Some FrontSample.adapter)
             server full twoSegments true "session-z" 0).
    vm_compute. discriminate.
  - apply (handleWebSocket_turns_away decodeAll subOfPayload Sample.frame
             FrontSample.connectedData (Some FrontSample.adapter)
             server full bearer111 true "session-z" 0).
    + vm_compute. discriminate.
    + vm_compute. reflexivity.
Defined.

Lemma handleWebSocket_accepts_witness :
  exists m' c,
    handleWebSocket decodeAll subOfPayload Sample.frame FrontSample.connectedData
      (Some FrontSample.adapter) server (Sample.fresh 1) bearer111 true "session-z" 0
    = Done (m', Session (fresh (dom (heap (Sample.fresh 1))))) /\
    ajaibID c = "111" /\ cfxUserID c = "cfx-7" /\
    hub m' = hub (Sample.fresh 1) /\
    heap m' = <[fresh (dom (heap (Sample.fresh 1))) := c]> (heap (Sample.fresh 1)).
Proof.
  destruct (handleWebSocket_accepts decodeAll subOfPayload Sample.frame
              FrontSample.connectedData (Some FrontSample.adapter)
              server (Sample.fresh 1) bearer111 "session-z" 0)
    as (m' & c & Hrun & _ & Hhub & Hheap & Hid & Hcfx & _).
  - vm_compute. discriminate.
  - vm_compute. reflexivity.
  - exists m', c. split; [exact Hrun|]. split; [exact Hid|].
    split; [|split; [exact Hhub|exact Hheap]].
    rewrite Hcfx. vm_compute. reflexivity.
Defined.

Lemma upgrades_race_one_registered_witness :
  exists m1 m2 m3 c1 c2,
    handleWebSocket decodeAll subOfPayload Sample.frame FrontSample.connectedData
      (Some FrontSample.adapter) server (Sample.fresh 1) bearer111 true "session-y" 0
    = Done (m1, Session c1) /\
    handleWebSocket decodeAll subOfPayload Sample.frame FrontSample.connectedData
      (Some FrontSample.adapter) server m1 bearer111 true "session-z" 1
    = Done (m2, Session c2) /\
    HubLoop.Run Sample.frame elements m2 [HubLoop.Register c1; HubLoop.Register c2]
    = Done m3 /\
    clients (hub m3) = {[c1]} /\ (c2 ∉ clients (hub m3)).
Proof.
  destruct (upgrades_race_one_registered decodeAll subOfPayload Sample.frame
              FrontSample.connectedData (Some FrontSample.adapter) elements
              server (Sample.fresh 1) bearer111 bearer111 "session-y" "session-z" 0 1)
    as (m1 & m2 & m3 & c1 & c2 & s2 & H1 & H2 & _ & Hrun & Hlive & Hout & _).
  - vm_compute. discriminate.
  - reflexivity.
  - vm_compute. split; reflexivity.
  - reflexivity.
  - intros p Hp. simpl in Hp. now apply not_elem_of_empty in Hp.
  - exists m1, m2, m3, c1, c2. split; [exact H1|]. split; [exact H2|].
    split; [exact Hrun|]. split; [|exact Hout].
    rewrite Hlive. simpl. apply union_empty_r_L.
Defined.

End FrontendWitnesses.

(** ** Which error a channel name is refused with *)

Section ChannelErrors.
Import Strings Channel.

(** X24. Which error [ParseChannel] refuses a name with. A name without the
    prefix [user:] is of unknown type. After the prefix, with [id] free of
    colons: [id] alone, or followed by a colon and a suffix when [id] or the
    suffix is empty or the suffix holds another colon, is a format error; with
    both parts non-empty and the suffix free of colons, an [id] that is not
    one to ten digits is an invalid identifier whatever the suffix, and a
    valid [id] with a suffix other than [margin] and [position] is of unknown
    type. *)
Theorem ParseChannel_rejections (id suffix : string) :
  occurs ":" id = false ->
  (forall channel, HasPrefix channel "user:" = false ->
     ParseChannel channel = Err ErrUnknownChannelType) /\
  ParseChannel ("user:" ++ id) = Err ErrInvalidChannelFormat /\
  (id = "" \/ suffix = "" \/ occurs ":" suffix = true ->
   ParseChannel ("user:" ++ id ++ ":" ++ suffix) = Err ErrInvalidChannelFormat) /\
  (id <> "" -> suffix <> "" -> occurs ":" suffix = false ->
   isValidAjaibID id = false ->
   ParseChannel ("user:" ++ id ++ ":" ++ suffix) = Err ErrInvalidCFXUserID) /\
  (suffix <> "" -> occurs ":" suffix = false ->
   isValidAjaibID id = true -> ~ validSuffix suffix ->
   ParseChannel ("user:" ++ id ++ ":" ++ suffix) = Err ErrUnknownChannelType).
Proof.
  intros Hid.
  assert (Hsplit : Split (id ++ String ":" suffix) ":" = id :: Split suffix ":")
    by (apply Split_app; exact Hid).
  split; [|split; [|split; [|split]]].
  - intros channel H. unfold ParseChannel, PrefixUser. now rewrite H.
  - unfold ParseChannel.
    change (HasPrefix ("user:" ++ id) PrefixUser) with true.
    change (TrimPrefix ("user:" ++ id) PrefixUser) with id.
    now rewrite (Split_without ":" id Hid).
  - intros H. unfold ParseChannel.
    change (HasPrefix ("user:" ++ id ++ ":" ++ suffix) PrefixUser) with true.
    change (TrimPrefix ("user:" ++ id ++ ":" ++ suffix) PrefixUser)
      with (id ++ String ":" suffix).
    simpl negb. cbv iota. rewrite Hsplit.
    destruct (occurs ":" suffix) eqn:Hocc.
    + apply Split_with in Hocc.
      destruct (Split suffix ":") as [|a [|b l]]; simpl in Hocc; try lia. reflexivity.
    + rewrite (Split_without ":" suffix Hocc).
      destruct H as [-> | [-> | H]]; [reflexivity| |discriminate].
      now destruct (String.eqb id "").
  - intros Hne Hne' Hocc Hinvalid. unfold ParseChannel.
    change (HasPrefix ("user:" ++ id ++ ":" ++ suffix) PrefixUser) with true.
    change (TrimPrefix ("user:" ++ id ++ ":" ++ suffix) PrefixUser)
      with (id ++ String ":" suffix).
    simpl negb. cbv iota. rewrite Hsplit, (Split_without ":" suffix Hocc).
    apply String.eqb_neq in Hne, Hne'. now rewrite Hne, Hne', Hinvalid.
  - intros Hne' Hocc Hvalid Hother. unfold ParseChannel.
    change (HasPrefix ("user:" ++ id ++ ":" ++ suffix) PrefixUser) with true.
    change (TrimPrefix ("user:" ++ id ++ ":" ++ suffix) PrefixUser)
      with (id ++ String ":" suffix).
    simpl negb. cbv iota. rewrite Hsplit, (Split_without ":" suffix Hocc).
    assert (Hne : String.eqb id "" = false).
    { destruct id; [discriminate Hvalid | reflexivity]. }
    apply String.eqb_neq in Hne'.
    rewrite Hne, Hne', Hvalid, (ValidUserChannels_other suffix Hother). reflexivity.
Qed.

Lemma ParseChannel_rejections_witness :
  ParseChannel "user:12345678901:margin" = Err ErrInvalidCFXUserID /\
  ParseChannel "user:12345678901" = Err ErrInvalidChannelFormat /\
  ParseChannel "user:111:orders" = Err ErrUnknownChannelType.
Proof.
  split; [|split].
  - apply (ParseChannel_rejections "12345678901" "margin" eq_refl);
      [discriminate | discriminate | reflexivity | reflexivity].
  - apply (ParseChannel_rejections "12345678901" "margin" eq_refl).
  - apply (ParseChannel_rejections "111" "orders" eq_refl);
      [discriminate | reflexivity | reflexivity |].
    intros [H | H]; discriminate H.
Defined.

End ChannelErrors.

(** ** Identifiers that pass the channel check, at the resolver *)

Section ResolverLaws.
Import Strings Channel Strconv Mapping.

Lemma isDigit_value c :
  isDigit c = true -> (0 <= Z.of_nat (nat_of_ascii c) - 48 <= 9)%Z.
Proof.
  unfold isDigit. intros H. apply andb_prop in H as [H1 H2].
  apply Nat.leb_le in H1, H2. lia.
Qed.

Lemma isDigit_not_sign c :
  isDigit c = true -> Ascii.eqb c "+" = false /\ Ascii.eqb c "-" = false.
Proof.
  intros H. split.
  - destruct (Ascii.eqb c "+") eqn:E; [|reflexivity].
    apply Ascii.eqb_eq in E. subst c. discriminate H.
  - destruct (Ascii.eqb c "-") eqn:E; [|reflexivity].
    apply Ascii.eqb_eq in E. subst c. discriminate H.
Qed.

Lemma parseUintFrom_digits s : forall n,
  allDigits s = true -> (0 <= n)%Z ->
  ((n + 1) * 10 ^ Z.of_nat (String.length s) <= 2 ^ 63)%Z ->
  parseUintFrom s n = Ok (decimalFrom s n) /\
  (n * 10 ^ Z.of_nat (String.length s) <= decimalFrom s n
   < (n + 1) * 10 ^ Z.of_nat (String.length s))%Z.
Proof.
  induction s as [|c s IH]; intros n Hd Hn Hb.
  - simpl. split; [reflexivity|]. change (10 ^ Z.of_nat 0)%Z with 1%Z. lia.
  - simpl in Hd. apply andb_prop in Hd as [Hc Hs].
    pose proof (isDigit_value c Hc) as Hv.
    change (String.length (String c s)) with (S (String.length s)) in *.
    rewrite Nat2Z.inj_succ, Z.pow_succ_r in * by lia.
    set (P := (10 ^ Z.of_nat (String.length s))%Z) in *.
    assert (HP1 : (0 < P)%Z) by (subst P; apply Z.pow_pos_nonneg; lia).
    assert (Hn10 : ((n + 1) * 10 <= 2 ^ 63)%Z) by nia.
    set (d := (Z.of_nat (nat_of_ascii c) - 48)%Z) in *.
    destruct (IH (n * 10 + d)%Z Hs ltac:(lia) ltac:(fold P; nia)) as [Hrun Hbound].
    fold P in Hbound.
    split.
    + cbn [parseUintFrom]. rewrite Hc. cbn [negb]. fold d. cbv zeta.
      change (maxUint64 / 10 + 1)%Z with 1844674407370955162%Z.
      change (2 ^ 63)%Z with 9223372036854775808%Z in Hn10.
      assert (H1 : (1844674407370955162 <=? n)%Z = false) by lia.
      rewrite H1.
      rewrite Z.mod_small
        by (change (2 ^ 64)%Z with 18446744073709551616%Z; lia).
      assert (H2 : (n * 10 + d <? n * 10)%Z = false) by lia.
      assert (H3 : (maxUint64 <? n * 10 + d)%Z = false).
      { change maxUint64 with 18446744073709551615%Z. lia. }
      rewrite H2, H3. cbn [orb]. exact Hrun.
    + cbn [decimalFrom]. fold d. nia.
Qed.

(** X25. An identifier that passes the channel check (one to ten decimal
    digits) always parses at the resolver: [ParseInt] returns the number the
    digits write, below ten thousand million, and the resolver's answer is
    decided by the adapter's answer for that number alone, the empty string
    standing for every failure. *)
Theorem resolveCfxUserID_valid_id (adapter : Z -> Exchange) (ajaibID : string) :
  isValidAjaibID ajaibID = true ->
  ParseInt ajaibID = Ok (decimal ajaibID) /\
  (0 <= decimal ajaibID < 10 ^ 10)%Z /\
  resolveCfxUserID (Some adapter) ajaibID
  = match GetCfxUserID (adapter (decimal ajaibID)) with
    | Ok cfxUserID => cfxUserID
    | Err _ => ""
    end.
Proof.
  intros Hvalid. apply isValidAjaibID_inv in Hvalid as [Hlen Hd].
  assert (Hpow : (10 ^ Z.of_nat (String.length ajaibID) <= 10 ^ 10)%Z).
  { apply Z.pow_le_mono_r; lia. }
  assert (Hpos : (0 < 10 ^ Z.of_nat (String.length ajaibID))%Z).
  { apply Z.pow_pos_nonneg; lia. }
  destruct (parseUintFrom_digits ajaibID 0%Z Hd ltac:(lia)) as [Hrun Hbound].
  { change (2 ^ 63)%Z with 9223372036854775808%Z.
    change (10 ^ 10)%Z with 10000000000%Z in Hpow. lia. }
  fold (decimal ajaibID) in Hrun, Hbound.
  assert (Hrange : (0 <= decimal ajaibID < 10 ^ 10)%Z) by lia.
  assert (Hparse : ParseInt ajaibID = Ok (decimal ajaibID)).
  { destruct ajaibID as [|c rest]; [simpl in Hlen; lia|].
    pose proof Hd as Hd'. simpl in Hd'. apply andb_prop in Hd' as [Hc _].
    destruct (isDigit_not_sign c Hc) as [Hplus Hminus].
    unfold ParseInt. rewrite Hplus, Hminus. cbn [orb negb andb]. cbv zeta.
    unfold ParseUint. rewrite Hrun.
    change (10 ^ 10)%Z with 10000000000%Z in Hrange.
    assert (H1 : (2 ^ 63 <=? decimal (String c rest))%Z = false).
    { change (2 ^ 63)%Z with 9223372036854775808%Z. lia. }
    rewrite H1. f_equal. apply wrap64_small.
    change (2 ^ 63)%Z with 9223372036854775808%Z. lia. }
  split; [exact Hparse|]. split; [exact Hrange|].
  unfold resolveCfxUserID. rewrite Hparse.
  destruct ajaibID; [simpl in Hlen; lia|]. reflexivity.
Qed.

Lemma resolveCfxUserID_valid_id_witness :
  ParseInt "130010505" = Ok 130010505%Z /\
  resolveCfxUserID (Some FrontSample.adapter) "130010505" = "cfx-7".
Proof.
  destruct (resolveCfxUserID_valid_id FrontSample.adapter "130010505" eq_refl)
    as (Hparse & _ & Hresolve).
  split; [exact Hparse | exact Hresolve].
Defined.

End ResolverLaws.
